(** * Multi-provider AI client with fallback: a shallow embedding

    The development follows [app/api_clients.py] (provider adapters, the
    client factory and the fallback orchestrator), the parts of
    [app/extensions.py] it relies on (the module-level circuit breakers and
    [MockRedisClient]) and [CacheManager] of [app/database.py].  Further
    sections follow the rest of [app/database.py] (the database URL, the
    query cache and the query monitor), [app/middleware.py],
    [app/health.py], the Sentry filter and the rate-limit key of
    [app/extensions.py], and the choice of configuration in
    [config/production.py] and [app/__init__.py].

    Python objects become records, exceptions become values of [PyExn], and
    a method that can raise or mutate process state becomes a computation
    [M S A := S -> Result A * S]: the state survives a raised exception, as
    it does in Python. *)

From stdpp Require Import gmap strings pretty list.
From Stdlib Require Import Ascii String ZArith QArith_base Lia.

Open Scope string_scope.
Open Scope Z_scope.

(** ** Python exceptions and results *)

Module Py.

(** The exception classes the code names or can meet.  Every one of them
    derives from Python's [Exception]; [Native] stands for an error type of
    a provider SDK and [RedisSub] for a subclass of [redis.RedisError]
    (connection, timeout, data errors). *)
Inductive ExnClass :=
| Exception
| APIClientError
| RateLimitError
| AuthenticationError
| QuotaExceededError
| CircuitBreakerError
| TypeError
| ValueError
| IndexError
| AttributeError
| JSONDecodeError
| RedisError
| RedisSub (name : string)
| Native (name : string).

#[global] Instance ExnClass_eq_dec : EqDecision ExnClass.
Proof. solve_decision. Defined.

(** The direct base class, [None] for the root. *)
Definition base (c : ExnClass) : option ExnClass :=
  match c with
  | Exception => None
  | RateLimitError | AuthenticationError | QuotaExceededError => Some APIClientError
  | JSONDecodeError => Some ValueError
  | RedisSub _ => Some RedisError
  | _ => Some Exception
  end.

(** [issubclass c d], following [base] (the hierarchy is three deep). *)
Definition issubclass (c d : ExnClass) : bool :=
  bool_decide (c = d)
  || match base c with
     | None => false
     | Some c1 =>
         bool_decide (c1 = d)
         || match base c1 with
            | None => false
            | Some c2 => bool_decide (c2 = d)
            end
     end.

(** An exception object: its class and what [str(e)] returns. *)
Record PyExn := mkExn { exn_class : ExnClass; str : string }.

Definition isinstance (e : PyExn) (c : ExnClass) : bool :=
  issubclass (exn_class e) c.

Inductive Result (A : Type) :=
| Ok (a : A)
| Raise (e : PyExn).
Arguments Ok {A} a.
Arguments Raise {A} e.

(** A computation over a mutable state [S]. *)
Definition M (S A : Type) : Type := S -> Result A * S.

Definition ret {S A} (a : A) : M S A := fun s => (Ok a, s).

Definition raise {S A} (e : PyExn) : M S A := fun s => (Raise e, s).

Definition bind {S A B} (c : M S A) (k : A -> M S B) : M S B :=
  fun s =>
    match c s with
    | (Ok a, s1) => k a s1
    | (Raise e, s1) => (Raise e, s1)
    end.

(** [try: body  except <classes matching catches> as e: handler e].  An
    exception the clause does not match propagates, and so does one raised
    by the handler. *)
Definition try_except {S A} (body : M S A) (catches : PyExn -> bool)
    (handler : PyExn -> M S A) : M S A :=
  fun s =>
    match body s with
    | (Ok a, s1) => (Ok a, s1)
    | (Raise e, s1) => if catches e then handler e s1 else (Raise e, s1)
    end.

(** Read and update the state. *)
Definition gets {S A} (f : S -> A) : M S A := fun s => (Ok (f s), s).
Definition modify {S} (f : S -> S) : M S unit := fun s => (Ok tt, f s).

(** Lift a pure partial result. *)
Definition lift {S A} (r : Result A) : M S A := fun s => (r, s).

End Py.
Import Py.

Declare Scope py_scope.
Delimit Scope py_scope with py.
Notation "x <- c ;; k" := (bind c (fun x => k))
  (at level 100, c at next level, right associativity) : py_scope.
Notation "c ;;; k" := (bind c (fun _ => k))
  (at level 100, right associativity) : py_scope.
Open Scope py_scope.

(** ** Python strings

    A [string] holds the text as bytes.  [lower] folds the ASCII letters;
    the keywords tested below are ASCII and lower-case, so this is all
    [str.lower()] contributes to the tests. *)

Module Str.

Definition lower_ascii (c : ascii) : ascii :=
  let n := N_of_ascii c in
  if ((65 <=? n) && (n <=? 90))%N then ascii_of_N (n + 32) else c.

Fixpoint lower (s : string) : string :=
  match s with
  | EmptyString => EmptyString
  | String c s' => String (lower_ascii c) (lower s')
  end.

(** [kw in s]: [kw] occurs in [s] as a contiguous substring. *)
Fixpoint contains (kw s : string) : bool :=
  String.prefix kw s
  || match s with
     | EmptyString => false
     | String _ s' => contains kw s'
     end.

(** Truthiness of a string and of an optional string ([None] and the empty
    string are falsy). *)
Definition truthy (o : option string) : bool :=
  match o with
  | Some (String _ _) => true
  | _ => false
  end.

(** [x or y] on optional strings. *)
Definition or_ (x y : option string) : option string :=
  if truthy x then x else y.

(** The ASCII characters [str.strip()] removes: space, tab to carriage
    return, and the four separators 28 to 31. *)
Definition is_space (c : ascii) : bool :=
  let n := N_of_ascii c in
  ((n =? 32) || ((9 <=? n) && (n <=? 13)) || ((28 <=? n) && (n <=? 31)))%N.

Fixpoint lstrip (s : string) : string :=
  match s with
  | EmptyString => EmptyString
  | String c s' => if is_space c then lstrip s' else s
  end.

Fixpoint rstrip (s : string) : string :=
  match s with
  | EmptyString => EmptyString
  | String c s' =>
      match rstrip s' with
      | EmptyString => if is_space c then EmptyString else String c EmptyString
      | t => String c t
      end
  end.

Definition strip (s : string) : string := rstrip (lstrip s).

(** How an f-string renders an optional string. *)
Definition fmt (o : option string) : string :=
  match o with
  | Some s => s
  | None => "None"
  end.

End Str.

(** ** The data model of [app/api_clients.py] *)

(** [class APIProvider(Enum)] and the [.value] of its members. *)
Inductive APIProvider := OPENAI | ANTHROPIC.

#[global] Instance APIProvider_eq_dec : EqDecision APIProvider.
Proof. solve_decision. Defined.

Definition value (p : APIProvider) : string :=
  match p with
  | OPENAI => "openai"
  | ANTHROPIC => "anthropic"
  end.

(** Python floats are carried as rationals: the code only stores, passes on
    and subtracts them. *)
Definition float := Q.

(** [@dataclass class APIResponse]; [None] is the default of every
    optional field. *)
Module APIResponse.
Record t := mk {
  success : bool;
  data : option string;
  error : option string;
  status_code : option Z;
  response_time : option float;
  provider : option string;
  model : option string;
  tokens_used : option Z
}.

(** [error_response.response_time = response_time] *)
Definition set_response_time (r : t) (rt : float) : t :=
  mk (success r) (data r) (error r) (status_code r) (Some rt)
     (provider r) (model r) (tokens_used r).
End APIResponse.

(** The keyword arguments the code reads from [**kwargs]; a key that is
    not passed is [None]. *)
Module Kwargs.
Record t := mk {
  api_key : option string;
  base_url : option string;
  model : option string;
  max_tokens : option Z;
  temperature : option float;
  top_p : option float;
  frequency_penalty : option float;
  presence_penalty : option float;
  stream : option bool
}.
Definition empty : t := mk None None None None None None None None None.
End Kwargs.

(** [kwargs.get(key, default)] *)
Definition get_or {A} (o : option A) (default : A) : A :=
  match o with
  | Some a => a
  | None => default
  end.

(** One chat message, [{"role": ..., "content": ...}]. *)
Record Message := mkMessage { role : string; content : string }.

(** The three SDK operations the adapters pass as [request_func]. *)
Inductive Endpoint :=
| completions_create
| chat_completions_create
| messages_create.

(** The keyword arguments of one SDK call. *)
Module Request.
Record t := mk {
  model : string;
  prompt : option string;
  messages : option (list Message);
  max_tokens : Z;
  temperature : float;
  top_p : float;
  frequency_penalty : option float;
  presence_penalty : option float;
  stream : option bool
}.
End Request.

(** What the SDK hands back.  The adapters read it through attribute
    chains; an object of another shape, an empty list or a block without
    [text] makes the chain raise. *)
Inductive ContentBlock :=
| TextBlock (text : string)
| ToolUseBlock.

Inductive NativeResponse :=
| Completion (choices : list string) (model : string) (total_tokens : Z)
| ChatCompletion (choices : list (option string)) (model : string)
    (total_tokens : Z)
| AnthropicMessage (content : list ContentBlock) (model : string)
    (input_tokens output_tokens : Z).

Inductive NativeOutcome :=
| Returns (r : NativeResponse)
| Raises (e : PyExn).

(** [class BaseAPIClient] with the fields its two subclasses add.  [obj_id]
    is the identity of the instance (what [is] compares); [cls] tells the
    subclass; [circuit_breaker] records whether the constructor got a
    breaker from [app.extensions] or [None]. *)
Module BaseAPIClient.
Record t := mk {
  obj_id : nat;
  cls : APIProvider;
  api_key : string;
  base_url : string;
  timeout : Z;
  model : string;
  circuit_breaker : bool
}.
End BaseAPIClient.

(** What a run leaves behind for an observer: SDK calls that went out and
    log records. *)
Inductive Event :=
| NetworkCall (e : Endpoint) (r : Request.t)
| LogWarning (msg : string)
| LogError (msg : string).

(** The circuit breaker is a collaborator ([pybreaker.CircuitBreaker]); the
    adapters only rely on this much of it: it may reject a call without
    running it, and after a call it ran it updates itself and may turn the
    call's failure into its own [CircuitBreakerError]. *)
Class CircuitBreaker (B : Type) := {
  rejects : B -> bool;
  record_outcome : B -> bool -> B * bool
}.

(** The process state the code reads and writes.
    - [environ]: [os.environ];
    - [py_hash]: the built-in [hash] on strings, fixed for the process;
    - [_clients]: the class attribute [APIClientFactory._clients];
    - [allocated]: how many client objects were constructed so far, which
      numbers the next one;
    - [breakers_initialised]: [init_circuit_breakers] has run, so the
      module globals of [app.extensions] are no longer [None];
    - [breaker_state]: the state of each provider's breaker object;
    - [now]: what [time.time()] returns;
    - [sdk]: the provider side, giving for the n-th SDK call its duration
      and outcome;
    - [sdk_calls]: the number of SDK calls made;
    - [trace]: the events so far, latest first. *)
Record World {B : Type} := mkWorld {
  environ : gmap string string;
  py_hash : string -> Z;
  _clients : gmap string BaseAPIClient.t;
  allocated : nat;
  breakers_initialised : bool;
  breaker_state : APIProvider -> B;
  now : float;
  sdk : nat -> Endpoint -> Request.t -> float * NativeOutcome;
  sdk_calls : nat;
  trace : list Event
}.
Arguments World B : clear implicits.

(** ** The operations of [app/api_clients.py] *)

Section ApiClients.
Context {B : Type} `{!CircuitBreaker B}.

(** *** The process: log, clock, environment, SDK, breaker *)

Definition emit (ev : Event) : M (World B) unit :=
  modify (fun w =>
    mkWorld B (environ w) (py_hash w) (_clients w) (allocated w)
      (breakers_initialised w) (breaker_state w) (now w) (sdk w)
      (sdk_calls w) (ev :: trace w)).

Definition logger_warning (msg : string) : M (World B) unit := emit (LogWarning msg).
Definition logger_error (msg : string) : M (World B) unit := emit (LogError msg).

Definition time_time : M (World B) float := gets now.

Definition os_getenv (name : string) : M (World B) (option string) :=
  gets (fun w => environ w !! name).

(** One SDK call: the request goes out, time passes, and the provider side
    answers or the SDK raises. *)
Definition sdk_call (ep : Endpoint) (req : Request.t) : M (World B) NativeResponse :=
  fun w =>
    let '(dt, out) := sdk w (sdk_calls w) ep req in
    let w1 :=
      mkWorld B (environ w) (py_hash w) (_clients w) (allocated w)
        (breakers_initialised w) (breaker_state w) (now w + dt)%Q (sdk w)
        (S (sdk_calls w)) (NetworkCall ep req :: trace w) in
    match out with
    | Returns r => (Ok r, w1)
    | Raises e => (Raise e, w1)
    end.

Definition set_breaker (p : APIProvider) (b : B) : M (World B) unit :=
  modify (fun w =>
    mkWorld B (environ w) (py_hash w) (_clients w) (allocated w)
      (breakers_initialised w)
      (fun q => if decide (q = p) then b else breaker_state w q)
      (now w) (sdk w) (sdk_calls w) (trace w)).

(** [breaker(request_func)(...)]: the breaker of provider [p] guards the
    call. *)
Definition guard {A} (p : APIProvider) (request_func : M (World B) A) : M (World B) A :=
  b <- gets (fun w => breaker_state w p) ;;
  if rejects b then
    raise (mkExn CircuitBreakerError
             "Timeout not elapsed yet, circuit breaker still open")
  else
    try_except
      (a <- request_func ;;
       b1 <- gets (fun w => breaker_state w p) ;;
       set_breaker p (fst (record_outcome b1 true)) ;;;
       ret a)
      (fun _ => true)
      (fun e =>
         b1 <- gets (fun w => breaker_state w p) ;;
         let '(b2, tripped) := record_outcome b1 false in
         set_breaker p b2 ;;;
         if tripped then
           raise (mkExn CircuitBreakerError
                    "Failures threshold reached, circuit breaker opened")
         else raise e).

(** *** [BaseAPIClient._handle_error] *)

Definition failure (message provider : string) : APIResponse.t :=
  APIResponse.mk false None (Some message) None None (Some provider) None None.

Definition _handle_error (error : PyExn) (provider : string) : APIResponse.t :=
  let error_message := str error in
  if Str.contains "rate limit" (Str.lower error_message) then
    failure "Rate limit exceeded" provider
  else if Str.contains "authentication" (Str.lower error_message)
          || Str.contains "unauthorized" (Str.lower error_message) then
    failure "Authentication failed" provider
  else if Str.contains "quota" (Str.lower error_message)
          || Str.contains "billing" (Str.lower error_message) then
    failure "API quota exceeded" provider
  else
    failure ("API error: " ++ error_message) provider.

(** *** Reading the SDK's response objects *)

Definition no_attribute (obj attr : string) : PyExn :=
  mkExn AttributeError
    ("'" ++ obj ++ "' object has no attribute '" ++ attr ++ "'").

Definition index_out_of_range : PyExn :=
  mkExn IndexError "list index out of range".

Definition type_name (r : NativeResponse) : string :=
  match r with
  | Completion _ _ _ => "Completion"
  | ChatCompletion _ _ _ => "ChatCompletion"
  | AnthropicMessage _ _ _ _ => "Message"
  end.

(** [response.choices[0].text.strip()], [response.model],
    [response.usage.total_tokens] *)
Definition read_completion (r : NativeResponse)
    : Result (option string * string * Z) :=
  match r with
  | Completion [] _ _ => Raise index_out_of_range
  | Completion (text :: _) model total => Ok (Some (Str.strip text), model, total)
  | ChatCompletion [] _ _ => Raise index_out_of_range
  | ChatCompletion (_ :: _) _ _ => Raise (no_attribute "Choice" "text")
  | AnthropicMessage _ _ _ _ => Raise (no_attribute (type_name r) "choices")
  end.

(** [response.choices[0].message.content], [response.model],
    [response.usage.total_tokens]; the content of a chat message may be
    [None]. *)
Definition read_chat_completion (r : NativeResponse)
    : Result (option string * string * Z) :=
  match r with
  | ChatCompletion [] _ _ => Raise index_out_of_range
  | ChatCompletion (content :: _) model total => Ok (content, model, total)
  | Completion [] _ _ => Raise index_out_of_range
  | Completion (_ :: _) _ _ => Raise (no_attribute "CompletionChoice" "message")
  | AnthropicMessage _ _ _ _ => Raise (no_attribute (type_name r) "choices")
  end.

(** [response.content[0].text], [response.model],
    [response.usage.input_tokens + response.usage.output_tokens] *)
Definition read_message (r : NativeResponse)
    : Result (option string * string * Z) :=
  match r with
  | AnthropicMessage [] _ _ _ => Raise index_out_of_range
  | AnthropicMessage (TextBlock text :: _) model input output =>
      Ok (Some text, model, input + output)
  | AnthropicMessage (ToolUseBlock :: _) _ _ _ =>
      Raise (no_attribute "ToolUseBlock" "text")
  | _ => Raise (no_attribute (type_name r) "content")
  end.

(** [APIResponse(success=True, data=..., response_time=..., provider=...,
    model=..., tokens_used=...)] *)
Definition succeeded (fields : option string * string * Z)
    (response_time : float) (provider : string) : APIResponse.t :=
  let '(data, model, tokens) := fields in
  APIResponse.mk true data None None (Some response_time) (Some provider)
    (Some model) (Some tokens).

(** The [except Exception as e] clause shared by the four adapter methods. *)
Definition on_error (start_time : float) (log_prefix provider : string)
    (e : PyExn) : M (World B) APIResponse.t :=
  end_time <- time_time ;;
  let response_time := (end_time - start_time)%Q in
  logger_error (log_prefix ++ str e) ;;;
  let error_response := _handle_error e provider in
  ret (APIResponse.set_response_time error_response response_time).

(** *** [class OpenAIClient] *)

(** The function that follows [def _make_request] in the class body. *)
Definition make_request_body {A} (service : string)
    (self : BaseAPIClient.t) (request_func : M (World B) A) : M (World B) A :=
  try_except
    (if BaseAPIClient.circuit_breaker self
     then guard (BaseAPIClient.cls self) request_func
     else request_func)
    (fun e => isinstance e CircuitBreakerError)
    (fun _ =>
       raise (mkExn APIClientError (service ++ " service temporarily unavailable"))).

(** In [OpenAIClient] the definition carries the decorator line
    [@pybreaker.CircuitBreakerError], so the class attribute
    [_make_request] is bound to [CircuitBreakerError(<the function>)], an
    exception instance.  [self._make_request(...)] finds that instance
    (exceptions are not descriptors), evaluates the arguments and then
    fails to call it. *)
Definition not_callable : PyExn :=
  mkExn TypeError "'CircuitBreakerError' object is not callable".

Definition OpenAIClient__make_request {A} (self : BaseAPIClient.t)
    (request_func : M (World B) A) : M (World B) A :=
  raise not_callable.

Definition OpenAIClient_generate_completion (self : BaseAPIClient.t)
    (prompt : string) (kwargs : Kwargs.t) : M (World B) APIResponse.t :=
  start_time <- time_time ;;
  try_except
    (response <- OpenAIClient__make_request self
       (sdk_call completions_create
          (Request.mk
             (get_or (Kwargs.model kwargs) (BaseAPIClient.model self))
             (Some prompt)
             None
             (get_or (Kwargs.max_tokens kwargs) 1000)
             (get_or (Kwargs.temperature kwargs) (7 # 10)%Q)
             (get_or (Kwargs.top_p kwargs) 1%Q)
             (Some (get_or (Kwargs.frequency_penalty kwargs) 0%Q))
             (Some (get_or (Kwargs.presence_penalty kwargs) 0%Q))
             None)) ;;
     end_time <- time_time ;;
     let response_time := (end_time - start_time)%Q in
     fields <- lift (read_completion response) ;;
     ret (succeeded fields response_time "openai"))
    (fun e => isinstance e Exception)
    (on_error start_time "OpenAI completion error: " "openai").

Definition OpenAIClient_generate_chat_completion (self : BaseAPIClient.t)
    (messages : list Message) (kwargs : Kwargs.t) : M (World B) APIResponse.t :=
  start_time <- time_time ;;
  try_except
    (response <- OpenAIClient__make_request self
       (sdk_call chat_completions_create
          (Request.mk
             (get_or (Kwargs.model kwargs) (BaseAPIClient.model self))
             None
             (Some messages)
             (get_or (Kwargs.max_tokens kwargs) 1000)
             (get_or (Kwargs.temperature kwargs) (7 # 10)%Q)
             (get_or (Kwargs.top_p kwargs) 1%Q)
             (Some (get_or (Kwargs.frequency_penalty kwargs) 0%Q))
             (Some (get_or (Kwargs.presence_penalty kwargs) 0%Q))
             (Some (get_or (Kwargs.stream kwargs) false)))) ;;
     end_time <- time_time ;;
     let response_time := (end_time - start_time)%Q in
     fields <- lift (read_chat_completion response) ;;
     ret (succeeded fields response_time "openai"))
    (fun e => isinstance e Exception)
    (on_error start_time "OpenAI chat completion error: " "openai").

(** *** [class AnthropicClient] *)

Definition AnthropicClient__make_request {A} (self : BaseAPIClient.t)
    (request_func : M (World B) A) : M (World B) A :=
  make_request_body "Anthropic" self request_func.

Definition AnthropicClient_generate_chat_completion (self : BaseAPIClient.t)
    (messages : list Message) (kwargs : Kwargs.t) : M (World B) APIResponse.t :=
  start_time <- time_time ;;
  try_except
    (response <- AnthropicClient__make_request self
       (sdk_call messages_create
          (Request.mk
             (get_or (Kwargs.model kwargs) (BaseAPIClient.model self))
             None
             (Some messages)
             (get_or (Kwargs.max_tokens kwargs) 1000)
             (get_or (Kwargs.temperature kwargs) (7 # 10)%Q)
             (get_or (Kwargs.top_p kwargs) 1%Q)
             None None None)) ;;
     end_time <- time_time ;;
     let response_time := (end_time - start_time)%Q in
     fields <- lift (read_message response) ;;
     ret (succeeded fields response_time "anthropic"))
    (fun e => isinstance e Exception)
    (on_error start_time "Anthropic completion error: " "anthropic").

Definition AnthropicClient_generate_completion (self : BaseAPIClient.t)
    (prompt : string) (kwargs : Kwargs.t) : M (World B) APIResponse.t :=
  let messages := [mkMessage "user" prompt] in
  AnthropicClient_generate_chat_completion self messages kwargs.

(** Method dispatch on the subclass of the instance. *)
Definition generate_completion (client : BaseAPIClient.t)
    (prompt : string) (kwargs : Kwargs.t) : M (World B) APIResponse.t :=
  match BaseAPIClient.cls client with
  | OPENAI => OpenAIClient_generate_completion client prompt kwargs
  | ANTHROPIC => AnthropicClient_generate_completion client prompt kwargs
  end.

Definition generate_chat_completion (client : BaseAPIClient.t)
    (messages : list Message) (kwargs : Kwargs.t) : M (World B) APIResponse.t :=
  match BaseAPIClient.cls client with
  | OPENAI => OpenAIClient_generate_chat_completion client messages kwargs
  | ANTHROPIC => AnthropicClient_generate_chat_completion client messages kwargs
  end.

End ApiClients.

(** ** The factory and the orchestrator *)

Section Factory.
Context {B : Type} `{!CircuitBreaker B}.

(** [get_openai_breaker()] / [get_anthropic_breaker()] return the module
    global, [None] until [init_circuit_breakers] has run; the constructor
    stores it in [self.circuit_breaker]. *)
Definition get_breaker (p : APIProvider) : M (World B) bool :=
  gets breakers_initialised.

(** [OpenAIClient.__init__] and [AnthropicClient.__init__]: the default base
    URL, the 30 second timeout of [BaseAPIClient.__init__], a fresh object.
    Building the session and the SDK client sends nothing. *)
Definition default_base_url (p : APIProvider) : string :=
  match p with
  | OPENAI => "https://api.openai.com/v1"
  | ANTHROPIC => "https://api.anthropic.com"
  end.

Definition new_client (p : APIProvider) (api_key : string)
    (base_url : option string) (model : string)
    : M (World B) BaseAPIClient.t :=
  let base_url := Str.or_ base_url (Some (default_base_url p)) in
  breaker <- get_breaker p ;;
  n <- gets allocated ;;
  modify (fun w =>
    mkWorld B (environ w) (py_hash w) (_clients w) (S (allocated w))
      (breakers_initialised w) (breaker_state w) (now w) (sdk w)
      (sdk_calls w) (trace w)) ;;;
  ret (BaseAPIClient.mk n p api_key (get_or base_url (default_base_url p))
         30 model breaker).

(** [cls._clients[client_key] = client] *)
Definition store_client (client_key : string) (client : BaseAPIClient.t)
    : M (World B) unit :=
  modify (fun w =>
    mkWorld B (environ w) (py_hash w) (<[client_key := client]> (_clients w))
      (allocated w) (breakers_initialised w) (breaker_state w) (now w)
      (sdk w) (sdk_calls w) (trace w)).

(** The names that differ between the two branches of [get_client]. *)
Definition key_variable (p : APIProvider) : string :=
  match p with
  | OPENAI => "OPENAI_API_KEY"
  | ANTHROPIC => "ANTHROPIC_API_KEY"
  end.

Definition base_url_variable (p : APIProvider) : string :=
  match p with
  | OPENAI => "OPENAI_API_BASE_URL"
  | ANTHROPIC => "ANTHROPIC_API_BASE_URL"
  end.

Definition model_variable (p : APIProvider) : string :=
  match p with
  | OPENAI => "OPENAI_MODEL"
  | ANTHROPIC => "ANTHROPIC_MODEL"
  end.

Definition default_model (p : APIProvider) : string :=
  match p with
  | OPENAI => "gpt-4"
  | ANTHROPIC => "claude-3-sonnet-20240229"
  end.

Definition key_not_provided (p : APIProvider) : PyExn :=
  match p with
  | OPENAI => mkExn APIClientError "OpenAI API key not provided"
  | ANTHROPIC => mkExn APIClientError "Anthropic API key not provided"
  end.

(** [f"openai_{hash(api_key)}"] / [f"anthropic_{hash(api_key)}"] *)
Definition client_key (p : APIProvider) (h : Z) : string :=
  value p ++ "_" ++ pretty h.

(** [APIClientFactory.get_client].  Both members of the enumeration have
    their branch; the final [else] (unsupported provider) needs a value
    outside [APIProvider]. *)
Definition get_client (provider : APIProvider) (kwargs : Kwargs.t)
    : M (World B) BaseAPIClient.t :=
  from_env <- os_getenv (key_variable provider) ;;
  let api_key := Str.or_ (Kwargs.api_key kwargs) from_env in
  if negb (Str.truthy api_key) then raise (key_not_provided provider)
  else
    let api_key := get_or api_key EmptyString in
    h <- gets (fun w => py_hash w api_key) ;;
    let client_key := client_key provider h in
    cached <- gets (fun w => _clients w !! client_key) ;;
    match cached with
    | Some client => ret client
    | None =>
        env_base_url <- os_getenv (base_url_variable provider) ;;
        env_model <- os_getenv (model_variable provider) ;;
        client <- new_client provider api_key
                    (Str.or_ (Kwargs.base_url kwargs) env_base_url)
                    (get_or
                       (Str.or_ (Kwargs.model kwargs)
                          (Some (get_or env_model (default_model provider))))
                       EmptyString) ;;
        store_client client_key client ;;;
        ret client
    end.

(** [APIClientFactory.clear_clients] *)
Definition clear_clients : M (World B) unit :=
  modify (fun w =>
    mkWorld B (environ w) (py_hash w) ∅ (allocated w)
      (breakers_initialised w) (breaker_state w) (now w) (sdk w)
      (sdk_calls w) (trace w)).

(** [class UnifiedAPIClient] *)
Record UnifiedAPIClient := mkUnified {
  primary_provider : APIProvider;
  fallback_providers : list APIProvider;
  request_count : Z
}.

(** [UnifiedAPIClient.__init__] *)
Definition UnifiedAPIClient_init (primary : APIProvider)
    (fallbacks : option (list APIProvider)) : UnifiedAPIClient :=
  mkUnified primary (get_or fallbacks []) 0.

(** The result returned after the loop. *)
Definition all_failed : APIResponse.t :=
  APIResponse.mk false None (Some "All AI providers failed") None None
    (Some "unified") None None.

(** One turn of [for provider in providers], with [invoke] the adapter
    method the loop body calls.  [Some response] is the [return response]
    inside the loop; [None] falls through to the next provider, either at
    the end of the body or by [continue]. *)
Definition attempt (invoke : BaseAPIClient.t -> M (World B) APIResponse.t)
    (kwargs : Kwargs.t) (provider : APIProvider)
    : M (World B) (option APIResponse.t) :=
  try_except
    (client <- get_client provider kwargs ;;
     response <- invoke client ;;
     if APIResponse.success response then ret (Some response)
     else
       logger_warning
         ("Provider " ++ value provider ++ " failed: "
            ++ Str.fmt (APIResponse.error response)) ;;;
       ret None)
    (fun e => isinstance e Exception)
    (fun e =>
       logger_error ("Provider " ++ value provider ++ " error: " ++ str e) ;;;
       ret None).

(** The loop of [generate_completion] and of [generate_chat_completion];
    the orchestrator object is returned with the response because the loop
    updates its [request_count]. *)
Fixpoint fallback (invoke : BaseAPIClient.t -> M (World B) APIResponse.t)
    (kwargs : Kwargs.t) (providers : list APIProvider)
    (self : UnifiedAPIClient)
    : M (World B) (APIResponse.t * UnifiedAPIClient) :=
  match providers with
  | [] => ret (all_failed, self)
  | provider :: rest =>
      returned <- attempt invoke kwargs provider ;;
      match returned with
      | Some response =>
          ret (response,
               mkUnified (primary_provider self) (fallback_providers self)
                 (request_count self + 1))
      | None => fallback invoke kwargs rest self
      end
  end.

Definition UnifiedAPIClient_generate_completion (self : UnifiedAPIClient)
    (prompt : string) (kwargs : Kwargs.t)
    : M (World B) (APIResponse.t * UnifiedAPIClient) :=
  let providers := ([primary_provider self] ++ fallback_providers self)%list in
  fallback (fun client => generate_completion client prompt kwargs)
    kwargs providers self.

Definition UnifiedAPIClient_generate_chat_completion (self : UnifiedAPIClient)
    (messages : list Message) (kwargs : Kwargs.t)
    : M (World B) (APIResponse.t * UnifiedAPIClient) :=
  let providers := ([primary_provider self] ++ fallback_providers self)%list in
  fallback (fun client => generate_chat_completion client messages kwargs)
    kwargs providers self.

End Factory.

(** ** [CacheManager] of [app/database.py] *)

Module Cache.

(** What [CacheManager] asks of its [redis_client]: four methods, each of
    which may raise.  [R] is the state behind the client. *)
Class RedisClient (R : Type) := {
  redis_get : string -> M R (option string);
  redis_set : string -> string -> Z -> M R (option bool);
  redis_delete : list string -> M R Z;
  redis_keys : string -> M R (list string)
}.

(** [json.dumps(value, default=str)] and [json.loads(value)] on the cached
    values [V]; [loads] gives [None] for the JSON text [null]. *)
Class Json (V : Type) := {
  dumps : V -> Result string;
  loads : string -> Result (option V)
}.

(** The cache manager runs over the client's state and the log. *)
Record CacheWorld {R : Type} := mkCacheWorld {
  store : R;
  warnings : list string
}.
Arguments CacheWorld R : clear implicits.

Record CacheManager := mkCacheManager {
  default_ttl : Z;
  key_prefix : string
}.

Section Manager.
Context {R V : Type} `{!RedisClient R} `{!Json V}.

(** A call on [self.redis_client]. *)
Definition on_client {A} (c : M R A) : M (CacheWorld R) A :=
  fun w =>
    let '(r, s) := c (store w) in
    (r, mkCacheWorld R s (warnings w)).

Definition logger_warning (msg : string) : M (CacheWorld R) unit :=
  modify (fun w => mkCacheWorld R (store w) (msg :: warnings w)).

Definition _make_key (self : CacheManager) (key : string) : string :=
  key_prefix self ++ key.

Definition get (self : CacheManager) (key : string)
    : M (CacheWorld R) (option V) :=
  try_except
    (let cache_key := _make_key self key in
     value <- on_client (redis_get cache_key) ;;
     if Str.truthy value then lift (loads (get_or value EmptyString))
     else ret None)
    (fun e => isinstance e RedisError || isinstance e JSONDecodeError)
    (fun e =>
       logger_warning ("Cache get error for key " ++ key ++ ": " ++ str e) ;;;
       ret None).

(** [ttl or self.default_ttl]: [None] and [0] are falsy. *)
Definition ttl_or_default (self : CacheManager) (ttl : option Z) : Z :=
  match ttl with
  | Some t => if t =? 0 then default_ttl self else t
  | None => default_ttl self
  end.

Definition set (self : CacheManager) (key : string) (value : V)
    (ttl : option Z) : M (CacheWorld R) (option bool) :=
  try_except
    (let cache_key := _make_key self key in
     let ttl := ttl_or_default self ttl in
     serialized_value <- lift (dumps value) ;;
     on_client (redis_set cache_key serialized_value ttl))
    (fun e => isinstance e RedisError || isinstance e TypeError)
    (fun e =>
       logger_warning ("Cache set error for key " ++ key ++ ": " ++ str e) ;;;
       ret (Some false)).

Definition delete (self : CacheManager) (key : string)
    : M (CacheWorld R) bool :=
  try_except
    (let cache_key := _make_key self key in
     n <- on_client (redis_delete [cache_key]) ;;
     ret (negb (n =? 0)))
    (fun e => isinstance e RedisError)
    (fun e =>
       logger_warning
         ("Cache delete error for key " ++ key ++ ": " ++ str e) ;;;
       ret false).

Definition invalidate_pattern (self : CacheManager) (pattern : string)
    : M (CacheWorld R) Z :=
  try_except
    (let cache_pattern := _make_key self pattern in
     keys <- on_client (redis_keys cache_pattern) ;;
     match keys with
     | _ :: _ => on_client (redis_delete keys)
     | [] => ret 0
     end)
    (fun e => isinstance e RedisError)
    (fun e =>
       logger_warning
         ("Cache invalidate pattern error for " ++ pattern ++ ": " ++ str e) ;;;
       ret 0).

(** The four operations under one type, to state what they share. *)
Inductive Operation :=
| OpGet (key : string)
| OpSet (key : string) (value : V) (ttl : option Z)
| OpDelete (key : string)
| OpInvalidatePattern (pattern : string).

Inductive Returned :=
| Value (v : option V)
| Flag (b : option bool)
| Count (n : Z).

Definition run (self : CacheManager) (op : Operation)
    : M (CacheWorld R) Returned :=
  match op with
  | OpGet key => v <- get self key ;; ret (Value v)
  | OpSet key value ttl => b <- set self key value ttl ;; ret (Flag b)
  | OpDelete key => b <- delete self key ;; ret (Flag (Some b))
  | OpInvalidatePattern pattern =>
      n <- invalidate_pattern self pattern ;; ret (Count n)
  end.




End Manager.

(** [class MockRedisClient] of [app/extensions.py]: a dictionary, and no
    [keys] method. *)
Definition MockRedisClient := gmap string string.

#[global] Instance mock_redis : RedisClient MockRedisClient := {
  redis_get key := gets (fun _data => _data !! key);
  redis_set key value ex :=
    modify (fun _data => <[key := value]> _data) ;;; ret (Some true);
  redis_delete keys :=
    match keys with
    | [key] =>
        present <- gets (fun _data => bool_decide (is_Some (_data !! key))) ;;
        modify (fun _data => base.delete key _data) ;;;
        ret (if present then 1 else 0)
    | _ =>
        raise (mkExn TypeError
                 ("MockRedisClient.delete() takes 2 positional arguments but "
                    ++ pretty (S (List.length keys)) ++ " were given"))
    end;
  redis_keys _ :=
    raise (mkExn AttributeError
             "'MockRedisClient' object has no attribute 'keys'")
}.

(** A redis client whose server cannot be reached: every command raises
    [redis.ConnectionError]. *)
Definition connection_error : PyExn :=
  mkExn (RedisSub "ConnectionError") "Error 111 connecting to localhost:6379. Connection refused.".

Definition Unreachable := unit.

#[global] Instance unreachable_redis : RedisClient Unreachable := {
  redis_get _ := raise connection_error;
  redis_set _ _ _ := raise connection_error;
  redis_delete _ := raise connection_error;
  redis_keys _ := raise connection_error
}.

(** A codec for cached values that are plain strings without characters
    that JSON escapes: the text between two double quotes. *)
Definition dq : string := String (ascii_of_N 34) EmptyString.

#[global] Instance json_text : Json string := {
  dumps v := Ok (dq ++ v ++ dq);
  loads t :=
    if String.eqb t "null" then Ok None
    else if String.prefix dq t
            && String.eqb (String.substring (String.length t - 1) 1 t) dq
            && (2 <=? String.length t)%nat
    then Ok (Some (String.substring 1 (String.length t - 2) t))
    else Raise (mkExn JSONDecodeError "Expecting value: line 1 column 1 (char 0)")
}.

End Cache.

(** ** Vocabulary for the statements *)

(** The classification rule as the specification words it: a
    case-insensitive substring test per keyword, first match wins. *)
Module SpecClassification.

Inductive FailureReason :=
| RateLimited
| AuthFailed
| QuotaExceeded
| ProviderError (message : string).

(** Two characters that differ at most in case. *)
Definition same_letter (a b : ascii) : bool :=
  Ascii.eqb (Str.lower_ascii a) (Str.lower_ascii b).

Fixpoint starts_with_ci (kw s : string) : bool :=
  match kw, s with
  | EmptyString, _ => true
  | String a kw', String b s' => same_letter a b && starts_with_ci kw' s'
  | String _ _, EmptyString => false
  end.

Fixpoint contains_ci (kw s : string) : bool :=
  starts_with_ci kw s
  || match s with
     | EmptyString => false
     | String _ s' => contains_ci kw s'
     end.

Definition classify (message : string) : FailureReason :=
  if contains_ci "rate limit" message then RateLimited
  else if contains_ci "authentication" message
          || contains_ci "unauthorized" message then AuthFailed
  else if contains_ci "quota" message
          || contains_ci "billing" message then QuotaExceeded
  else ProviderError message.

(** The text by which a [CallResult] of the code carries each reason. *)
Definition reason_text (r : FailureReason) : string :=
  match r with
  | RateLimited => "Rate limit exceeded"
  | AuthFailed => "Authentication failed"
  | QuotaExceeded => "API quota exceeded"
  | ProviderError message => "API error: " ++ message
  end.

End SpecClassification.

(** A computation that returns on every state, with a result in [P]. *)
Definition always_returns {S A} (c : M S A) (P : A -> Prop) : Prop :=
  forall s, exists a s1, c s = (Ok a, s1) /\ P a.

(** A computation whose results, when it returns, are in [P]. *)
Definition results_in {S A} (c : M S A) (P : A -> Prop) : Prop :=
  forall s a s1, c s = (Ok a, s1) -> P a.

(** The invariant of a [CallResult]: the payload goes with success, the
    failure reason with failure. *)
Definition exactly_one (r : APIResponse.t) : Prop :=
  (is_Some (APIResponse.data r) <-> APIResponse.success r = true)
  /\ (is_Some (APIResponse.error r) <-> APIResponse.success r = false).

Section Statements.
Context {B : Type} `{!CircuitBreaker B}.

(** The two generation requests, [completeText] and [completeChat]. *)
Inductive Call :=
| CompleteText (prompt : string)
| CompleteChat (messages : list Message).

(** The adapter method a request invokes on a client. *)
Definition invoke (call : Call) (kwargs : Kwargs.t) (client : BaseAPIClient.t)
    : M (World B) APIResponse.t :=
  match call with
  | CompleteText prompt => generate_completion client prompt kwargs
  | CompleteChat messages => generate_chat_completion client messages kwargs
  end.

(** The orchestrator method a request invokes. *)
Definition orchestrate (self : UnifiedAPIClient) (call : Call)
    (kwargs : Kwargs.t) : M (World B) (APIResponse.t * UnifiedAPIClient) :=
  match call with
  | CompleteText prompt => UnifiedAPIClient_generate_completion self prompt kwargs
  | CompleteChat messages =>
      UnifiedAPIClient_generate_chat_completion self messages kwargs
  end.

(** What one provider does for a request: its handle is obtained and the
    method is invoked on it. *)
Definition provider_call (call : Call) (kwargs : Kwargs.t)
    (provider : APIProvider) : M (World B) APIResponse.t :=
  client <- get_client provider kwargs ;;
  invoke call kwargs client.

(** The world once a record is logged. *)
Definition logged (ev : Event) (w : World B) : World B := snd (emit ev w).

(** [providers_fail call kwargs ps w w']: tried in order from [w], every
    provider of [ps] fails, by returning a failed result or by raising, and
    the attempts with their log records lead to [w']. *)
Inductive providers_fail (call : Call) (kwargs : Kwargs.t)
    : list APIProvider -> World B -> World B -> Prop :=
| fail_none w : providers_fail call kwargs [] w w
| fail_result p ps w r w1 w2 :
    provider_call call kwargs p w = (Ok r, w1) ->
    APIResponse.success r = false ->
    providers_fail call kwargs ps
      (logged (LogWarning ("Provider " ++ value p ++ " failed: "
                             ++ Str.fmt (APIResponse.error r))) w1) w2 ->
    providers_fail call kwargs (p :: ps) w w2
| fail_raise p ps w e w1 w2 :
    provider_call call kwargs p w = (Raise e, w1) ->
    providers_fail call kwargs ps
      (logged (LogError ("Provider " ++ value p ++ " error: " ++ str e)) w1)
      w2 ->
    providers_fail call kwargs (p :: ps) w w2.

(** The orchestrator after one more successful request. *)
Definition counted (self : UnifiedAPIClient) : UnifiedAPIClient :=
  mkUnified (primary_provider self) (fallback_providers self)
    (request_count self + 1).

(** The credential [get_client] resolves: the argument, else the
    environment variable of the provider. *)
Definition credential (p : APIProvider) (kwargs : Kwargs.t) (w : World B)
    : option string :=
  Str.or_ (Kwargs.api_key kwargs) (environ w !! key_variable p).

(** The registry holds objects that were allocated, one per key. *)
Definition registry_ok (w : World B) : Prop :=
  (forall k c, _clients w !! k = Some c ->
     (BaseAPIClient.obj_id c < allocated w)%nat)
  /\ (forall k1 k2 c1 c2,
        _clients w !! k1 = Some c1 -> _clients w !! k2 = Some c2 ->
        BaseAPIClient.obj_id c1 = BaseAPIClient.obj_id c2 -> k1 = k2).

(** The client's breaker is attached and open. *)
Definition breaker_open (client : BaseAPIClient.t) (w : World B) : Prop :=
  BaseAPIClient.circuit_breaker client = true
  /\ rejects (breaker_state w (BaseAPIClient.cls client)) = true.

(** The result of an adapter method whose call ended with exception [e]. *)
Definition error_result (e : PyExn) (provider : string) (elapsed : float)
    : APIResponse.t :=
  APIResponse.set_response_time (_handle_error e provider) elapsed.

(** The two shapes of an adapter's result: a success that carries a text,
    or the classified failure of some exception. *)
Definition adapter_result (provider : string) (r : APIResponse.t) : Prop :=
  (exists text model tokens elapsed,
     r = succeeded (Some text, model, tokens) elapsed provider)
  \/ (exists e elapsed, r = error_result e provider elapsed).

(** The provider name an adapter writes into its results. *)
Definition result_name (client : BaseAPIClient.t) : string :=
  value (BaseAPIClient.cls client).

End Statements.

(** ** Concrete processes

    A breaker, provider behaviours and process states on which the
    definitions run. *)

(** A breaker configured like those of [init_circuit_breakers]
    ([fail_max=5]), without the cooldown: it opens at the fifth failure in
    a row and then rejects. *)
Record CountingBreaker := mkBreaker { fail_counter : nat; opened : bool }.

#[global] Instance counting_breaker : CircuitBreaker CountingBreaker := {
  rejects b := opened b;
  record_outcome b ok :=
    if ok then (mkBreaker 0 false, false)
    else
      let n := S (fail_counter b) in
      if (5 <=? n)%nat then (mkBreaker n true, true)
      else (mkBreaker n false, false)
}.

Definition closed_breaker : CountingBreaker := mkBreaker 0 false.
Definition open_breaker : CountingBreaker := mkBreaker 5 true.

(** A provider side where Anthropic answers "hello" after one second. *)
Definition anthropic_answers (n : nat) (ep : Endpoint) (req : Request.t)
    : float * NativeOutcome :=
  (1%Q,
   match ep with
   | messages_create =>
       Returns (AnthropicMessage [TextBlock "hello"] (Request.model req) 3 2)
   | _ => Raises (mkExn (Native "APIConnectionError") "Connection error.")
   end).

(** A provider side where every request is refused for quota. *)
Definition quota_exhausted (n : nat) (ep : Endpoint) (req : Request.t)
    : float * NativeOutcome :=
  (1%Q,
   Raises (mkExn (Native "RateLimitError")
             "You exceeded your current quota, please check your plan")).

(** A stand-in for the built-in [hash]: the length of the string. *)
Definition length_hash (s : string) : Z := Z.of_nat (String.length s).

Definition both_keys : gmap string string :=
  <["OPENAI_API_KEY" := "sk-openai"]>
    (<["ANTHROPIC_API_KEY" := "sk-anthropic-key"]> ∅).

Definition anthropic_key_only : gmap string string :=
  <["ANTHROPIC_API_KEY" := "sk-anthropic-key"]> ∅.

(** A process right after start-up, for a given environment, hash,
    breaker state and provider side. *)
Definition fresh_world (env : gmap string string) (h : string -> Z)
    (b : CountingBreaker)
    (provider_side : nat -> Endpoint -> Request.t -> float * NativeOutcome)
    : World CountingBreaker :=
  mkWorld CountingBreaker env h ∅ 0 true (fun _ => b) 0%Q provider_side 0 [].

Definition demo_world : World CountingBreaker :=
  fresh_world both_keys length_hash closed_breaker anthropic_answers.

Definition no_openai_key_world : World CountingBreaker :=
  fresh_world anthropic_key_only length_hash closed_breaker anthropic_answers.

Definition quota_world : World CountingBreaker :=
  fresh_world both_keys length_hash closed_breaker quota_exhausted.

Definition breakers_open_world : World CountingBreaker :=
  fresh_world both_keys length_hash open_breaker anthropic_answers.

(** [get_unified_client("openai", ["anthropic"])] *)
Definition openai_then_anthropic : UnifiedAPIClient :=
  UnifiedAPIClient_init OPENAI (Some [ANTHROPIC]).



(** ** Further operations of [app/api_clients.py] *)

(** [APIProvider(name)]: the member whose value is [name]; any other string
    is a [ValueError]. *)
Definition APIProvider_of_value (name : string) : Result APIProvider :=
  if String.eqb name "openai" then Ok OPENAI
  else if String.eqb name "anthropic" then Ok ANTHROPIC
  else Raise (mkExn ValueError ("'" ++ name ++ "' is not a valid APIProvider")).

(** [[APIProvider(fb) for fb in names]] *)
Fixpoint providers_of_values (names : list string) : Result (list APIProvider) :=
  match names with
  | [] => Ok []
  | fb :: rest =>
      match APIProvider_of_value fb with
      | Raise e => Raise e
      | Ok p =>
          match providers_of_values rest with
          | Raise e => Raise e
          | Ok ps => Ok (p :: ps)
          end
      end
  end.

(** [get_unified_client(primary="openai", fallbacks=None)]; an argument
    that is not passed is [None]. *)
Definition get_unified_client (primary : option string)
    (fallbacks : option (list string)) : Result UnifiedAPIClient :=
  match APIProvider_of_value (get_or primary "openai") with
  | Raise e => Raise e
  | Ok primary_provider =>
      match providers_of_values (get_or fallbacks []) with
      | Raise e => Raise e
      | Ok fallback_providers =>
          Ok (UnifiedAPIClient_init primary_provider (Some fallback_providers))
      end
  end.

Section FurtherStatements.
Context {B : Type} `{!CircuitBreaker B}.

(** The keyword arguments [AnthropicClient.generate_chat_completion] passes
    to [messages.create]. *)
Definition anthropic_request (self : BaseAPIClient.t)
    (messages : list Message) (kwargs : Kwargs.t) : Request.t :=
  Request.mk
    (get_or (Kwargs.model kwargs) (BaseAPIClient.model self))
    None
    (Some messages)
    (get_or (Kwargs.max_tokens kwargs) 1000)
    (get_or (Kwargs.temperature kwargs) (7 # 10)%Q)
    (get_or (Kwargs.top_p kwargs) 1%Q)
    None None None.

(** The registry keeps each provider's clients under that provider's
    keys. *)
Definition registry_typed (w : World B) : Prop :=
  forall p h c,
    _clients w !! client_key p h = Some c -> BaseAPIClient.cls c = p.

(** [w1] comes after [w] in the life of the process: same environment and
    hash, nothing unregistered, no object or request taken back. *)
Definition later (w w1 : World B) : Prop :=
  environ w1 = environ w
  /\ py_hash w1 = py_hash w
  /\ (allocated w <= allocated w1)%nat
  /\ (sdk_calls w <= sdk_calls w1)%nat
  /\ (forall k c, _clients w !! k = Some c -> _clients w1 !! k = Some c).

(** The failure an adapter reports for an unavailable service. *)
Definition unavailable (service : string) : PyExn :=
  mkExn APIClientError (service ++ " service temporarily unavailable").

(** The breaker of the client lets a call through: none is attached, or
    the attached one does not reject. *)
Definition breaker_passes (client : BaseAPIClient.t) (w : World B) : Prop :=
  BaseAPIClient.circuit_breaker client = false
  \/ rejects (breaker_state w (BaseAPIClient.cls client)) = false.

(** The one where 1 counts a success. *)
Definition success_count (r : APIResponse.t) : Z :=
  if APIResponse.success r then 1 else 0.

End FurtherStatements.

Section Effects.
Context {B : Type} `{!CircuitBreaker B}.

(** The parts of the process an adapter call leaves alone. *)
Definition keeps (w w1 : World B) : Prop :=
  environ w1 = environ w
  /\ py_hash w1 = py_hash w
  /\ _clients w1 = _clients w
  /\ allocated w1 = allocated w
  /\ sdk w1 = sdk w
  /\ breakers_initialised w1 = breakers_initialised w.

(** A computation that, however it ends, keeps those parts and sends at
    most [n] requests. *)
Definition costs {A} (n : nat) (c : M (World B) A) : Prop :=
  forall w r w1,
    c w = (r, w1) ->
    keeps w w1 /\ (sdk_calls w <= sdk_calls w1 <= sdk_calls w + n)%nat.

End Effects.

(** The names [APIProvider] accepts. *)
Definition provider_name (name : string) : Prop :=
  name = "openai" \/ name = "anthropic".

(** An Anthropic client as the factory builds it in [demo_world]. *)
Definition demo_anthropic_client : BaseAPIClient.t :=
  BaseAPIClient.mk 0 ANTHROPIC "sk-anthropic-key" "https://api.anthropic.com"
    30 "claude-3-sonnet-20240229" true.

(** A process one failure away from opening its breakers, with the
    providers out of quota. *)
Definition nearly_open_world : World CountingBreaker :=
  fresh_world both_keys length_hash (mkBreaker 4 false) quota_exhausted.

(** A provider side where Anthropic answers with a tool call and no text. *)
Definition anthropic_uses_tool (n : nat) (ep : Endpoint) (req : Request.t)
    : float * NativeOutcome :=
  (1%Q, Returns (AnthropicMessage [ToolUseBlock] (Request.model req) 3 2)).

Definition tool_world : World CountingBreaker :=
  fresh_world both_keys length_hash closed_breaker anthropic_uses_tool.

(** ** Further operations of [app/database.py]: the query cache *)

Section QueryCaching.
Context {R V : Type} `{!Cache.RedisClient R} `{!Cache.Json V}.

(** [CacheManager.cache_query_result] and
    [CacheManager.get_cached_query_result] *)
Definition cache_query_result (self : Cache.CacheManager)
    (query_hash : string) (result : V) (ttl : option Z)
    : M (Cache.CacheWorld R) (option bool) :=
  let cache_key := "query:" ++ query_hash in
  Cache.set self cache_key result ttl.

Definition get_cached_query_result (self : Cache.CacheManager)
    (query_hash : string) : M (Cache.CacheWorld R) (option V) :=
  let cache_key := "query:" ++ query_hash in
  Cache.get self cache_key.

(** [json.dumps(value, default=str)] for a value that may be [None]. *)
Definition dumps_or_null (value : option V) : Result string :=
  match value with
  | Some v => Cache.dumps v
  | None => Ok "null"
  end.

(** [CacheManager.set] called with a value that may be [None]. *)
Definition set_result (self : Cache.CacheManager) (key : string)
    (value : option V) (ttl : option Z)
    : M (Cache.CacheWorld R) (option bool) :=
  try_except
    (let cache_key := Cache._make_key self key in
     let ttl := Cache.ttl_or_default self ttl in
     serialized_value <- lift (dumps_or_null value) ;;
     Cache.on_client (Cache.redis_set cache_key serialized_value ttl))
    (fun e => isinstance e RedisError || isinstance e TypeError)
    (fun e =>
       Cache.logger_warning
         ("Cache set error for key " ++ key ++ ": " ++ str e) ;;;
       ret (Some false)).

(** [class QueryCache]: the decorator's settings. *)
Record QueryCache := mkQueryCache {
  qc_ttl : Z;
  qc_key_prefix : string
}.

(** The key of one decorated call:
    [f"{self.key_prefix}:{func.__name__}:{hash(str(args) + str(kwargs))}"],
    given the built-in [hash], the name of the function and the texts of
    its arguments. *)
Definition query_cache_key (hash : string -> Z) (self : QueryCache)
    (func_name args kwargs : string) : string :=
  qc_key_prefix self ++ ":" ++ func_name ++ ":" ++ pretty (hash (args ++ kwargs)).

(** [wrapper] of [QueryCache.__call__]: [cache_manager] is the module
    global, [None] before [init_database]; [func] is the decorated function
    applied to its arguments. *)
Definition QueryCache_wrapper (cache_manager : option Cache.CacheManager)
    (cache_key : string) (self : QueryCache)
    (func : M (Cache.CacheWorld R) (option V))
    : M (Cache.CacheWorld R) (option V) :=
  match cache_manager with
  | None => func
  | Some cache_manager =>
      cached_result <- Cache.get cache_manager cache_key ;;
      match cached_result with
      | Some _ => ret cached_result
      | None =>
          result <- func ;;
          set_result cache_manager cache_key result (Some (qc_ttl self)) ;;;
          ret result
      end
  end.

(** A client that raises nothing but redis errors, and a codec that raises
    nothing but [TypeError] when it writes and [JSONDecodeError] when it
    reads. *)
Definition redis_errors_only {A} (c : M R A) : Prop :=
  forall s e s1, c s = (Raise e, s1) -> isinstance e RedisError = true.

Definition client_raises_redis_errors_only : Prop :=
  (forall key, redis_errors_only (Cache.redis_get key))
  /\ (forall key value ex, redis_errors_only (Cache.redis_set key value ex))
  /\ (forall keys, redis_errors_only (Cache.redis_delete keys))
  /\ (forall pattern, redis_errors_only (Cache.redis_keys pattern)).

Definition codec_raises_json_errors_only : Prop :=
  (forall v e, Cache.dumps v = Raise e -> isinstance e TypeError = true)
  /\ (forall t e, Cache.loads t = Raise e -> isinstance e JSONDecodeError = true).

(** What the codec wrote for [v] reads back as [v]; a JSON text is never
    empty. *)
Definition round_trips (v : V) (serialized : string) : Prop :=
  Cache.dumps v = Ok serialized
  /\ Str.truthy (Some serialized) = true
  /\ Cache.loads serialized = Ok (Some v).

End QueryCaching.

(** A cache manager as [init_database] builds it without settings in the
    environment, and a decorator as [example_integration.py] uses it. *)
Definition default_cache_manager : Cache.CacheManager :=
  Cache.mkCacheManager 3600 "biped:".

Definition users_cache : QueryCache := mkQueryCache 1800 "users".

(** A decorated function that returns "rows" and leaves the cache alone. *)
Definition fetch_rows : M (Cache.CacheWorld Cache.MockRedisClient) (option string) :=
  ret (Some "rows").

Definition empty_cache : Cache.CacheWorld Cache.MockRedisClient :=
  Cache.mkCacheWorld Cache.MockRedisClient ∅ [].

(** ** More of Python's strings *)

Module StrMore.

(** [str.upper()] on the ASCII letters. *)
Definition upper_ascii (c : ascii) : ascii :=
  let n := N_of_ascii c in
  if ((97 <=? n) && (n <=? 122))%N then ascii_of_N (n - 32) else c.

Fixpoint upper (s : string) : string :=
  match s with
  | EmptyString => EmptyString
  | String c s' => String (upper_ascii c) (upper s')
  end.

(** A text of ASCII characters only; on such a text [Str.lower] and
    [upper] are exactly [str.lower()] and [str.upper()]. *)
Fixpoint ascii_only (s : string) : bool :=
  match s with
  | EmptyString => true
  | String c s' => (N_of_ascii c <? 128)%N && ascii_only s'
  end.

(** The text without its first [n] characters. *)
Fixpoint drop (n : nat) (s : string) : string :=
  match n, s with
  | O, _ => s
  | S n', String _ s' => drop n' s'
  | S _, EmptyString => EmptyString
  end.

(** [s.replace(old, new, 1)] for a non-empty [old]: the first occurrence,
    from the left, is replaced. *)
Fixpoint replace_first (old new s : string) : string :=
  if String.prefix old s then new ++ drop (String.length old) s
  else
    match s with
    | EmptyString => EmptyString
    | String c s' => String c (replace_first old new s')
    end.

(** [s.split("/")] *)
Fixpoint split_slash (s : string) : list string :=
  match s with
  | EmptyString => [EmptyString]
  | String c s' =>
      if Ascii.eqb c "/" then EmptyString :: split_slash s'
      else
        match split_slash s' with
        | part :: parts => String c part :: parts
        | [] => [String c EmptyString]
        end
  end.

(** A text without "/". *)
Fixpoint no_slash (s : string) : bool :=
  match s with
  | EmptyString => true
  | String c s' => negb (Ascii.eqb c "/") && no_slash s'
  end.

End StrMore.

(** ** [DatabaseConfig] and [DatabaseMonitor] of [app/database.py] *)

(** [os.getenv(name, default)] over an environment. *)
Definition getenv_or (environ : gmap string string) (name default : string)
    : string :=
  get_or (environ !! name) default.

(** [DatabaseConfig.get_database_url] *)
Definition get_database_url (environ : gmap string string) : string :=
  let database_url := environ !! "DATABASE_URL" in
  if Str.truthy database_url then
    let database_url := get_or database_url EmptyString in
    if String.prefix "postgres://" database_url then
      StrMore.replace_first "postgres://" "postgresql://" database_url
    else database_url
  else
    let db_host := getenv_or environ "DB_HOST" "localhost" in
    let db_port := getenv_or environ "DB_PORT" "5432" in
    let db_name := getenv_or environ "DB_NAME" "biped" in
    let db_user := getenv_or environ "DB_USER" "postgres" in
    let db_password := getenv_or environ "DB_PASSWORD" EmptyString in
    "postgresql://" ++ db_user ++ ":" ++ db_password ++ "@" ++ db_host
      ++ ":" ++ db_port ++ "/" ++ db_name.

Module Monitor.

(** One entry of [query_stats]. *)
Record QueryStats := mkStats {
  count : Z;
  total_duration : float;
  avg_duration : float;
  slow_queries : Z;
  errors : Z
}.

Definition new_stats : QueryStats := mkStats 0 0%Q 0%Q 0 0.

(** [class DatabaseMonitor] *)
Record DatabaseMonitor := mkMonitor {
  query_stats : gmap string QueryStats;
  slow_query_threshold : float
}.

(** [DatabaseMonitor.__init__], the threshold read from the environment by
    the caller. *)
Definition new_monitor (threshold : float) : DatabaseMonitor :=
  mkMonitor ∅ threshold.

(** [DatabaseMonitor._get_query_type] *)
Definition _get_query_type (query : string) : string :=
  let query := StrMore.upper (Str.strip query) in
  if String.prefix "SELECT" query then "SELECT"
  else if String.prefix "INSERT" query then "INSERT"
  else if String.prefix "UPDATE" query then "UPDATE"
  else if String.prefix "DELETE" query then "DELETE"
  else "OTHER".

(** The values [_get_query_type] can return. *)
Definition query_types : list string :=
  ["SELECT"; "INSERT"; "UPDATE"; "DELETE"; "OTHER"].

(** [a > b] on floats. *)
Definition float_gt (a b : float) : bool :=
  if Qlt_le_dec b a then true else false.

(** The warning [record_query] logs, with the values it formats. *)
Inductive LogRecord :=
| SlowQuery (query_type : string) (duration : float).

(** [DatabaseMonitor.record_query]: the monitor after the call and what
    was logged. *)
Definition record_query (self : DatabaseMonitor) (query : string)
    (duration : float) (success : bool) : DatabaseMonitor * list LogRecord :=
  let query_type := _get_query_type query in
  let stats := get_or (query_stats self !! query_type) new_stats in
  let count := count stats + 1 in
  let '(stats, log) :=
    if success then
      let total := (total_duration stats + duration)%Q in
      let avg := (total / inject_Z count)%Q in
      if float_gt duration (slow_query_threshold self) then
        (mkStats count total avg (slow_queries stats + 1) (errors stats),
         [SlowQuery query_type duration])
      else (mkStats count total avg (slow_queries stats) (errors stats), [])
    else
      (mkStats count (total_duration stats) (avg_duration stats)
         (slow_queries stats) (errors stats + 1), []) in
  (mkMonitor (<[query_type := stats]> (query_stats self))
     (slow_query_threshold self),
   log).

(** One call of [record_query], as its arguments. *)
Record Recorded := mkRecorded {
  query : string;
  duration : float;
  success : bool
}.

(** The monitor after a series of calls, first to last. *)
Fixpoint record_all (self : DatabaseMonitor) (calls : list Recorded)
    : DatabaseMonitor :=
  match calls with
  | [] => self
  | c :: rest =>
      record_all (fst (record_query self (query c) (duration c) (success c)))
        rest
  end.

(** How many of the calls satisfy [f]. *)
Definition how_many (f : Recorded -> bool) (calls : list Recorded) : Z :=
  Z.of_nat (List.length (List.filter f calls)).

Definition of_type (t : string) (c : Recorded) : bool :=
  String.eqb (_get_query_type (query c)) t.

Definition failed_of_type (t : string) (c : Recorded) : bool :=
  of_type t c && negb (success c).

Definition slow_of_type (threshold : float) (t : string) (c : Recorded) : bool :=
  of_type t c && success c && float_gt (duration c) threshold.

End Monitor.

(** What the counters of a monitor should be after [calls]: per query type,
    the number of calls, of failed calls and of slow successful calls. *)
Definition monitor_agrees (threshold : float) (m : Monitor.DatabaseMonitor)
    (calls : list Monitor.Recorded) : Prop :=
  Monitor.slow_query_threshold m = threshold
  /\ forall t,
       match Monitor.query_stats m !! t with
       | None => Monitor.how_many (Monitor.of_type t) calls = 0
       | Some st =>
           Monitor.count st = Monitor.how_many (Monitor.of_type t) calls
           /\ 0 < Monitor.count st
           /\ Monitor.errors st
              = Monitor.how_many (Monitor.failed_of_type t) calls
           /\ Monitor.slow_queries st
              = Monitor.how_many (Monitor.slow_of_type threshold t) calls
       end.

(** ** [app/middleware.py] *)

(** The values found in request data: JSON values, with a dictionary as
    the list of its items in order. *)
#[warnings="-register-all"]
Inductive PyValue :=
| PNone
| PBool (b : bool)
| PInt (n : Z)
| PFloat (x : float)
| PStr (s : string)
| PList (items : list PyValue)
| PDict (items : list (string * PyValue)).

(** Python dictionaries as item lists: [d[name] = a] replaces the value of
    an existing key in place and appends a new key; [d.get(name)]. *)
Module Dict.

Fixpoint set {A} (name : string) (a : A) (d : list (string * A))
    : list (string * A) :=
  match d with
  | [] => [(name, a)]
  | (k, v) :: rest =>
      if String.eqb k name then (k, a) :: rest
      else (k, v) :: set name a rest
  end.

Fixpoint get {A} (name : string) (d : list (string * A)) : option A :=
  match d with
  | [] => None
  | (k, v) :: rest => if String.eqb k name then Some v else get name rest
  end.

End Dict.

Module Middleware.

(** [sensitive_keys] of [_filter_sensitive_data] *)
Definition sensitive_keys : list string :=
  ["password"; "token"; "secret"; "key"; "auth"; "authorization";
   "api_key"; "access_token"; "refresh_token"; "csrf_token";
   "credit_card"; "ssn"; "social_security"].

(** [any(sensitive_key in key.lower() for sensitive_key in sensitive_keys)],
    with [Str.lower] for [key.lower()]: the test as Python makes it on keys
    of ASCII characters. *)
Definition is_sensitive (key : string) : bool :=
  existsb (fun sensitive_key => Str.contains sensitive_key (Str.lower key))
    sensitive_keys.

(** [RequestResponseMiddleware._filter_sensitive_data] *)
Fixpoint _filter_sensitive_data (data : PyValue) : PyValue :=
  match data with
  | PDict items =>
      PDict
        (List.map
           (fun item =>
              let '(key, value) := item in
              if is_sensitive key then (key, PStr "[FILTERED]")
              else
                match value with
                | PDict _ => (key, _filter_sensitive_data value)
                | _ => (key, value)
                end)
           items)
  | _ => data
  end.

(** No sensitive key of the dictionary, or of a dictionary nested in it
    under non-sensitive keys, still has its value. *)
Fixpoint filtered (data : PyValue) : Prop :=
  match data with
  | PDict items =>
      (fix all (items : list (string * PyValue)) : Prop :=
         match items with
         | [] => True
         | (key, value) :: rest =>
             (if is_sensitive key then value = PStr "[FILTERED]"
              else filtered value)
             /\ all rest
         end) items
  | _ => True
  end.

(** The keys of a dictionary, in order. *)
Definition keys (data : PyValue) : list string :=
  match data with
  | PDict items => List.map fst items
  | _ => []
  end.

(** [skip_paths] and [RequestResponseMiddleware._should_skip_logging] *)
Definition skip_paths : list string :=
  ["/health"; "/health/live"; "/health/ready"; "/health/metrics";
   "/static/"; "/favicon.ico"].

Definition _should_skip_logging (path : string) : bool :=
  existsb (fun skip => String.prefix skip path) skip_paths.

(** How [APIVersionMiddleware.before_request] ends: it returns, or it
    aborts the request with status 400 after logging a warning. *)
Inductive Verdict :=
| Proceed
| Abort400 (description : string).

Definition supported_versions : list string := ["v1"; "v2"].

(** The version [before_request] stores in [g.api_version]: the header,
    else the third component of a path under "/api/" when it starts with
    "v", else the default. *)
Definition api_version (default_version : string) (header : option string)
    (path : string) : string :=
  let api_version := header in
  let api_version :=
    if negb (Str.truthy api_version) && String.prefix "/api/" path then
      match StrMore.split_slash path with
      | _ :: _ :: part :: _ =>
          if String.prefix "v" part then Some part else api_version
      | _ => api_version
      end
    else api_version in
  if Str.truthy api_version then get_or api_version EmptyString
  else default_version.

(** [APIVersionMiddleware.before_request]: the stored version and the
    verdict. *)
Definition before_request (default_version : string) (header : option string)
    (path : string) : string * Verdict :=
  let api_version := api_version default_version header path in
  if existsb (String.eqb api_version) supported_versions
  then (api_version, Proceed)
  else (api_version, Abort400 ("Unsupported API version: " ++ api_version)).

End Middleware.

(** ** [filter_sensitive_data] of [app/extensions.py] *)

Module Sentry.

(** The part of a Sentry event the filter reads: the request's headers and
    its data, each present or not.  The headers are a dictionary; the data
    are any value, a dictionary being [PDict]. *)
Record Request := mkRequest {
  headers : option (list (string * PyValue));
  data : option PyValue
}.

Record SentryEvent := mkEvent {
  request : option Request
}.

Definition sensitive_headers : list string :=
  ["authorization"; "x-api-key"; "cookie"; "x-auth-token"].

Definition sensitive_fields : list string :=
  ["password"; "token"; "secret"; "key"].

(** [for name in names: if name in d: d[name] = '[Filtered]'] *)
Definition mask (names : list string) (d : list (string * PyValue))
    : list (string * PyValue) :=
  fold_left
    (fun d name =>
       match Dict.get name d with
       | Some _ => Dict.set name (PStr "[Filtered]") d
       | None => d
       end)
    names d.

(** [d'] is [d] with the value of each key in [names] replaced, and
    everything else, the order of the keys included, as it was. *)
Definition masked (names : list string) (d d' : list (string * PyValue))
    : Prop :=
  List.map fst d' = List.map fst d
  /\ forall k,
       Dict.get k d'
       = if bool_decide (k ∈ names)
         then (fun _ => PStr "[Filtered]") <$> Dict.get k d
         else Dict.get k d.

(** [filter_sensitive_data(event, hint)] *)
Definition filter_sensitive_data (event : SentryEvent) : SentryEvent :=
  match request event with
  | None => event
  | Some r =>
      let headers :=
        match headers r with
        | Some h => Some (mask sensitive_headers h)
        | None => None
        end in
      let data :=
        match data r with
        | Some (PDict items) => Some (PDict (mask sensitive_fields items))
        | other => other
        end in
      mkEvent (Some (mkRequest headers data))
  end.

(** [init_sentry]: whether [sentry_sdk.init] is called. *)
Definition init_sentry (environ : gmap string string) : bool :=
  let sentry_dsn := environ !! "SENTRY_DSN" in
  let environment := getenv_or environ "FLASK_ENV" "development" in
  Str.truthy sentry_dsn && String.eqb environment "production".

End Sentry.

(** [get_rate_limit_key] of [init_rate_limiter], from the header
    [X-API-Key], the id of [g.current_user] as the f-string renders it
    ([None] without a user) and what [get_remote_address()] returns. *)
Definition get_rate_limit_key (api_key : option string)
    (current_user : option string) (remote_address : string) : string :=
  if Str.truthy api_key then "api_key:" ++ get_or api_key EmptyString
  else
    match current_user with
    | Some id => "user:" ++ id
    | None => remote_address
    end.

(** ** [app/health.py] *)

Module Health.

(** Truthiness of a value. *)
Definition truthy (v : PyValue) : bool :=
  match v with
  | PNone => false
  | PBool b => b
  | PInt n => negb (n =? 0)
  | PFloat x => negb (Qeq_bool x 0)
  | PStr s => negb (String.eqb s EmptyString)
  | PList [] => false
  | PList (_ :: _) => true
  | PDict [] => false
  | PDict (_ :: _) => true
  end.

Definition type_name (v : PyValue) : string :=
  match v with
  | PNone => "NoneType"
  | PBool _ => "bool"
  | PInt _ => "int"
  | PFloat _ => "float"
  | PStr _ => "str"
  | PList _ => "list"
  | PDict _ => "dict"
  end.

(** [check_result.get('healthy', False)]; only a dictionary has [get]. *)
Definition get_healthy (check_result : PyValue) : Result PyValue :=
  match check_result with
  | PDict items => Ok (get_or (Dict.get "healthy" items) (PBool false))
  | other => Raise (no_attribute (type_name other) "get")
  end.


Section Checker.
Context {S : Type}.
(** The clock of the process: [datetime.now(timezone.utc).isoformat()] and
    [time.time()]. *)
Variable now_iso : S -> string.
Variable time_time : S -> float.







End Checker.

(** An entry that counts as healthy: a dictionary whose [healthy] is
    truthy. *)
Definition healthy_entry (entry : PyValue) : bool :=
  match get_healthy entry with
  | Ok healthy => truthy healthy
  | Raise _ => false
  end.

Section RedisCheck.
Context {R : Type} `{!Cache.RedisClient R}.
Variable now_iso : R -> string.
Variable time_time : R -> float.
(** [round(x, 2)] *)
Variable round2 : float -> float.

(** The entry [check_redis] returns for a failure. *)
Definition failure_entry (label : string) (e : PyExn) (at_time : string)
    : PyValue :=
  PDict [("healthy", PBool false); ("error", PStr (label ++ str e));
         ("timestamp", PStr at_time)].

(** [check_redis], for a client that exists. *)
Definition check_redis : M R PyValue :=
  try_except
    (start_time <- gets time_time ;;
     let test_key := "health_check_test" in
     Cache.redis_set test_key "test_value" 10 ;;;
     value <- Cache.redis_get test_key ;;
     Cache.redis_delete [test_key] ;;;
     end_time <- gets time_time ;;
     let response_time := ((end_time - start_time) * 1000)%Q in
     at_time <- gets now_iso ;;
     ret (PDict [("healthy", PBool true);
                 ("response_time_ms", PFloat (round2 response_time));
                 ("timestamp", PStr at_time)]))
    (fun e => isinstance e Exception)
    (fun e =>
       at_time <- gets now_iso ;;
       if isinstance e RedisError
       then ret (failure_entry "Redis error: " e at_time)
       else ret (failure_entry "Unexpected error: " e at_time)).


End RedisCheck.

End Health.

(** ** [app/__init__.py] *)

(** [register_blueprints] mounts the health blueprint under this prefix. *)
Definition health_url_prefix : string := "/api".

(** The routes of [health_bp]. *)
Definition health_routes : list string :=
  ["/health"; "/health/live"; "/health/ready"; "/health/metrics"].

(** The paths at which the application serves the health routes. *)
Definition mounted_health_paths : list string :=
  List.map (fun route => health_url_prefix ++ route) health_routes.

(** ** [config/production.py] *)

Module Config.

(** The configuration classes. *)
Inductive ConfigClass :=
| BaseConfig
| DevelopmentConfig
| TestingConfig
| ProductionConfig
| StagingConfig.

(** The dictionary [config]. *)
Definition config (name : string) : option ConfigClass :=
  if String.eqb name "development" then Some DevelopmentConfig
  else if String.eqb name "testing" then Some TestingConfig
  else if String.eqb name "staging" then Some StagingConfig
  else if String.eqb name "production" then Some ProductionConfig
  else if String.eqb name "default" then Some DevelopmentConfig
  else None.

(** [get_config] *)
Definition get_config (environ : gmap string string) : ConfigClass :=
  let env := getenv_or environ "FLASK_ENV" "development" in
  get_or (config env) DevelopmentConfig.

(** Class attributes, looked up through the class and its bases. *)
Definition DEBUG (environ : gmap string string) (c : ConfigClass) : bool :=
  match c with
  | BaseConfig =>
      String.eqb (Str.lower (getenv_or environ "DEBUG" "false")) "true"
  | DevelopmentConfig | TestingConfig => true
  | ProductionConfig | StagingConfig => false
  end.

Definition SESSION_COOKIE_SECURE (c : ConfigClass) : bool :=
  match c with
  | DevelopmentConfig => false
  | _ => true
  end.

Definition WTF_CSRF_ENABLED (c : ConfigClass) : bool :=
  match c with
  | DevelopmentConfig | TestingConfig => false
  | _ => true
  end.

Definition SENTRY_DSN (environ : gmap string string) (c : ConfigClass)
    : option string :=
  match c with
  | DevelopmentConfig | TestingConfig => None
  | _ => environ !! "SENTRY_DSN"
  end.

End Config.

(** The configuration class [create_app] loads and the message it logs at
    the end; [config_name] is the argument, [None] when it is not passed. *)
Definition create_app_config (config_name : option string)
    (environ : gmap string string) : Config.ConfigClass * string :=
  let config_name :=
    match config_name with
    | None => getenv_or environ "FLASK_ENV" "development"
    | Some name => name
    end in
  let config_class := Config.get_config environ in
  (config_class,
   "Biped application created with " ++ config_name ++ " configuration").





(** * Properties *)

(** ** Exceptions and computations *)

(** Every exception of the model is an [Exception]: the clause
    [except Exception] lets none through. *)
Lemma isinstance_Exception (e : PyExn) : isinstance e Exception = true.
Proof. destruct e as [c s]; destruct c; reflexivity. Qed.

Lemma bind_ok {S A C} (c : M S A) (k : A -> M S C) s a s1 :
  c s = (Ok a, s1) -> bind c k s = k a s1.
Proof. intros H; unfold bind; rewrite H; reflexivity. Qed.

Lemma bind_raise {S A C} (c : M S A) (k : A -> M S C) s e s1 :
  c s = (Raise e, s1) -> bind c k s = (Raise e, s1).
Proof. intros H; unfold bind; rewrite H; reflexivity. Qed.

Lemma bind_returns {S A C} (c : M S A) (k : A -> M S C) s b s2 :
  bind c k s = (Ok b, s2) ->
  exists a s1, c s = (Ok a, s1) /\ k a s1 = (Ok b, s2).
Proof.
  unfold bind; destruct (c s) as [[a | e] s1]; intros H.
  - exists a, s1; split; [reflexivity | exact H].
  - discriminate H.
Qed.

(** A [try] whose clause catches everything and whose handler returns. *)
Lemma try_except_returns {S A} (body : M S A) catches handler (P : A -> Prop) :
  (forall e, catches e = true) ->
  results_in body P ->
  (forall e, always_returns (handler e) P) ->
  always_returns (try_except body catches handler) P.
Proof.
  intros Hall Hbody Hhandler s. unfold try_except.
  destruct (body s) as [[a | e] s1] eqn:E.
  - exists a, s1; split; [reflexivity | exact (Hbody _ _ _ E)].
  - rewrite Hall. apply Hhandler.
Qed.

(** ** Failure classification *)

Section Classification.
Import SpecClassification.

Lemma starts_with_ci_lower (kw s : string) :
  starts_with_ci kw s = String.prefix (Str.lower kw) (Str.lower s).
Proof.
  revert s; induction kw as [| a kw IH]; intros s.
  - destruct s; reflexivity.
  - destruct s as [| b s]; [reflexivity |]. cbn.
    rewrite IH. unfold same_letter.
    destruct (ascii_dec (Str.lower_ascii a) (Str.lower_ascii b)) as [E | N].
    + rewrite E, Ascii.eqb_refl. reflexivity.
    + apply Ascii.eqb_neq in N. rewrite N. reflexivity.
Qed.

Lemma contains_ci_lower (kw s : string) :
  contains_ci kw s = Str.contains (Str.lower kw) (Str.lower s).
Proof.
  induction s as [| b s IH].
  - cbn. rewrite starts_with_ci_lower. reflexivity.
  - cbn [contains_ci Str.contains Str.lower].
    rewrite starts_with_ci_lower, IH. reflexivity.
Qed.

(** For a keyword written in lower case the code's test, the keyword in
    the lowered message, is the case-insensitive test. *)
Lemma contains_lowered (kw s : string) :
  Str.lower kw = kw -> Str.contains kw (Str.lower s) = contains_ci kw s.
Proof. intros H. rewrite contains_ci_lower, H. reflexivity. Qed.

Lemma handle_error_classifies (e : PyExn) (provider : string) :
  _handle_error e provider = failure (reason_text (classify (str e))) provider.
Proof.
  unfold _handle_error, classify.
  rewrite !contains_lowered by reflexivity.
  destruct (contains_ci "rate limit" (str e)); [reflexivity |].
  destruct (contains_ci "authentication" (str e) || contains_ci "unauthorized" (str e));
    [reflexivity |].
  destruct (contains_ci "quota" (str e) || contains_ci "billing" (str e));
    reflexivity.
Qed.

End Classification.

(** C4. Classification is a function of the error's message alone, and it
    is the rule of the specification: the first of "rate limit";
    "authentication" or "unauthorized"; "quota" or "billing" that occurs in
    the message, compared without regard to case, decides between
    RateLimited, AuthFailed and QuotaExceeded, and a message with none of
    them gives ProviderError with that message.  The message
    "Rate limit exceeded for requests" is RateLimited, whatever the
    exception class and provider, and its result is not a ProviderError
    one. *)
Theorem C4_classification_by_message :
  (forall (e : PyExn) (provider : string),
     _handle_error e provider
     = failure
         (SpecClassification.reason_text
            (SpecClassification.classify (str e))) provider)
  /\ (forall (e1 e2 : PyExn) (provider : string),
        str e1 = str e2 -> _handle_error e1 provider = _handle_error e2 provider)
  /\ SpecClassification.classify "Rate limit exceeded for requests"
     = SpecClassification.RateLimited
  /\ (forall (c : ExnClass) (provider : string),
        _handle_error (mkExn c "Rate limit exceeded for requests") provider
        = failure "Rate limit exceeded" provider
        /\ forall message,
             APIResponse.error
               (_handle_error (mkExn c "Rate limit exceeded for requests") provider)
             <> Some (SpecClassification.reason_text
                        (SpecClassification.ProviderError message))).
Proof.
  split; [exact handle_error_classifies |].
  split.
  { intros e1 e2 provider H. rewrite !handle_error_classifies, H. reflexivity. }
  split; [reflexivity |].
  intros c provider. split; [reflexivity |].
  intros message. cbn. intros H. discriminate H.
Qed.

(** ** The adapters *)

Section Adapters.
Context {B : Type} `{!CircuitBreaker B}.

(** The [except] clause of an adapter returns the classified failure and
    logs one error record; no request goes out. *)
Lemma on_error_eval (start : float) (log_prefix provider : string)
    (e : PyExn) (w : World B) :
  on_error start log_prefix provider e w
  = (Ok (error_result e provider (now w - start)%Q),
     logged (LogError (log_prefix ++ str e)) w).
Proof. reflexivity. Qed.

Lemma on_error_returns (start : float) (log_prefix provider : string)
    (e : PyExn) :
  always_returns (S := World B) (on_error start log_prefix provider e)
    (adapter_result provider).
Proof.
  intros w. eexists _, _. split; [apply on_error_eval |].
  right. eexists _, _. reflexivity.
Qed.

(** The OpenAI adapter as written: the call of [_make_request] raises
    [TypeError] before anything else happens. *)
Lemma openai_completion_eval (self : BaseAPIClient.t) (prompt : string)
    (kwargs : Kwargs.t) (w : World B) :
  OpenAIClient_generate_completion self prompt kwargs w
  = (Ok (error_result not_callable "openai" (now w - now w)%Q),
     logged (LogError ("OpenAI completion error: " ++ str not_callable)) w).
Proof. reflexivity. Qed.

Lemma openai_chat_completion_eval (self : BaseAPIClient.t)
    (messages : list Message) (kwargs : Kwargs.t) (w : World B) :
  OpenAIClient_generate_chat_completion self messages kwargs w
  = (Ok (error_result not_callable "openai" (now w - now w)%Q),
     logged (LogError ("OpenAI chat completion error: " ++ str not_callable)) w).
Proof. reflexivity. Qed.

(** A text is what [read_message] yields when it yields. *)
Lemma read_message_text (r : NativeResponse) fields :
  read_message r = Ok fields ->
  exists text model tokens, fields = (Some text, model, tokens).
Proof.
  destruct r as [c m t | c m t | c m i o]; cbn; try (destruct c; discriminate).
  destruct c as [| [text |] c]; intros H; try discriminate H.
  injection H as <-. eexists _, _, _. reflexivity.
Qed.

Lemma anthropic_chat_completion_returns (self : BaseAPIClient.t)
    (messages : list Message) (kwargs : Kwargs.t) :
  always_returns (S := World B)
    (AnthropicClient_generate_chat_completion self messages kwargs)
    (adapter_result "anthropic").
Proof.
  intros w. unfold AnthropicClient_generate_chat_completion.
  rewrite (bind_ok time_time _ w (now w) w) by reflexivity.
  apply try_except_returns.
  - apply isinstance_Exception.
  - intros s a s3 H.
    apply bind_returns in H as (response & s1 & _ & H).
    apply bind_returns in H as (end_time & s2 & _ & H).
    apply bind_returns in H as (fields & s2' & Hread & H).
    unfold lift in Hread. injection Hread as Hread _.
    apply read_message_text in Hread as (text & model & tokens & ->).
    injection H as <- _. left. eexists _, _, _, _. reflexivity.
  - intros e. apply on_error_returns.
Qed.

(** Every adapter method returns on every state, with a result of one of
    the two shapes. *)
Lemma invoke_returns (call : Call) (kwargs : Kwargs.t)
    (client : BaseAPIClient.t) :
  always_returns (S := World B) (invoke call kwargs client)
    (adapter_result (result_name client)).
Proof.
  intros w. unfold invoke, generate_completion, generate_chat_completion,
    result_name.
  destruct call as [prompt | messages];
    destruct (BaseAPIClient.cls client); cbn [value].
  - eexists _, _. split; [apply openai_completion_eval |].
    right. eexists _, _. reflexivity.
  - apply anthropic_chat_completion_returns.
  - eexists _, _. split; [apply openai_chat_completion_eval |].
    right. eexists _, _. reflexivity.
  - apply anthropic_chat_completion_returns.
Qed.

Lemma adapter_result_exactly_one (provider : string) (r : APIResponse.t) :
  adapter_result provider r -> exactly_one r.
Proof.
  intros [(text & model & tokens & elapsed & ->) | (e & elapsed & ->)].
  - cbn. split; split; intros H; try reflexivity; try (eexists; reflexivity).
    + destruct H as [x H]; discriminate H.
    + discriminate H.
  - unfold error_result. rewrite handle_error_classifies. cbn.
    split; split; intros H; try reflexivity; try (eexists; reflexivity).
    + destruct H as [x H]; discriminate H.
    + discriminate H.
Qed.

End Adapters.

(** C10. For the Anthropic adapter, completing a prompt is completing the
    one-message conversation [{"role": "user", "content": prompt}] with the
    same options: the two calls give the same result and leave the same
    state. *)
Theorem C10_anthropic_completion_is_chat (B : Type) (cb : CircuitBreaker B)
    (self : BaseAPIClient.t) (prompt : string) (kwargs : Kwargs.t)
    (w : World B) :
  AnthropicClient_generate_completion self prompt kwargs w
  = AnthropicClient_generate_chat_completion self
      [mkMessage "user" prompt] kwargs w.
Proof. reflexivity. Qed.

(** ** The fallback loop *)

Section Orchestrator.
Context {B : Type} `{!CircuitBreaker B}.

(** The three ways one turn of the loop ends. *)
Lemma attempt_success (call : Call) (kwargs : Kwargs.t) (p : APIProvider)
    (w w1 : World B) (r : APIResponse.t) :
  provider_call call kwargs p w = (Ok r, w1) ->
  APIResponse.success r = true ->
  attempt (invoke call kwargs) kwargs p w = (Ok (Some r), w1).
Proof.
  unfold provider_call, attempt, try_except, bind. intros H Hs.
  destruct (get_client p kwargs w) as [[client | e] w0]; [| discriminate H].
  rewrite H, Hs. reflexivity.
Qed.

Lemma attempt_failure (call : Call) (kwargs : Kwargs.t) (p : APIProvider)
    (w w1 : World B) (r : APIResponse.t) :
  provider_call call kwargs p w = (Ok r, w1) ->
  APIResponse.success r = false ->
  attempt (invoke call kwargs) kwargs p w
  = (Ok None,
     logged (LogWarning ("Provider " ++ value p ++ " failed: "
                           ++ Str.fmt (APIResponse.error r))) w1).
Proof.
  unfold provider_call, attempt, try_except, bind. intros H Hs.
  destruct (get_client p kwargs w) as [[client | e] w0]; [| discriminate H].
  rewrite H, Hs. reflexivity.
Qed.

Lemma attempt_raise (call : Call) (kwargs : Kwargs.t) (p : APIProvider)
    (w w1 : World B) (e : PyExn) :
  provider_call call kwargs p w = (Raise e, w1) ->
  attempt (invoke call kwargs) kwargs p w
  = (Ok None,
     logged (LogError ("Provider " ++ value p ++ " error: " ++ str e)) w1).
Proof.
  unfold provider_call, attempt, try_except, bind. intros H.
  destruct (get_client p kwargs w) as [[client | e0] w0].
  - rewrite H, isinstance_Exception. reflexivity.
  - injection H as -> ->. rewrite isinstance_Exception. reflexivity.
Qed.

(** Past providers that fail, the loop is the loop over the rest. *)
Lemma fallback_skips_failures (call : Call) (kwargs : Kwargs.t)
    (failed rest : list APIProvider) (self : UnifiedAPIClient)
    (w w1 : World B) :
  providers_fail call kwargs failed w w1 ->
  fallback (invoke call kwargs) kwargs (failed ++ rest) self w
  = fallback (invoke call kwargs) kwargs rest self w1.
Proof.
  induction 1 as [w | p ps w r w1 w2 Hcall Hs _ IH | p ps w e w1 w2 Hcall _ IH].
  - reflexivity.
  - cbn [app fallback].
    rewrite (bind_ok _ _ _ _ _ (attempt_failure _ _ _ _ _ _ Hcall Hs)).
    exact IH.
  - cbn [app fallback].
    rewrite (bind_ok _ _ _ _ _ (attempt_raise _ _ _ _ _ _ Hcall)).
    exact IH.
Qed.

Lemma fallback_returns_success (call : Call) (kwargs : Kwargs.t)
    (p : APIProvider) (rest : list APIProvider) (self : UnifiedAPIClient)
    (w w1 : World B) (r : APIResponse.t) :
  provider_call call kwargs p w = (Ok r, w1) ->
  APIResponse.success r = true ->
  fallback (invoke call kwargs) kwargs (p :: rest) self w
  = (Ok (r, counted self), w1).
Proof.
  intros Hcall Hs. cbn [fallback].
  rewrite (bind_ok _ _ _ _ _ (attempt_success _ _ _ _ _ _ Hcall Hs)).
  reflexivity.
Qed.

(** Both orchestrator methods are the loop over primary then fallbacks. *)
Lemma orchestrate_fallback (self : UnifiedAPIClient) (call : Call)
    (kwargs : Kwargs.t) :
  orchestrate self call kwargs
  = fallback (invoke call kwargs) kwargs
      ([primary_provider self] ++ fallback_providers self)%list self.
Proof. destruct call; reflexivity. Qed.

(** Every provider, from every state, returns a failed result, returns a
    successful one or raises: the loop always comes to an end with a
    result that is a provider's success or the aggregate failure. *)
Lemma fallback_returns (call : Call) (kwargs : Kwargs.t)
    (providers : list APIProvider) (self : UnifiedAPIClient) (w : World B) :
  exists r self1 w1,
    fallback (invoke call kwargs) kwargs providers self w = (Ok (r, self1), w1)
    /\ ((exists name, adapter_result name r /\ APIResponse.success r = true
                      /\ self1 = counted self)
        \/ (r = all_failed /\ self1 = self)).
Proof.
  revert w; induction providers as [| p ps IH]; intros w.
  - eexists _, _, _. split; [reflexivity |]. right. split; reflexivity.
  - destruct (provider_call call kwargs p w) as [[r | e] w1] eqn:Hcall.
    + destruct (APIResponse.success r) eqn:Hs.
      * eexists _, _, _. split.
        { apply (fallback_returns_success _ _ _ _ _ _ _ _ Hcall Hs). }
        left. unfold provider_call in Hcall.
        apply bind_returns in Hcall as (client & w0 & _ & Hinv).
        destruct (invoke_returns call kwargs client w0) as (a & s1 & E & Ha).
        rewrite E in Hinv. injection Hinv as -> _.
        exists (result_name client). repeat split; assumption.
      * cbn [fallback].
        rewrite (bind_ok _ _ _ _ _ (attempt_failure _ _ _ _ _ _ Hcall Hs)).
        apply IH.
    + cbn [fallback].
      rewrite (bind_ok _ _ _ _ _ (attempt_raise _ _ _ _ _ _ Hcall)).
      apply IH.
Qed.

End Orchestrator.

(** C1. Let the attempt sequence, primary then fallbacks, be [failed]
    followed by provider [p] and the [rest].  If, tried in order, every
    provider of [failed] fails and [p] then returns the successful result
    [r], both [generate_completion] and [generate_chat_completion] return
    that very [r] with the request counter one higher, and the process is
    left in the state [p]'s call produced: after it no provider was
    obtained or invoked, no request went out and nothing was logged. *)
Theorem C1_first_success_is_returned (B : Type) (cb : CircuitBreaker B)
    (self : UnifiedAPIClient) (call : Call) (kwargs : Kwargs.t)
    (failed : list APIProvider) (p : APIProvider) (rest : list APIProvider)
    (w w1 w2 : World B) (r : APIResponse.t) :
  ([primary_provider self] ++ fallback_providers self = failed ++ p :: rest)%list ->
  providers_fail call kwargs failed w w1 ->
  provider_call call kwargs p w1 = (Ok r, w2) ->
  APIResponse.success r = true ->
  orchestrate self call kwargs w = (Ok (r, counted self), w2)
  /\ request_count (counted self) = request_count self + 1.
Proof.
  intros Hseq Hfailed Hcall Hs. split; [| reflexivity].
  rewrite orchestrate_fallback, Hseq.
  rewrite (fallback_skips_failures _ _ _ _ _ _ _ Hfailed).
  apply (fallback_returns_success _ _ _ _ _ _ _ _ Hcall Hs).
Qed.

(** C2, as the code has it. If every provider of the attempt sequence
    fails, by a failed result or by raising, both orchestrator methods
    return the aggregate failure: not successful, no payload, reason
    "All AI providers failed", and the provider field set to the name
    "unified"; the request counter is unchanged. *)
Theorem C2_all_fail_gives_unified_failure (B : Type) (cb : CircuitBreaker B)
    (self : UnifiedAPIClient) (call : Call) (kwargs : Kwargs.t)
    (w w1 : World B) :
  providers_fail call kwargs
    ([primary_provider self] ++ fallback_providers self)%list w w1 ->
  orchestrate self call kwargs w = (Ok (all_failed, self), w1)
  /\ APIResponse.success all_failed = false
  /\ APIResponse.data all_failed = None
  /\ APIResponse.error all_failed = Some "All AI providers failed"
  /\ APIResponse.provider all_failed = Some "unified".
Proof.
  intros Hfail. split; [| repeat split].
  rewrite orchestrate_fallback.
  rewrite <- (app_nil_r (_ ++ _)%list).
  rewrite (fallback_skips_failures _ _ _ _ _ _ _ Hfail).
  reflexivity.
Qed.


(** C8. Every adapter method and every orchestrator method returns, from
    every state, a result that has a payload exactly when it is successful
    and a failure reason exactly when it is not. *)
Theorem C8_payload_xor_failure_reason (B : Type) (cb : CircuitBreaker B)
    (call : Call) (kwargs : Kwargs.t) (w : World B) :
  (forall client : BaseAPIClient.t,
     exists r w1, invoke call kwargs client w = (Ok r, w1) /\ exactly_one r)
  /\ (forall self : UnifiedAPIClient,
        exists r self1 w1,
          orchestrate self call kwargs w = (Ok (r, self1), w1)
          /\ exactly_one r).
Proof.
  split.
  - intros client.
    destruct (invoke_returns call kwargs client w) as (r & w1 & E & Hr).
    exists r, w1. split; [exact E |].
    exact (adapter_result_exactly_one _ _ Hr).
  - intros self. rewrite orchestrate_fallback.
    destruct (fallback_returns call kwargs
                ([primary_provider self] ++ fallback_providers self)%list self w)
      as (r & self1 & w1 & E & Hr).
    exists r, self1, w1. split; [exact E |].
    destruct Hr as [(name & Hr & _) | [-> _]].
    + exact (adapter_result_exactly_one _ _ Hr).
    + split; split; cbn; intros H; try reflexivity;
        try (eexists; reflexivity); try discriminate H.
      destruct H as [x H]; discriminate H.
Qed.

(** The scenario of the specification: OpenAI fails, Anthropic answers
    "hello"; the result is Anthropic's and one request was counted. *)
Lemma C1_openai_fails_anthropic_answers :
  exists r w2,
    orchestrate openai_then_anthropic (CompleteText "hi") Kwargs.empty demo_world
    = (Ok (r, counted openai_then_anthropic), w2)
    /\ APIResponse.data r = Some "hello"
    /\ APIResponse.provider r = Some "anthropic"
    /\ request_count (counted openai_then_anthropic) = 1.
Proof.
  eexists _, _. split.
  - eapply proj1.
    eapply (C1_first_success_is_returned _ _ openai_then_anthropic
              (CompleteText "hi") Kwargs.empty [OPENAI] ANTHROPIC []).
    + reflexivity.
    + eapply fail_result; [vm_compute; reflexivity | reflexivity | apply fail_none].
    + vm_compute. reflexivity.
    + reflexivity.
  - repeat split.
Defined.

(** With both providers out of quota the aggregate failure comes back and
    nothing is counted. *)
Lemma C2_both_out_of_quota :
  exists w1,
    orchestrate openai_then_anthropic (CompleteChat [mkMessage "user" "hi"])
      Kwargs.empty quota_world
    = (Ok (all_failed, openai_then_anthropic), w1)
    /\ APIResponse.provider all_failed = Some "unified".
Proof.
  eexists. split.
  - eapply proj1.
    eapply (C2_all_fail_gives_unified_failure _ _ openai_then_anthropic
              (CompleteChat [mkMessage "user" "hi"]) Kwargs.empty).
    eapply fail_result; [vm_compute; reflexivity | reflexivity |].
    eapply fail_result; [vm_compute; reflexivity | reflexivity |].
    apply fail_none.
  - reflexivity.
Defined.

(** Against C2 as worded: where every provider fails, the provider field
    of the result is present. *)
Lemma C2_provider_field_is_present :
  exists r w1,
    providers_fail (CompleteChat [mkMessage "user" "hi"]) Kwargs.empty
      [OPENAI; ANTHROPIC] quota_world w1
    /\ orchestrate openai_then_anthropic (CompleteChat [mkMessage "user" "hi"])
         Kwargs.empty quota_world
       = (Ok (r, openai_then_anthropic), w1)
    /\ APIResponse.provider r <> None.
Proof.
  eexists _, _. split; [| split].
  - eapply fail_result; [vm_compute; reflexivity | reflexivity |].
    eapply fail_result; [vm_compute; reflexivity | reflexivity |].
    apply fail_none.
  - vm_compute. reflexivity.
  - discriminate.
Qed.

(** ** The client registry *)

Section Registry.
Context {B : Type} `{!CircuitBreaker B}.

Lemma truthy_some (o : option string) :
  Str.truthy o = true -> exists k, o = Some k /\ k <> EmptyString.
Proof.
  destruct o as [[| a k] |]; cbn; intros H; try discriminate H.
  eexists. split; [reflexivity | discriminate].
Qed.

(** Without a credential [get_client] raises at once and leaves the
    process as it was. *)
Lemma get_client_no_credential (p : APIProvider) (kwargs : Kwargs.t)
    (w : World B) :
  Str.truthy (credential p kwargs w) = false ->
  get_client p kwargs w = (Raise (key_not_provided p), w).
Proof.
  unfold credential, get_client, bind, os_getenv, gets. intros H.
  rewrite H. reflexivity.
Qed.

(** With a credential whose key is in the registry, the registered client
    is returned and nothing changes. *)
Lemma get_client_cached (p : APIProvider) (kwargs : Kwargs.t) (w : World B)
    (k : string) (c : BaseAPIClient.t) :
  credential p kwargs w = Some k ->
  Str.truthy (Some k) = true ->
  _clients w !! client_key p (py_hash w k) = Some c ->
  get_client p kwargs w = (Ok c, w).
Proof.
  unfold credential, get_client, bind, os_getenv, gets. intros Hk Ht Hc.
  rewrite Hk, Ht. cbn. rewrite Hc. reflexivity.
Qed.

(** With a credential whose key is not in the registry, a client with the
    next identity is built and registered; the rest of the process is
    untouched. *)
Lemma get_client_new (p : APIProvider) (kwargs : Kwargs.t) (w : World B)
    (k : string) :
  credential p kwargs w = Some k ->
  Str.truthy (Some k) = true ->
  _clients w !! client_key p (py_hash w k) = None ->
  exists c w1,
    get_client p kwargs w = (Ok c, w1)
    /\ BaseAPIClient.obj_id c = allocated w
    /\ _clients w1 = <[client_key p (py_hash w k) := c]> (_clients w)
    /\ allocated w1 = S (allocated w)
    /\ environ w1 = environ w
    /\ py_hash w1 = py_hash w
    /\ sdk_calls w1 = sdk_calls w
    /\ trace w1 = trace w.
Proof.
  unfold credential, get_client, bind, os_getenv, gets. intros Hk Ht Hc.
  rewrite Hk, Ht. cbn. rewrite Hc. cbn.
  eexists _, _. split; [reflexivity |]. cbn. repeat split.
Qed.

(** What a successful [get_client] did: it found the client under the key
    of the credential, or it built and registered it. *)
Lemma get_client_returns (p : APIProvider) (kwargs : Kwargs.t)
    (w w1 : World B) (c : BaseAPIClient.t) :
  get_client p kwargs w = (Ok c, w1) ->
  exists k,
    credential p kwargs w = Some k /\ Str.truthy (Some k) = true
    /\ environ w1 = environ w /\ py_hash w1 = py_hash w
    /\ sdk_calls w1 = sdk_calls w /\ trace w1 = trace w
    /\ ((_clients w !! client_key p (py_hash w k) = Some c /\ w1 = w)
        \/ (_clients w !! client_key p (py_hash w k) = None
            /\ BaseAPIClient.obj_id c = allocated w
            /\ _clients w1 = <[client_key p (py_hash w k) := c]> (_clients w)
            /\ allocated w1 = S (allocated w))).
Proof.
  intros H.
  destruct (Str.truthy (credential p kwargs w)) eqn:Ht.
  - destruct (truthy_some _ Ht) as (k & Hk & _). rewrite Hk in Ht.
    exists k. split; [exact Hk |]. split; [exact Ht |].
    destruct (_clients w !! client_key p (py_hash w k)) as [c0 |] eqn:Hc.
    + rewrite (get_client_cached _ _ _ _ _ Hk Ht Hc) in H.
      injection H as -> ->. repeat split. left. split; reflexivity.
    + destruct (get_client_new _ _ _ _ Hk Ht Hc)
        as (c' & w' & E & Hid & Hm & Ha & He & Hh & Hs & Htr).
      rewrite E in H. injection H as -> ->.
      repeat split; try assumption. right. repeat split; assumption.
  - rewrite (get_client_no_credential _ _ _ Ht) in H. discriminate H.
Qed.


(** [registry_ok] holds at start-up and every operation of the factory
    keeps it. *)
Lemma registry_ok_empty (w : World B) : _clients w = ∅ -> registry_ok w.
Proof.
  intros E. split.
  - intros k c H. rewrite E, lookup_empty in H. discriminate H.
  - intros k1 k2 c1 c2 H. rewrite E, lookup_empty in H. discriminate H.
Qed.

Lemma registry_ok_get_client (p : APIProvider) (kwargs : Kwargs.t)
    (w w1 : World B) (r : Result BaseAPIClient.t) :
  registry_ok w -> get_client p kwargs w = (r, w1) -> registry_ok w1.
Proof.
  intros [Hlt Hinj] H. destruct r as [c | e].
  - destruct (get_client_returns _ _ _ _ _ H)
      as (k & _ & _ & _ & _ & _ & _ & [[_ ->] | (Hnone & Hid & Hm & Ha)]).
    + split; assumption.
    + split.
      * intros k0 c0. rewrite Hm, Ha, lookup_insert.
        case_decide; intros Hc.
        -- injection Hc as <-. lia.
        -- apply Hlt in Hc. lia.
      * intros k1 k2 c1 c2. rewrite Hm, !lookup_insert.
        repeat case_decide; intros L1 L2 E; try congruence.
        -- injection L1 as <-. apply Hlt in L2. lia.
        -- injection L2 as <-. apply Hlt in L1. lia.
        -- exact (Hinj _ _ _ _ L1 L2 E).
  - destruct (Str.truthy (credential p kwargs w)) eqn:Ht.
    + destruct (truthy_some _ Ht) as (k & Hk & _). rewrite Hk in Ht.
      destruct (_clients w !! client_key p (py_hash w k)) as [c0 |] eqn:Hc.
      * rewrite (get_client_cached _ _ _ _ _ Hk Ht Hc) in H. discriminate H.
      * destruct (get_client_new _ _ _ _ Hk Ht Hc) as (c' & w' & E & _).
        rewrite E in H. discriminate H.
    + rewrite (get_client_no_credential _ _ _ Ht) in H.
      injection H as _ <-. split; assumption.
Qed.

Lemma registry_ok_clear_clients (w : World B) :
  registry_ok (snd (clear_clients w)).
Proof. apply registry_ok_empty. reflexivity. Qed.

End Registry.

(** C6, as the code has it. When neither the argument nor the environment
    gives a credential for a provider, [get_client] raises
    [APIClientError] "... API key not provided" at once: nothing is built,
    no request goes out, the process is as before.  A caller of the factory
    gets that exception.  Inside the orchestrator it is caught like any
    other: one error is logged and the loop goes on with the next
    provider. *)
Theorem C6_missing_credential_is_a_failed_attempt (B : Type)
    (cb : CircuitBreaker B) (p : APIProvider) (kwargs : Kwargs.t)
    (w : World B) :
  Str.truthy (credential p kwargs w) = false ->
  get_client p kwargs w = (Raise (key_not_provided p), w)
  /\ exn_class (key_not_provided p) = APIClientError
  /\ forall (call : Call) (rest : list APIProvider) (self : UnifiedAPIClient),
       fallback (invoke call kwargs) kwargs (p :: rest) self w
       = fallback (invoke call kwargs) kwargs rest self
           (logged (LogError ("Provider " ++ value p ++ " error: "
                                ++ str (key_not_provided p))) w).
Proof.
  intros Hmissing.
  pose proof (get_client_no_credential p kwargs w Hmissing) as Hget.
  split; [exact Hget |]. split; [destruct p; reflexivity |].
  intros call rest self.
  assert (Hcall : provider_call call kwargs p w = (Raise (key_not_provided p), w)).
  { unfold provider_call. apply bind_raise. exact Hget. }
  cbn [fallback].
  rewrite (bind_ok _ _ _ _ _ (attempt_raise _ _ _ _ _ _ Hcall)).
  reflexivity.
Qed.

(** With no OpenAI key in a process that has an Anthropic key, the factory
    refuses OpenAI and the loop starting there is the loop over the
    fallback. *)
Lemma C6_no_openai_key :
  get_client OPENAI Kwargs.empty no_openai_key_world
  = (Raise (mkExn APIClientError "OpenAI API key not provided"),
     no_openai_key_world)
  /\ fallback (invoke (CompleteText "hi") Kwargs.empty) Kwargs.empty
       [OPENAI; ANTHROPIC] openai_then_anthropic no_openai_key_world
     = fallback (invoke (CompleteText "hi") Kwargs.empty) Kwargs.empty
         [ANTHROPIC] openai_then_anthropic
         (logged (LogError "Provider openai error: OpenAI API key not provided")
            no_openai_key_world).
Proof.
  pose proof (C6_missing_credential_is_a_failed_attempt _ _ OPENAI
                Kwargs.empty no_openai_key_world eq_refl) as (Hget & _ & Hloop).
  split; [exact Hget |].
  exact (Hloop (CompleteText "hi") [ANTHROPIC] openai_then_anthropic).
Defined.

(** Against C6 as worded: OpenAI has no credential, yet the caller of the
    orchestrator receives no failure; it receives Anthropic's answer. *)
Lemma C6_missing_credential_not_surfaced :
  Str.truthy (credential OPENAI Kwargs.empty no_openai_key_world) = false
  /\ exists r w1,
       orchestrate openai_then_anthropic (CompleteText "hi") Kwargs.empty
         no_openai_key_world
       = (Ok (r, counted openai_then_anthropic), w1)
       /\ APIResponse.success r = true
       /\ APIResponse.provider r = Some "anthropic".
Proof.
  split; [reflexivity |].
  eexists _, _. split; [vm_compute; reflexivity |].
  split; reflexivity.
Qed.

(** ** Identity of registered clients *)

Section Identity.
Context {B : Type} `{!CircuitBreaker B}.



End Identity.

(** ** Hashes of bounded range collide *)









(** ** An open circuit breaker *)

Section BreakerOpen.
Context {B : Type} `{!CircuitBreaker B}.

(** The Anthropic adapter with its breaker open: nothing is sent, and the
    result is the failure "API error: Anthropic service temporarily
    unavailable". *)
Lemma anthropic_breaker_open (self : BaseAPIClient.t)
    (messages : list Message) (kwargs : Kwargs.t) (w : World B) :
  breaker_open self w ->
  AnthropicClient_generate_chat_completion self messages kwargs w
  = (Ok (error_result
           (mkExn APIClientError "Anthropic service temporarily unavailable")
           "anthropic" (now w - now w)%Q),
     logged (LogError
               "Anthropic completion error: Anthropic service temporarily unavailable")
       w)
  /\ APIResponse.error
       (error_result
          (mkExn APIClientError "Anthropic service temporarily unavailable")
          "anthropic" (now w - now w)%Q)
     = Some "API error: Anthropic service temporarily unavailable".
Proof.
  intros [Hattached Hopen]. split; [| reflexivity].
  unfold AnthropicClient_generate_chat_completion,
    AnthropicClient__make_request, make_request_body, guard.
  unfold try_except, bind, time_time, gets. rewrite Hattached. cbn.
  rewrite Hopen. reflexivity.
Qed.

(** The orchestrator then goes on with the next provider. *)
Lemma anthropic_breaker_open_falls_through (call : Call) (kwargs : Kwargs.t)
    (rest : list APIProvider) (self : UnifiedAPIClient)
    (client : BaseAPIClient.t) (w w1 : World B) :
  get_client ANTHROPIC kwargs w = (Ok client, w1) ->
  BaseAPIClient.cls client = ANTHROPIC ->
  breaker_open client w1 ->
  fallback (invoke call kwargs) kwargs (ANTHROPIC :: rest) self w
  = fallback (invoke call kwargs) kwargs rest self
      (logged (LogWarning
                 "Provider anthropic failed: API error: Anthropic service temporarily unavailable")
         (logged (LogError
                    "Anthropic completion error: Anthropic service temporarily unavailable")
            w1))
  /\ sdk_calls w1 = sdk_calls w.
Proof.
  intros Hget Hcls Hopen.
  destruct (get_client_returns _ _ _ _ _ Hget)
    as (k & _ & _ & _ & _ & Hcalls & _).
  split; [| exact Hcalls].
  assert (Hcall : provider_call call kwargs ANTHROPIC w
                  = (Ok (error_result
                           (mkExn APIClientError
                              "Anthropic service temporarily unavailable")
                           "anthropic" (now w1 - now w1)%Q),
                     logged (LogError
                               "Anthropic completion error: Anthropic service temporarily unavailable")
                       w1)).
  { unfold provider_call. rewrite (bind_ok _ _ _ _ _ Hget).
    unfold invoke, generate_completion, generate_chat_completion.
    rewrite Hcls. destruct call as [prompt | messages];
      apply (anthropic_breaker_open _ _ _ _ Hopen). }
  cbn [fallback].
  rewrite (bind_ok _ _ _ _ _ (attempt_failure _ _ _ _ _ _ Hcall eq_refl)).
  reflexivity.
Qed.

End BreakerOpen.

(** C3, what the code does for OpenAI. With the OpenAI breaker attached
    and open, the OpenAI adapter sends nothing, but its result is not the
    unavailable-service failure: the call of [_make_request] itself fails,
    the breaker is never asked, and the result reads
    "API error: 'CircuitBreakerError' object is not callable". *)
Theorem C3_openai_breaker_open_not_unavailable :
  exists client w1 r w2,
    get_client OPENAI Kwargs.empty breakers_open_world = (Ok client, w1)
    /\ breaker_open client w1
    /\ invoke (CompleteChat [mkMessage "user" "hi"]) Kwargs.empty client w1
       = (Ok r, w2)
    /\ APIResponse.error r
       = Some "API error: 'CircuitBreakerError' object is not callable"
    /\ APIResponse.error r
       <> Some "API error: OpenAI service temporarily unavailable"
    /\ sdk_calls w2 = sdk_calls w1.
Proof.
  eexists _, _, _, _.
  split; [vm_compute; reflexivity |].
  split; [split; reflexivity |].
  split; [vm_compute; reflexivity |].
  split; [reflexivity |].
  split; [discriminate | reflexivity].
Qed.

(** The whole orchestrator run with both breakers open: no request goes
    out, and the log tells the two adapters apart. *)
Example breakers_open_run :
  let '(result, w) :=
    orchestrate openai_then_anthropic (CompleteText "hi") Kwargs.empty
      breakers_open_world in
  result = Ok (all_failed, openai_then_anthropic)
  /\ sdk_calls w = 0%nat
  /\ trace w
     = [LogWarning
          "Provider anthropic failed: API error: Anthropic service temporarily unavailable";
        LogError
          "Anthropic completion error: Anthropic service temporarily unavailable";
        LogWarning
          "Provider openai failed: API error: 'CircuitBreakerError' object is not callable";
        LogError
          "OpenAI completion error: 'CircuitBreakerError' object is not callable"].
Proof. vm_compute. repeat split. Qed.

(** ** The cache manager *)



(** [MockRedisClient] has no [keys] method: with it as the client,
    [invalidate_pattern] ends with an [AttributeError], which is not a
    redis error and is not caught. *)
Lemma mock_invalidate_pattern_raises (self : Cache.CacheManager)
    (pattern : string) (w : Cache.CacheWorld Cache.MockRedisClient) :
  Cache.invalidate_pattern self pattern w
  = (Raise (mkExn AttributeError
              "'MockRedisClient' object has no attribute 'keys'"), w).
Proof. destruct w. reflexivity. Qed.

(** ** What adapter and orchestrator calls cost and keep *)

Section EffectsOfCalls.
Context {B : Type} `{!CircuitBreaker B}.

Lemma keeps_refl (w : World B) : keeps w w.
Proof. repeat split. Qed.

Lemma keeps_trans (w w1 w2 : World B) : keeps w w1 -> keeps w1 w2 -> keeps w w2.
Proof.
  intros (a1 & a2 & a3 & a4 & a5 & a6) (b1 & b2 & b3 & b4 & b5 & b6).
  repeat split; congruence.
Qed.

Lemma costs_ret {A} (a : A) : costs (B := B) 0 (ret a).
Proof. intros w r w1 E. injection E as _ <-. split; [apply keeps_refl | lia]. Qed.

Lemma costs_raise {A} (e : PyExn) : costs (B := B) (A := A) 0 (raise e).
Proof. intros w r w1 E. injection E as _ <-. split; [apply keeps_refl | lia]. Qed.

Lemma costs_gets {A} (f : World B -> A) : costs 0 (gets f).
Proof. intros w r w1 E. injection E as _ <-. split; [apply keeps_refl | lia]. Qed.

Lemma costs_lift {A} (x : Result A) : costs (B := B) 0 (lift x).
Proof. intros w r w1 E. injection E as _ <-. split; [apply keeps_refl | lia]. Qed.

Lemma costs_emit (ev : Event) : costs (B := B) 0 (emit ev).
Proof. intros w r w1 E. injection E as _ <-. split; [repeat split | cbn; lia]. Qed.

Lemma costs_set_breaker p (b : B) : costs 0 (set_breaker p b).
Proof. intros w r w1 E. injection E as _ <-. split; [repeat split | cbn; lia]. Qed.

Lemma costs_sdk_call ep req : costs (B := B) 1 (sdk_call ep req).
Proof.
  intros w r w1 E. unfold sdk_call in E.
  destruct (sdk w (sdk_calls w) ep req) as [dt [resp | e]];
    injection E as _ <-; (split; [repeat split | cbn; lia]).
Qed.

Lemma costs_weaken {A} (n m : nat) (c : M (World B) A) :
  (n <= m)%nat -> costs n c -> costs m c.
Proof. intros Hnm Hc w r w1 E. destruct (Hc _ _ _ E). split; [assumption | lia]. Qed.

Lemma costs_bind {A C} (n m : nat) (c : M (World B) A) (k : A -> M (World B) C) :
  costs n c -> (forall a, costs m (k a)) -> costs (n + m) (bind c k).
Proof.
  intros Hc Hk w r w2 E. unfold bind in E.
  destruct (c w) as [[a | e] w1] eqn:Ec.
  - destruct (Hc _ _ _ Ec) as [K1 L1]. destruct (Hk a _ _ _ E) as [K2 L2].
    split; [exact (keeps_trans _ _ _ K1 K2) | lia].
  - injection E as _ <-. destruct (Hc _ _ _ Ec) as [K1 L1]. split; [assumption | lia].
Qed.

Lemma costs_try_except {A} (n m : nat) (body : M (World B) A) catches handler :
  costs n body -> (forall e, costs m (handler e)) ->
  costs (n + m) (try_except body catches handler).
Proof.
  intros Hc Hk w r w2 E. unfold try_except in E.
  destruct (body w) as [[a | e] w1] eqn:Ec.
  - injection E as _ <-. destruct (Hc _ _ _ Ec) as [K1 L1]. split; [assumption | lia].
  - destruct (Hc _ _ _ Ec) as [K1 L1]. destruct (catches e).
    + destruct (Hk e _ _ _ E) as [K2 L2].
      split; [exact (keeps_trans _ _ _ K1 K2) | lia].
    + injection E as _ <-. split; [assumption | lia].
Qed.

Lemma costs_guard {A} (n : nat) p (request_func : M (World B) A) :
  costs n request_func -> costs n (guard p request_func).
Proof.
  intros Hc. unfold guard.
  apply (costs_bind 0 n); [apply costs_gets |]. intros b.
  destruct (rejects b).
  - apply (costs_weaken 0); [lia | apply costs_raise].
  - replace n with ((n + 0) + 0)%nat by lia.
    apply costs_try_except.
    + apply costs_bind; [exact Hc |]. intros a.
      apply (costs_bind 0 0); [apply costs_gets |]. intros b1.
      apply (costs_bind 0 0); [apply costs_set_breaker |]. intros _.
      apply costs_ret.
    + intros e. apply (costs_bind 0 0); [apply costs_gets |]. intros b1.
      destruct (record_outcome b1 false) as [b2 tripped].
      apply (costs_bind 0 0); [apply costs_set_breaker |]. intros _.
      destruct tripped; apply costs_raise.
Qed.

Lemma costs_make_request_body {A} (n : nat) service self (request_func : M (World B) A) :
  costs n request_func -> costs n (make_request_body service self request_func).
Proof.
  intros Hc. unfold make_request_body.
  replace n with (n + 0)%nat by lia. apply costs_try_except.
  - destruct (BaseAPIClient.circuit_breaker self); [apply costs_guard |]; exact Hc.
  - intros _. apply costs_raise.
Qed.

Lemma costs_on_error start log_prefix provider e :
  costs (B := B) 0 (on_error start log_prefix provider e).
Proof.
  unfold on_error. apply (costs_bind 0 0); [apply costs_gets |]. intros t.
  apply (costs_bind 0 0); [apply costs_emit |]. intros _. apply costs_ret.
Qed.

Lemma costs_anthropic_chat self messages kwargs :
  costs (B := B) 1 (AnthropicClient_generate_chat_completion self messages kwargs).
Proof.
  unfold AnthropicClient_generate_chat_completion.
  apply (costs_bind 0 1); [apply costs_gets |]. intros start.
  apply (costs_try_except 1 0).
  - apply (costs_bind 1 0).
    + apply costs_make_request_body, costs_sdk_call.
    + intros response. apply (costs_bind 0 0); [apply costs_gets |]. intros t.
      apply (costs_bind 0 0); [apply costs_lift |]. intros f. apply costs_ret.
  - intros e. apply costs_on_error.
Qed.

Lemma costs_openai_completion self prompt kwargs :
  costs (B := B) 0 (OpenAIClient_generate_completion self prompt kwargs).
Proof.
  intros w r w1 E. rewrite openai_completion_eval in E. injection E as _ <-.
  split; [repeat split | cbn; lia].
Qed.

Lemma costs_openai_chat self messages kwargs :
  costs (B := B) 0 (OpenAIClient_generate_chat_completion self messages kwargs).
Proof.
  intros w r w1 E. rewrite openai_chat_completion_eval in E. injection E as _ <-.
  split; [repeat split | cbn; lia].
Qed.

Lemma costs_invoke call kwargs client :
  costs (B := B) (if decide (BaseAPIClient.cls client = OPENAI) then 0 else 1)
    (invoke call kwargs client).
Proof.
  unfold invoke, generate_completion, generate_chat_completion.
  destruct call; destruct (BaseAPIClient.cls client); cbn.
  - apply costs_openai_completion.
  - apply costs_anthropic_chat.
  - apply costs_openai_chat.
  - apply costs_anthropic_chat.
Qed.

(** X5. When the breaker lets the call through and the SDK returns a
    message whose first block is a text, the Anthropic adapter sends exactly
    one request, built from the options with the client's model and the
    defaults 1000, 0.7 and 1.0, and returns a success carrying that text,
    the model the response names, the sum of input and output tokens, and
    as latency the clock after the call less the clock before it. *)
Theorem X5_anthropic_answer (self : BaseAPIClient.t) (messages : list Message)
    (kwargs : Kwargs.t) (w : World B) (dt : float) (text : string)
    (rest : list ContentBlock) (model : string) (input output : Z) :
  breaker_passes self w ->
  sdk w (sdk_calls w) messages_create (anthropic_request self messages kwargs)
  = (dt, Returns (AnthropicMessage (TextBlock text :: rest) model input output)) ->
  exists r w1 elapsed,
    AnthropicClient_generate_chat_completion self messages kwargs w = (Ok r, w1)
    /\ r = APIResponse.mk true (Some text) None None (Some elapsed)
             (Some "anthropic") (Some model) (Some (input + output))
    /\ elapsed = (now w1 - now w)%Q
    /\ sdk_calls w1 = S (sdk_calls w)
    /\ trace w1
       = NetworkCall messages_create (anthropic_request self messages kwargs)
           :: trace w.
Proof.
  intros Hpass Hsdk. unfold anthropic_request in Hsdk.
  unfold AnthropicClient_generate_chat_completion,
    AnthropicClient__make_request, make_request_body, guard, sdk_call.
  unfold try_except, bind, gets, time_time.
  unfold breaker_passes in Hpass.
  destruct (BaseAPIClient.circuit_breaker self) eqn:Hcb.
  - destruct Hpass as [Hpass | Hpass]; [discriminate Hpass |].
    cbn. rewrite Hpass. cbn. rewrite Hsdk. cbn.
    eexists _, _, _. split; [reflexivity |]. split; [reflexivity |].
    split; [reflexivity |]. split; reflexivity.
  - cbn. rewrite Hsdk. cbn.
    eexists _, _, _. split; [reflexivity |]. split; [reflexivity |].
    split; [reflexivity |]. split; reflexivity.
Qed.

(** X6. When the SDK call fails under an attached breaker that let it
    through, the breaker records the failure; if it answers with its own
    error (it trips on this call), or the SDK's error is itself a
    [CircuitBreakerError], the adapter reports the unavailable service and
    the message of the SDK's error is lost; otherwise the SDK's error is
    classified.  One request went out in either case. *)
Theorem X6_anthropic_failure_through_breaker (self : BaseAPIClient.t)
    (messages : list Message) (kwargs : Kwargs.t) (w : World B) (dt : float)
    (e : PyExn) (b2 : B) (tripped : bool) :
  BaseAPIClient.circuit_breaker self = true ->
  rejects (breaker_state w (BaseAPIClient.cls self)) = false ->
  sdk w (sdk_calls w) messages_create (anthropic_request self messages kwargs)
  = (dt, Raises e) ->
  record_outcome (breaker_state w (BaseAPIClient.cls self)) false = (b2, tripped) ->
  exists r w1 elapsed,
    AnthropicClient_generate_chat_completion self messages kwargs w = (Ok r, w1)
    /\ r = error_result
             (if tripped || isinstance e CircuitBreakerError
              then unavailable "Anthropic" else e)
             "anthropic" elapsed
    /\ breaker_state w1 (BaseAPIClient.cls self) = b2
    /\ sdk_calls w1 = S (sdk_calls w).
Proof.
  intros Hcb Hrej Hsdk Hrec. unfold anthropic_request in Hsdk.
  unfold AnthropicClient_generate_chat_completion,
    AnthropicClient__make_request, make_request_body, guard, sdk_call.
  unfold try_except, bind, gets, time_time.
  rewrite Hcb. cbn. rewrite Hrej. cbn. rewrite Hsdk. cbn. rewrite Hrec.
  destruct tripped; cbn.
  - eexists _, _, _. split; [reflexivity |]. split; [reflexivity |].
    split; [| reflexivity]. cbn. case_decide; [reflexivity | contradiction].
  - destruct (isinstance e CircuitBreakerError) eqn:Hi; cbn.
    + eexists _, _, _. split; [reflexivity |]. split; [reflexivity |].
      split; [| reflexivity]. cbn. case_decide; [reflexivity | contradiction].
    + rewrite isinstance_Exception.
      eexists _, _, _. split; [reflexivity |]. split; [reflexivity |].
      split; [| reflexivity]. cbn. case_decide; [reflexivity | contradiction].
Qed.

(** X7. A message the SDK returned without a leading text block, an empty
    content list or a tool call first, is reported as a failure, "API
    error: list index out of range" or "API error: 'ToolUseBlock' object
    has no attribute 'text'", although the request went out and an attached
    breaker has recorded the call as a success. *)
Theorem X7_anthropic_answer_without_text (self : BaseAPIClient.t)
    (messages : list Message) (kwargs : Kwargs.t) (w : World B) (dt : float)
    (content : list ContentBlock) (model : string) (input output : Z) :
  breaker_passes self w ->
  sdk w (sdk_calls w) messages_create (anthropic_request self messages kwargs)
  = (dt, Returns (AnthropicMessage content model input output)) ->
  (forall text rest, content <> TextBlock text :: rest) ->
  exists r w1,
    AnthropicClient_generate_chat_completion self messages kwargs w = (Ok r, w1)
    /\ APIResponse.success r = false
    /\ APIResponse.error r
       = Some (match content with
               | [] => "API error: list index out of range"
               | _ => "API error: 'ToolUseBlock' object has no attribute 'text'"
               end)
    /\ sdk_calls w1 = S (sdk_calls w)
    /\ (BaseAPIClient.circuit_breaker self = true ->
        breaker_state w1 (BaseAPIClient.cls self)
        = fst (record_outcome (breaker_state w (BaseAPIClient.cls self)) true)).
Proof.
  intros Hpass Hsdk Hcontent. unfold anthropic_request in Hsdk.
  unfold AnthropicClient_generate_chat_completion,
    AnthropicClient__make_request, make_request_body, guard, sdk_call.
  unfold try_except, bind, gets, time_time.
  unfold breaker_passes in Hpass.
  destruct (BaseAPIClient.circuit_breaker self) eqn:Hcb.
  - destruct Hpass as [Hpass | Hpass]; [discriminate Hpass |].
    cbn. rewrite Hpass. cbn. rewrite Hsdk. cbn.
    destruct content as [| [text |] rest]; cbn.
    + eexists _, _. split; [reflexivity |]. repeat split.
      intros _. cbn. case_decide; [reflexivity | contradiction].
    + exfalso. exact (Hcontent _ _ eq_refl).
    + eexists _, _. split; [reflexivity |]. repeat split.
      intros _. cbn. case_decide; [reflexivity | contradiction].
  - cbn. rewrite Hsdk. cbn.
    destruct content as [| [text |] rest]; cbn.
    + eexists _, _. split; [reflexivity |]. repeat split. intros H; discriminate H.
    + exfalso. exact (Hcontent _ _ eq_refl).
    + eexists _, _. split; [reflexivity |]. repeat split. intros H; discriminate H.
Qed.

Lemma later_refl (w : World B) : later w w.
Proof. repeat split; try lia. intros k c H; exact H. Qed.

Lemma later_trans (w w1 w2 : World B) : later w w1 -> later w1 w2 -> later w w2.
Proof.
  intros (a1 & a2 & a3 & a4 & a5) (b1 & b2 & b3 & b4 & b5).
  repeat split; try congruence; try lia. intros k c H. apply b5, a5, H.
Qed.

Lemma keeps_later (w w1 : World B) :
  keeps w w1 -> (sdk_calls w <= sdk_calls w1)%nat -> later w w1.
Proof.
  intros (a1 & a2 & a3 & a4 & _) Hs.
  repeat split; try assumption; try lia. intros k c H. rewrite a3. exact H.
Qed.

Lemma logged_later (ev : Event) (w : World B) : later w (logged ev w).
Proof. repeat split; cbn; try lia. intros k c H; exact H. Qed.

Lemma registry_ok_same (w w1 : World B) :
  _clients w1 = _clients w -> allocated w1 = allocated w ->
  registry_ok w -> registry_ok w1.
Proof. intros E1 E2 [H1 H2]. split; rewrite E1; [rewrite E2 |]; assumption. Qed.

Lemma registry_typed_same (w w1 : World B) :
  _clients w1 = _clients w -> registry_typed w -> registry_typed w1.
Proof. intros E1 H p h c. rewrite E1. apply H. Qed.

Lemma client_key_provider (p q : APIProvider) (h1 h2 : Z) :
  client_key p h1 = client_key q h2 -> p = q.
Proof. destruct p, q; cbn; intros H; try reflexivity; discriminate H. Qed.

(** The client a miss builds is of the class of the provider asked for. *)
Lemma get_client_new_cls (p : APIProvider) (kwargs : Kwargs.t) (w w1 : World B)
    (k : string) (c : BaseAPIClient.t) :
  credential p kwargs w = Some k ->
  Str.truthy (Some k) = true ->
  _clients w !! client_key p (py_hash w k) = None ->
  get_client p kwargs w = (Ok c, w1) ->
  BaseAPIClient.cls c = p /\ BaseAPIClient.api_key c = k.
Proof.
  unfold credential, get_client, bind, os_getenv, gets. intros Hk Ht Hc.
  rewrite Hk, Ht. cbn. rewrite Hc. cbn. intros E. injection E as <- _.
  split; reflexivity.
Qed.

Lemma get_client_effects (p : APIProvider) (kwargs : Kwargs.t) (w w1 : World B)
    (res : Result BaseAPIClient.t) :
  get_client p kwargs w = (res, w1) ->
  later w w1 /\ sdk_calls w1 = sdk_calls w
  /\ (registry_typed w ->
      registry_typed w1 /\ forall c, res = Ok c -> BaseAPIClient.cls c = p).
Proof.
  intros E. destruct res as [c | e].
  - destruct (get_client_returns _ _ _ _ _ E)
      as (k & Hk & Ht & Henv & Hpy & Hcalls & _ & Hcase).
    destruct Hcase as [[Hc ->] | (Hnone & Hid & Hm & Ha)].
    + split; [apply later_refl |]. split; [reflexivity |].
      intros Hty. split; [exact Hty |]. intros c0 E0. injection E0 as <-.
      exact (Hty _ _ _ Hc).
    + destruct (get_client_new_cls _ _ _ _ _ _ Hk Ht Hnone E) as [Hcls _].
      split.
      { repeat split; try assumption; try lia.
        intros k0 c0 H0. rewrite Hm, lookup_insert. case_decide as Hkey.
        - subst k0. rewrite Hnone in H0. discriminate H0.
        - exact H0. }
      split; [exact Hcalls |].
      intros Hty. split.
      * intros q h c0. rewrite Hm, lookup_insert. case_decide as Hkey.
        -- intros E0. injection E0 as <-. rewrite Hcls.
           exact (client_key_provider _ _ _ _ Hkey).
        -- apply Hty.
      * intros c0 E0. injection E0 as <-. exact Hcls.
  - destruct (Str.truthy (credential p kwargs w)) eqn:Ht.
    + destruct (truthy_some _ Ht) as (k & Hk & _). rewrite Hk in Ht.
      destruct (_clients w !! client_key p (py_hash w k)) as [c0 |] eqn:Hc.
      * rewrite (get_client_cached _ _ _ _ _ Hk Ht Hc) in E. discriminate E.
      * destruct (get_client_new _ _ _ _ Hk Ht Hc) as (c' & w' & E' & _).
        rewrite E' in E. discriminate E.
    + rewrite (get_client_no_credential _ _ _ Ht) in E. injection E as _ <-.
      split; [apply later_refl |]. split; [reflexivity |].
      intros Hty. split; [exact Hty |]. intros c0 E0. discriminate E0.
Qed.

Lemma openai_invoke_fails (call : Call) (kwargs : Kwargs.t)
    (client : BaseAPIClient.t) (w w1 : World B) (r : APIResponse.t) :
  BaseAPIClient.cls client = OPENAI ->
  invoke call kwargs client w = (Ok r, w1) ->
  APIResponse.success r = false.
Proof.
  unfold invoke, generate_completion, generate_chat_completion.
  intros ->. destruct call.
  - rewrite openai_completion_eval. intros E; injection E as <- _. reflexivity.
  - rewrite openai_chat_completion_eval. intros E; injection E as <- _. reflexivity.
Qed.

Lemma attempt_effects (call : Call) (kwargs : Kwargs.t) (p : APIProvider)
    (w : World B) :
  exists o w1,
    attempt (invoke call kwargs) kwargs p w = (Ok o, w1)
    /\ later w w1 /\ (sdk_calls w1 <= S (sdk_calls w))%nat
    /\ (registry_ok w -> registry_ok w1)
    /\ (registry_typed w ->
        registry_typed w1
        /\ (p = OPENAI -> o = None /\ sdk_calls w1 = sdk_calls w)).
Proof.
  destruct (get_client p kwargs w) as [[client | e] w0] eqn:Hget.
  - destruct (get_client_effects _ _ _ _ _ Hget) as (L0 & S0 & T0).
    destruct (invoke_returns call kwargs client w0) as (r & w1 & Hinv & _).
    destruct (costs_invoke call kwargs client _ _ _ Hinv) as [K1 C1].
    assert (Hcall : provider_call call kwargs p w = (Ok r, w1)).
    { unfold provider_call. rewrite (bind_ok _ _ _ _ _ Hget). exact Hinv. }
    assert (Hb : (sdk_calls w1 <= S (sdk_calls w))%nat) by (case_decide; lia).
    assert (L1 : later w w1).
    { apply (later_trans _ w0); [exact L0 |]. apply keeps_later; [exact K1 | lia]. }
    assert (Hok : registry_ok w -> registry_ok w1).
    { intros Hok. destruct K1 as (_ & _ & k3 & k4 & _).
      apply (registry_ok_same w0); try assumption.
      exact (registry_ok_get_client _ _ _ _ _ Hok Hget). }
    assert (Hty : registry_typed w -> registry_typed w1
                  /\ (p = OPENAI -> APIResponse.success r = false
                                    /\ sdk_calls w1 = sdk_calls w)).
    { intros Hty. destruct (T0 Hty) as [Hty0 Hcls].
      destruct K1 as (_ & _ & k3 & _).
      split; [exact (registry_typed_same _ _ k3 Hty0) |].
      intros ->. specialize (Hcls _ eq_refl).
      split; [exact (openai_invoke_fails _ _ _ _ _ _ Hcls Hinv) |].
      rewrite Hcls in C1. case_decide; [lia | contradiction]. }
    destruct (APIResponse.success r) eqn:Hs.
    + exists (Some r), w1. split; [exact (attempt_success _ _ _ _ _ _ Hcall Hs) |].
      split; [exact L1 |]. split; [exact Hb |].
      split; [exact Hok |]. intros H. destruct (Hty H) as [H1 H2].
      split; [exact H1 |]. intros Hp. destruct (H2 Hp) as [H3 _]. discriminate H3.
    + eexists None, _. split; [exact (attempt_failure _ _ _ _ _ _ Hcall Hs) |].
      split; [exact (later_trans _ _ _ L1 (logged_later _ _)) |].
      split; [cbn; exact Hb |].
      split.
      { intros H. apply (registry_ok_same w1); [reflexivity | reflexivity | exact (Hok H)]. }
      intros H. destruct (Hty H) as [H1 H2].
      split; [apply (registry_typed_same w1); [reflexivity | exact H1] |].
      intros Hp. split; [reflexivity |]. cbn. exact (proj2 (H2 Hp)).
  - destruct (get_client_effects _ _ _ _ _ Hget) as (L0 & S0 & T0).
    assert (Hcall : provider_call call kwargs p w = (Raise e, w0)).
    { unfold provider_call. apply bind_raise. exact Hget. }
    eexists None, _. split; [exact (attempt_raise _ _ _ _ _ _ Hcall) |].
    split; [exact (later_trans _ _ _ L0 (logged_later _ _)) |].
    split; [cbn; lia |].
    split.
    { intros H. apply (registry_ok_same w0); [reflexivity | reflexivity |].
      exact (registry_ok_get_client _ _ _ _ _ H Hget). }
    intros H. destruct (T0 H) as [H1 _].
    split; [apply (registry_typed_same w0); [reflexivity | exact H1] |].
    intros _. split; [reflexivity |]. cbn. exact S0.
Qed.

Lemma fallback_effects (call : Call) (kwargs : Kwargs.t)
    (providers : list APIProvider) (self : UnifiedAPIClient) (w : World B) :
  exists r self1 w1,
    fallback (invoke call kwargs) kwargs providers self w = (Ok (r, self1), w1)
    /\ later w w1
    /\ (sdk_calls w1 <= sdk_calls w + List.length providers)%nat
    /\ (registry_ok w -> registry_ok w1)
    /\ (registry_typed w ->
        registry_typed w1
        /\ (Forall (eq OPENAI) providers ->
            r = all_failed /\ self1 = self /\ sdk_calls w1 = sdk_calls w)).
Proof.
  revert w. induction providers as [| p ps IH]; intros w.
  - eexists _, _, _. split; [reflexivity |]. split; [apply later_refl |].
    split; [cbn; lia |]. split; [tauto |]. intros H. split; [exact H |].
    intros _. repeat split.
  - destruct (attempt_effects call kwargs p w) as (o & w1 & E & L & C & Hok & Hty).
    cbn [fallback]. rewrite (bind_ok _ _ _ _ _ E).
    destruct o as [r |].
    + eexists _, _, _. split; [reflexivity |]. split; [exact L |].
      split; [cbn; lia |]. split; [exact Hok |].
      intros H. destruct (Hty H) as [H1 H2]. split; [exact H1 |].
      intros HF. inversion HF as [| ? ? Hp _]; subst.
      destruct (H2 eq_refl) as [H3 _]. discriminate H3.
    + destruct (IH w1) as (r & self1 & w2 & E2 & L2 & C2 & Hok2 & Hty2).
      exists r, self1, w2. split; [exact E2 |].
      split; [exact (later_trans _ _ _ L L2) |].
      split; [cbn; lia |]. split; [intros H; exact (Hok2 (Hok H)) |].
      intros H. destruct (Hty H) as [H1 H2]. destruct (Hty2 H1) as [H3 H4].
      split; [exact H3 |].
      intros HF. inversion HF as [| ? ? Hp HF']; subst.
      destruct (H2 eq_refl) as [_ H5]. destruct (H4 HF') as (-> & -> & H6).
      repeat split. lia.
Qed.
End EffectsOfCalls.

(** X1. A request to the orchestrator never changes its provider
    settings, and its counter goes up by one exactly when the returned
    result is successful: [request_count] counts the successful
    requests. *)
Theorem X1_request_count_tracks_successes (B : Type) (cb : CircuitBreaker B)
    (self : UnifiedAPIClient) (call : Call) (kwargs : Kwargs.t) (w : World B) :
  exists r self1 w1,
    orchestrate self call kwargs w = (Ok (r, self1), w1)
    /\ primary_provider self1 = primary_provider self
    /\ fallback_providers self1 = fallback_providers self
    /\ request_count self1 = request_count self + success_count r.
Proof.
  rewrite orchestrate_fallback.
  destruct (fallback_returns call kwargs
              ([primary_provider self] ++ fallback_providers self)%list self w)
    as (r & self1 & w1 & E & [(name & _ & Hs & ->) | [-> ->]]).
  - exists r, (counted self), w1. split; [exact E |].
    unfold success_count. rewrite Hs. repeat split.
  - exists all_failed, self, w1. split; [exact E |].
    repeat split. cbn. lia.
Qed.

(** X2. A request to the orchestrator sends at most one SDK request per
    provider of its attempt sequence, the primary and each fallback. *)
Theorem X2_at_most_one_request_per_provider (B : Type) (cb : CircuitBreaker B)
    (self : UnifiedAPIClient) (call : Call) (kwargs : Kwargs.t) (w : World B) :
  exists r self1 w1,
    orchestrate self call kwargs w = (Ok (r, self1), w1)
    /\ (sdk_calls w <= sdk_calls w1
        <= sdk_calls w + S (List.length (fallback_providers self)))%nat.
Proof.
  rewrite orchestrate_fallback.
  destruct (fallback_effects call kwargs
              ([primary_provider self] ++ fallback_providers self)%list self w)
    as (r & self1 & w1 & E & (_ & _ & _ & L & _) & C & _).
  exists r, self1, w1. split; [exact E |]. cbn in C. lia.
Qed.

(** X3. As the code is written, an orchestrator whose providers are all
    OpenAI never succeeds and never sends a request: in a process whose
    registry holds each provider's clients under that provider's keys,
    every request returns the aggregate failure and leaves the counter
    alone. *)
Theorem X3_openai_only_never_succeeds (B : Type) (cb : CircuitBreaker B)
    (self : UnifiedAPIClient) (call : Call) (kwargs : Kwargs.t) (w : World B) :
  registry_typed w ->
  primary_provider self = OPENAI ->
  Forall (eq OPENAI) (fallback_providers self) ->
  exists w1,
    orchestrate self call kwargs w = (Ok (all_failed, self), w1)
    /\ sdk_calls w1 = sdk_calls w.
Proof.
  intros Hty Hp Hf. rewrite orchestrate_fallback.
  destruct (fallback_effects call kwargs
              ([primary_provider self] ++ fallback_providers self)%list self w)
    as (r & self1 & w1 & E & _ & _ & _ & H).
  destruct (H Hty) as [_ H2].
  destruct H2 as (-> & -> & Hs).
  { rewrite Hp. constructor; [reflexivity | exact Hf]. }
  exists w1. split; [exact E | exact Hs].
Qed.

Lemma registry_typed_empty (B : Type) (w : World B) :
  _clients w = ∅ -> registry_typed w.
Proof. intros E p h c H. rewrite E, lookup_empty in H. discriminate H. Qed.

(** OpenAI alone in the demonstration process. *)
Lemma X3_openai_alone :
  exists w1,
    orchestrate (UnifiedAPIClient_init OPENAI None) (CompleteText "hi")
      Kwargs.empty demo_world
    = (Ok (all_failed, UnifiedAPIClient_init OPENAI None), w1)
    /\ sdk_calls w1 = sdk_calls demo_world.
Proof.
  apply (X3_openai_only_never_succeeds _ _ (UnifiedAPIClient_init OPENAI None)).
  - apply registry_typed_empty. reflexivity.
  - reflexivity.
  - constructor.
Defined.

(** X4. A request to the orchestrator keeps the registry sound, keeps every
    client that was registered before it under its key, and does not touch
    the environment: handles obtained earlier stay valid. *)
Theorem X4_registry_survives_requests (B : Type) (cb : CircuitBreaker B)
    (self : UnifiedAPIClient) (call : Call) (kwargs : Kwargs.t) (w : World B) :
  registry_ok w ->
  exists r self1 w1,
    orchestrate self call kwargs w = (Ok (r, self1), w1)
    /\ registry_ok w1
    /\ (forall k c, _clients w !! k = Some c -> _clients w1 !! k = Some c)
    /\ environ w1 = environ w.
Proof.
  intros Hok. rewrite orchestrate_fallback.
  destruct (fallback_effects call kwargs
              ([primary_provider self] ++ fallback_providers self)%list self w)
    as (r & self1 & w1 & E & (He & _ & _ & _ & L) & _ & H & _).
  exists r, self1, w1. split; [exact E |]. split; [exact (H Hok) |].
  split; [exact L | exact He].
Qed.

(** A request in the demonstration process. *)
Lemma X4_demo_request :
  exists r self1 w1,
    orchestrate openai_then_anthropic (CompleteText "hi") Kwargs.empty demo_world
    = (Ok (r, self1), w1)
    /\ registry_ok w1
    /\ (forall k c, _clients demo_world !! k = Some c -> _clients w1 !! k = Some c)
    /\ environ w1 = environ demo_world.
Proof.
  apply (X4_registry_survives_requests _ _ openai_then_anthropic).
  apply registry_ok_empty. reflexivity.
Defined.

(** The demonstration client is answered "hello" after one second. *)
Lemma X5_hello :
  exists r w1 elapsed,
    AnthropicClient_generate_chat_completion demo_anthropic_client
      [mkMessage "user" "hi"] Kwargs.empty demo_world = (Ok r, w1)
    /\ r = APIResponse.mk true (Some "hello") None None (Some elapsed)
             (Some "anthropic") (Some "claude-3-sonnet-20240229") (Some (3 + 2))
    /\ elapsed = (now w1 - now demo_world)%Q
    /\ sdk_calls w1 = S (sdk_calls demo_world)
    /\ trace w1
       = NetworkCall messages_create
           (anthropic_request demo_anthropic_client [mkMessage "user" "hi"]
              Kwargs.empty)
           :: trace demo_world.
Proof.
  apply (X5_anthropic_answer demo_anthropic_client [mkMessage "user" "hi"]
           Kwargs.empty demo_world 1%Q "hello" []).
  - right. reflexivity.
  - reflexivity.
Defined.

(** The fifth failure in a row: a quota error goes in, the unavailable
    service comes out and the breaker is open. *)
Lemma X6_fifth_failure :
  exists r w1 elapsed,
    AnthropicClient_generate_chat_completion demo_anthropic_client
      [mkMessage "user" "hi"] Kwargs.empty nearly_open_world = (Ok r, w1)
    /\ r = error_result (unavailable "Anthropic") "anthropic" elapsed
    /\ breaker_state w1 ANTHROPIC = open_breaker
    /\ sdk_calls w1 = S (sdk_calls nearly_open_world).
Proof.
  apply (X6_anthropic_failure_through_breaker demo_anthropic_client
           [mkMessage "user" "hi"] Kwargs.empty nearly_open_world 1%Q
           (mkExn (Native "RateLimitError")
              "You exceeded your current quota, please check your plan")
           open_breaker true); reflexivity.
Defined.

(** A tool call for an answer. *)
Lemma X7_tool_call :
  exists r w1,
    AnthropicClient_generate_chat_completion demo_anthropic_client
      [mkMessage "user" "hi"] Kwargs.empty tool_world = (Ok r, w1)
    /\ APIResponse.success r = false
    /\ APIResponse.error r
       = Some "API error: 'ToolUseBlock' object has no attribute 'text'"
    /\ sdk_calls w1 = S (sdk_calls tool_world)
    /\ (BaseAPIClient.circuit_breaker demo_anthropic_client = true ->
        breaker_state w1 (BaseAPIClient.cls demo_anthropic_client)
        = fst (record_outcome
                 (breaker_state tool_world
                    (BaseAPIClient.cls demo_anthropic_client)) true)).
Proof.
  apply (X7_anthropic_answer_without_text demo_anthropic_client
           [mkMessage "user" "hi"] Kwargs.empty tool_world 1%Q [ToolUseBlock]
           "claude-3-sonnet-20240229" 3 2).
  - right. reflexivity.
  - reflexivity.
  - intros text rest H. discriminate H.
Defined.

(** ** Building the orchestrator from names *)

Lemma providers_of_values_map (ps : list APIProvider) :
  providers_of_values (map value ps) = Ok ps.
Proof.
  induction ps as [| p ps IH]; [reflexivity |].
  cbn [map providers_of_values]. rewrite IH. destruct p; reflexivity.
Qed.

Lemma APIProvider_of_value_cases (name : string) :
  match APIProvider_of_value name with
  | Ok p => value p = name
  | Raise e => exn_class e = ValueError /\ ~ provider_name name
  end.
Proof.
  unfold APIProvider_of_value.
  destruct (String.eqb_spec name "openai") as [-> | H1]; [reflexivity |].
  destruct (String.eqb_spec name "anthropic") as [-> | H2]; [reflexivity |].
  split; [reflexivity |]. intros [H | H]; contradiction.
Qed.

Lemma providers_of_values_cases (names : list string) :
  match providers_of_values names with
  | Ok ps => map value ps = names
  | Raise e => exn_class e = ValueError /\ ~ Forall provider_name names
  end.
Proof.
  induction names as [| n names IH]; [reflexivity |].
  cbn [providers_of_values].
  pose proof (APIProvider_of_value_cases n) as Hn.
  destruct (APIProvider_of_value n) as [p | e].
  - destruct (providers_of_values names) as [ps | e].
    + cbn. rewrite Hn, IH. reflexivity.
    + destruct IH as [He Hnot]. split; [exact He |].
      intros HF. inversion HF; subst. contradiction.
  - destruct Hn as [He Hnot]. split; [exact He |].
    intros HF. inversion HF; subst. contradiction.
Qed.

(** X8. [get_unified_client] turns names into an orchestrator with those
    providers in that order and a counter at zero, and it is the inverse of
    reading the names off: the names of members always build. A name other
    than "openai" and "anthropic", as primary or among the fallbacks, ends
    it with a [ValueError] instead. *)
Theorem X8_get_unified_client_by_name :
  (forall (p : APIProvider) (ps : list APIProvider),
     get_unified_client (Some (value p)) (Some (map value ps))
     = Ok (mkUnified p ps 0))
  /\ get_unified_client None None = Ok (mkUnified OPENAI [] 0)
  /\ (forall (primary : option string) (fallbacks : option (list string)),
        match get_unified_client primary fallbacks with
        | Ok u =>
            value (primary_provider u) = get_or primary "openai"
            /\ map value (fallback_providers u) = get_or fallbacks []
            /\ request_count u = 0
        | Raise e =>
            exn_class e = ValueError
            /\ ~ Forall provider_name
                   (get_or primary "openai" :: get_or fallbacks [])
        end).
Proof.
  split; [| split].
  - intros p ps. unfold get_unified_client. cbn [get_or].
    rewrite providers_of_values_map. destruct p; reflexivity.
  - reflexivity.
  - intros primary fallbacks. unfold get_unified_client.
    pose proof (APIProvider_of_value_cases (get_or primary "openai")) as Hp.
    pose proof (providers_of_values_cases (get_or fallbacks [])) as Hf.
    destruct (APIProvider_of_value (get_or primary "openai")) as [p | e].
    + destruct (providers_of_values (get_or fallbacks [])) as [ps | e].
      * cbn. repeat split; assumption.
      * destruct Hf as [He Hnot]. split; [exact He |].
        intros HF. inversion HF; subst. contradiction.
    + destruct Hp as [He Hnot]. split; [exact He |].
      intros HF. inversion HF; subst. contradiction.
Qed.

Lemma append_length (s1 s2 : string) :
  String.length (s1 ++ s2) = (String.length s1 + String.length s2)%nat.
Proof.
  induction s1 as [| a s1 IH]; [reflexivity |].
  change (S (String.length (s1 ++ s2)) = S (String.length s1 + String.length s2)).
  rewrite IH. reflexivity.
Qed.

(** ** The cache manager over [MockRedisClient] *)

Section MockCache.
Context {V : Type} `{!Cache.Json V}.

Lemma make_key_inj (self : Cache.CacheManager) (k1 k2 : string) :
  Cache._make_key self k1 = Cache._make_key self k2 -> k1 = k2.
Proof. unfold Cache._make_key. apply (inj (String.append _)). Qed.

(** What the mock answers. *)
Lemma mock_get_eval (self : Cache.CacheManager) (key : string)
    (w : Cache.CacheWorld Cache.MockRedisClient) :
  Cache.get (V := V) self key w
  = match Cache.store w !! Cache._make_key self key with
    | Some (String a t) =>
        match Cache.loads (String a t) with
        | Ok v => (Ok v, w)
        | Raise e =>
            if isinstance e RedisError || isinstance e JSONDecodeError
            then (Ok None,
                  Cache.mkCacheWorld _ (Cache.store w)
                    (("Cache get error for key " ++ key ++ ": " ++ str e)
                       :: Cache.warnings w))
            else (Raise e, w)
        end
    | _ => (Ok None, w)
    end.
Proof.
  destruct w as [s l]. unfold Cache.get, try_except, bind, Cache.on_client. cbn.
  destruct (s !! Cache._make_key self key) as [[| a t] |]; cbn; reflexivity.
Qed.

Lemma mock_set_result_eval (self : Cache.CacheManager) (key : string)
    (value : option V) (serialized : string) (ttl : option Z)
    (w : Cache.CacheWorld Cache.MockRedisClient) :
  dumps_or_null value = Ok serialized ->
  set_result self key value ttl w
  = (Ok (Some true),
     Cache.mkCacheWorld Cache.MockRedisClient
       (<[Cache._make_key self key := serialized]> (Cache.store w))
       (Cache.warnings w)).
Proof.
  intros Hd. destruct w as [s l].
  unfold set_result, try_except, bind, lift, Cache.on_client. rewrite Hd. reflexivity.
Qed.

Lemma mock_set_eval (self : Cache.CacheManager) (key : string) (v : V)
    (serialized : string) (ttl : option Z)
    (w : Cache.CacheWorld Cache.MockRedisClient) :
  Cache.dumps v = Ok serialized ->
  Cache.set self key v ttl w
  = (Ok (Some true),
     Cache.mkCacheWorld Cache.MockRedisClient
       (<[Cache._make_key self key := serialized]> (Cache.store w))
       (Cache.warnings w)).
Proof.
  intros Hd. destruct w as [s l].
  unfold Cache.set, try_except, bind, lift, Cache.on_client. rewrite Hd. reflexivity.
Qed.

(** X9. Over [MockRedisClient], a value that the codec writes as a
    non-empty text and reads back is returned by [get] after [set], the
    [set] reports [True], and the entries under every other key are as
    before. *)
Theorem X9_mock_cache_round_trip (self : Cache.CacheManager) (key : string)
    (v : V) (serialized : string) (ttl : option Z)
    (w : Cache.CacheWorld Cache.MockRedisClient) :
  round_trips v serialized ->
  exists w1,
    Cache.set self key v ttl w = (Ok (Some true), w1)
    /\ Cache.get self key w1 = (Ok (Some v), w1)
    /\ Cache.store w1 = <[Cache._make_key self key := serialized]> (Cache.store w)
    /\ (forall key', key' <> key ->
          Cache.store w1 !! Cache._make_key self key'
          = Cache.store w !! Cache._make_key self key').
Proof.
  intros (Hd & Ht & Hl). eexists. split; [apply (mock_set_eval _ _ _ _ _ _ Hd) |].
  split; [| split; [reflexivity |]].
  - rewrite mock_get_eval. cbn [Cache.store].
    unfold Cache.MockRedisClient. rewrite lookup_insert_eq.
    destruct serialized as [| a t]; [discriminate Ht |]. rewrite Hl. reflexivity.
  - intros key' Hne. cbn [Cache.store]. unfold Cache.MockRedisClient.
    apply lookup_insert_ne. intros E. apply make_key_inj in E. congruence.
Qed.

(** X14. A query result cached under a query hash is what
    [get_cached_query_result] returns for that hash afterwards; it lives
    under the key "query:" followed by the hash, so the entry under the
    bare hash is as before. *)
Theorem X14_query_result_round_trip (self : Cache.CacheManager)
    (query_hash : string) (v : V) (serialized : string) (ttl : option Z)
    (w : Cache.CacheWorld Cache.MockRedisClient) :
  round_trips v serialized ->
  exists w1,
    cache_query_result self query_hash v ttl w = (Ok (Some true), w1)
    /\ get_cached_query_result self query_hash w1 = (Ok (Some v), w1)
    /\ Cache.store w1 !! Cache._make_key self query_hash
       = Cache.store w !! Cache._make_key self query_hash.
Proof.
  intros (Hd & Ht & Hl). unfold cache_query_result, get_cached_query_result.
  eexists. split; [apply (mock_set_eval _ _ _ _ _ _ Hd) |]. split.
  - rewrite mock_get_eval. cbn [Cache.store].
    unfold Cache.MockRedisClient. rewrite lookup_insert_eq.
    destruct serialized as [| a t]; [discriminate Ht |]. rewrite Hl. reflexivity.
  - cbn [Cache.store]. unfold Cache.MockRedisClient.
    apply lookup_insert_ne. intros E. apply make_key_inj in E.
    apply (f_equal String.length) in E.
    rewrite append_length in E. cbn in E. lia.
Qed.

(** X10. Over [MockRedisClient], [delete] reports whether the key was
    there and removes it: a [get] right after finds nothing and a second
    [delete] reports [False]. *)
Theorem X10_mock_cache_delete (self : Cache.CacheManager) (key : string)
    (w : Cache.CacheWorld Cache.MockRedisClient) :
  exists w1,
    Cache.delete self key w
    = (Ok (bool_decide (is_Some (Cache.store w !! Cache._make_key self key))), w1)
    /\ Cache.store w1 = base.delete (Cache._make_key self key) (Cache.store w)
    /\ Cache.get (V := V) self key w1 = (Ok None, w1)
    /\ Cache.delete self key w1 = (Ok false, w1).
Proof.
  destruct w as [s l].
  eexists. split.
  { unfold Cache.delete, try_except, bind, Cache.on_client. cbn.
    destruct (bool_decide (is_Some (s !! Cache._make_key self key))); reflexivity. }
  split; [reflexivity |]. split.
  - rewrite mock_get_eval. cbn [Cache.store]. unfold Cache.MockRedisClient.
    rewrite lookup_delete_eq. reflexivity.
  - unfold Cache.delete, try_except, bind, Cache.on_client. cbn.
    unfold Cache.MockRedisClient.
    rewrite lookup_delete_eq.
    rewrite bool_decide_eq_false_2 by (intros [x Hx]; discriminate Hx). cbn.
    rewrite delete_id by apply lookup_delete_eq. reflexivity.
Qed.

(** X12. A decorated function whose result for these arguments is not yet
    cached, which returns a value the codec round-trips and leaves the
    store alone, is run by the first call, which stores the result under
    the call's key; the second call returns the same value from the cache
    and changes nothing: the function is not run again. *)
Theorem X12_query_cache_hits_after_first_call
    (cache_manager : Cache.CacheManager) (self : QueryCache) (cache_key : string)
    (func : M (Cache.CacheWorld Cache.MockRedisClient) (option V))
    (v : V) (serialized : string)
    (w w1 : Cache.CacheWorld Cache.MockRedisClient) :
  round_trips v serialized ->
  Cache.store w !! Cache._make_key cache_manager cache_key = None ->
  func w = (Ok (Some v), w1) ->
  Cache.store w1 = Cache.store w ->
  exists w2,
    QueryCache_wrapper (Some cache_manager) cache_key self func w
    = (Ok (Some v), w2)
    /\ Cache.store w2
       = <[Cache._make_key cache_manager cache_key := serialized]> (Cache.store w)
    /\ QueryCache_wrapper (Some cache_manager) cache_key self func w2
       = (Ok (Some v), w2).
Proof.
  intros (Hd & Ht & Hl) Hmiss Hfunc Hkeep.
  unfold QueryCache_wrapper.
  eexists. split; [| split].
  - rewrite (bind_ok _ _ w None w).
    2:{ rewrite mock_get_eval, Hmiss. reflexivity. }
    rewrite (bind_ok _ _ _ _ _ Hfunc).
    rewrite (bind_ok _ _ _ _ _ (mock_set_result_eval _ _ (Some v) _ _ _ Hd)).
    reflexivity.
  - cbn [Cache.store]. rewrite Hkeep. reflexivity.
  - match goal with |- bind _ _ ?w2 = _ => rewrite (bind_ok _ _ w2 (Some v) w2) end.
    + reflexivity.
    + rewrite mock_get_eval. cbn [Cache.store]. unfold Cache.MockRedisClient.
      rewrite lookup_insert_eq.
      destruct serialized as [| a t]; [discriminate Ht |]. rewrite Hl. reflexivity.
Qed.

(** X13. A decorated function that returns [None] is never served from
    the cache: the call stores the text "null" under its key, and the next
    call, finding it, runs the function and stores its result again just as
    a call that found nothing does. *)
Theorem X13_query_cache_never_serves_none
    (cache_manager : Cache.CacheManager) (self : QueryCache) (cache_key : string)
    (func : M (Cache.CacheWorld Cache.MockRedisClient) (option V))
    (w w1 : Cache.CacheWorld Cache.MockRedisClient) :
  Cache.loads "null" = Ok None ->
  Cache.store w !! Cache._make_key cache_manager cache_key = None ->
  func w = (Ok None, w1) ->
  Cache.store w1 = Cache.store w ->
  exists w2,
    QueryCache_wrapper (Some cache_manager) cache_key self func w = (Ok None, w2)
    /\ Cache.store w2 !! Cache._make_key cache_manager cache_key = Some "null"
    /\ QueryCache_wrapper (Some cache_manager) cache_key self func w2
       = (result <- func ;;
          set_result cache_manager cache_key result (Some (qc_ttl self)) ;;;
          ret result) w2.
Proof.
  intros Hnull Hmiss Hfunc Hkeep.
  unfold QueryCache_wrapper.
  eexists. split; [| split].
  - rewrite (bind_ok _ _ w None w).
    2:{ rewrite mock_get_eval, Hmiss. reflexivity. }
    rewrite (bind_ok _ _ _ _ _ Hfunc).
    rewrite (bind_ok _ _ _ _ _ (mock_set_result_eval _ _ None _ _ _ eq_refl)).
    reflexivity.
  - cbn [Cache.store]. unfold Cache.MockRedisClient. apply lookup_insert_eq.
  - match goal with |- bind _ _ ?w2 = _ => rewrite (bind_ok _ _ w2 None w2) end.
    + reflexivity.
    + rewrite mock_get_eval. cbn [Cache.store]. unfold Cache.MockRedisClient.
      rewrite lookup_insert_eq. rewrite Hnull. reflexivity.
Qed.
End MockCache.

(** ** Cache operations with well-behaved collaborators *)

Section BestEffort.
Context {R V : Type} `{!Cache.RedisClient R} `{!Cache.Json V}.

Lemma on_client_raises {A} (c : M R A) (w : Cache.CacheWorld R) e w1 :
  Cache.on_client c w = (Raise e, w1) ->
  exists s1, c (Cache.store w) = (Raise e, s1).
Proof.
  unfold Cache.on_client. destruct (c (Cache.store w)) as [[a | e0] s1].
  - intros E0; discriminate E0.
  - intros E0; injection E0 as -> _. exists s1. reflexivity.
Qed.

Lemma try_except_total {S A} (body : M S A) catches handler :
  (forall s e s1, body s = (Raise e, s1) -> catches e = true) ->
  (forall e s, exists a s1, handler e s = (Ok a, s1)) ->
  forall s, exists a s1, try_except body catches handler s = (Ok a, s1).
Proof.
  intros Hb Hh s. unfold try_except.
  destruct (body s) as [[a | e] s1] eqn:E.
  - eexists _, _. reflexivity.
  - rewrite (Hb _ _ _ E). apply Hh.
Qed.

Lemma warning_then_returns {A} (msg : string) (d : A) (s : Cache.CacheWorld R) :
  exists a s1, (Cache.logger_warning msg ;;; ret d) s = (Ok a, s1).
Proof. eexists _, _. reflexivity. Qed.

(** X11. With a redis client that raises nothing but redis errors and a
    codec that raises nothing but [TypeError] on writing and
    [JSONDecodeError] on reading, none of [get], [set], [delete] and
    [invalidate_pattern] ever raises: each returns a value from every
    state. *)
Theorem X11_cache_never_raises (self : Cache.CacheManager)
    (op : Cache.Operation) (w : Cache.CacheWorld R) :
  client_raises_redis_errors_only ->
  codec_raises_json_errors_only ->
  exists returned w1, Cache.run self op w = (Ok returned, w1).
Proof.
  intros (Hget & Hset & Hdel & Hkeys) (Hdumps & Hloads).
  destruct op as [key | key value ttl | key | pattern]; cbn [Cache.run].
  - assert (exists a s1, Cache.get self key w = (Ok a, s1)) as (a & s1 & E).
    { unfold Cache.get. apply try_except_total.
      + intros s e s1 E. cbn zeta in E. unfold bind in E.
        destruct (Cache.on_client _ s) as [[value | e0] s0] eqn:Ec.
        * destruct (Str.truthy value).
          -- unfold lift in E. injection E as E _.
             rewrite (Hloads _ _ E). apply orb_true_r.
          -- discriminate E.
        * injection E as -> _. apply on_client_raises in Ec as [s2 Ec].
          rewrite (Hget _ _ _ _ Ec). reflexivity.
      + intros e s. apply warning_then_returns. }
    eexists _, _. rewrite (bind_ok _ _ _ _ _ E). reflexivity.
  - assert (exists a s1, Cache.set self key value ttl w = (Ok a, s1)) as (a & s1 & E).
    { unfold Cache.set. apply try_except_total.
      + intros s e s1 E. cbn zeta in E. unfold bind, lift in E.
        destruct (Cache.dumps value) as [ser | e0] eqn:Ed.
        * apply on_client_raises in E as [s2 Ec].
          rewrite (Hset _ _ _ _ _ _ Ec). reflexivity.
        * injection E as -> _. rewrite (Hdumps _ _ Ed). apply orb_true_r.
      + intros e s. apply warning_then_returns. }
    eexists _, _. rewrite (bind_ok _ _ _ _ _ E). reflexivity.
  - assert (exists a s1, Cache.delete self key w = (Ok a, s1)) as (a & s1 & E).
    { unfold Cache.delete. apply try_except_total.
      + intros s e s1 E. cbn zeta in E. unfold bind in E.
        destruct (Cache.on_client _ s) as [[n | e0] s0] eqn:Ec.
        * discriminate E.
        * injection E as -> _. apply on_client_raises in Ec as [s2 Ec].
          exact (Hdel _ _ _ _ Ec).
      + intros e s. apply warning_then_returns. }
    eexists _, _. rewrite (bind_ok _ _ _ _ _ E). reflexivity.
  - assert (exists a s1, Cache.invalidate_pattern self pattern w = (Ok a, s1))
      as (a & s1 & E).
    { unfold Cache.invalidate_pattern. apply try_except_total.
      + intros s e s1 E. cbn zeta in E. unfold bind in E.
        destruct (Cache.on_client (Cache.redis_keys _) s) as [[keys | e0] s0] eqn:Ec.
        * destruct keys as [| k keys]; [discriminate E |].
          apply on_client_raises in E as [s2 E]. exact (Hdel _ _ _ _ E).
        * injection E as -> _. apply on_client_raises in Ec as [s2 Ec].
          exact (Hkeys _ _ _ _ Ec).
      + intros e s. apply warning_then_returns. }
    eexists _, _. rewrite (bind_ok _ _ _ _ _ E). reflexivity.
Qed.
End BestEffort.

(** The collaborators of the demonstrations are well-behaved. *)
Lemma unreachable_raises_redis_errors_only :
  client_raises_redis_errors_only (R := Cache.Unreachable).
Proof.
  repeat split; intros; intros s e s1 E; injection E as <- _; reflexivity.
Qed.

Lemma json_text_raises_json_errors_only :
  codec_raises_json_errors_only (V := string).
Proof.
  split.
  - intros v e E. discriminate E.
  - intros t e. cbn.
    destruct (String.eqb t "null"); [intros E; discriminate E |].
    destruct (_ && _ && _); intros E; [discriminate E |].
    injection E as <-. reflexivity.
Qed.

Lemma rows_round_trip : round_trips "rows" (Cache.dq ++ "rows" ++ Cache.dq).
Proof. repeat split. Qed.

(** "rows" put under "k" and read back. *)
Lemma X9_rows :
  exists w1,
    Cache.set default_cache_manager "k" "rows" None empty_cache
    = (Ok (Some true), w1)
    /\ Cache.get default_cache_manager "k" w1 = (Ok (Some "rows"), w1)
    /\ Cache.store w1
       = <[Cache._make_key default_cache_manager "k"
           := Cache.dq ++ "rows" ++ Cache.dq]> (Cache.store empty_cache)
    /\ (forall key', key' <> "k" ->
          Cache.store w1 !! Cache._make_key default_cache_manager key'
          = Cache.store empty_cache !! Cache._make_key default_cache_manager key').
Proof.
  exact (X9_mock_cache_round_trip default_cache_manager "k" "rows" _ None
           empty_cache rows_round_trip).
Defined.

(** "rows" cached for the query hash "abc". *)
Lemma X14_rows :
  exists w1,
    cache_query_result default_cache_manager "abc" "rows" None empty_cache
    = (Ok (Some true), w1)
    /\ get_cached_query_result default_cache_manager "abc" w1
       = (Ok (Some "rows"), w1)
    /\ Cache.store w1 !! Cache._make_key default_cache_manager "abc"
       = Cache.store empty_cache !! Cache._make_key default_cache_manager "abc".
Proof.
  exact (X14_query_result_round_trip default_cache_manager "abc" "rows" _ None
           empty_cache rows_round_trip).
Defined.

(** Deleting while the server cannot be reached. *)
Lemma X11_unreachable_delete :
  exists returned w1,
    Cache.run (V := string) default_cache_manager (Cache.OpDelete "k")
      (Cache.mkCacheWorld Cache.Unreachable tt [])
    = (Ok returned, w1).
Proof.
  exact (X11_cache_never_raises default_cache_manager (Cache.OpDelete "k")
           (Cache.mkCacheWorld Cache.Unreachable tt [])
           unreachable_raises_redis_errors_only
           json_text_raises_json_errors_only).
Defined.

(** The decorated [get_users] of [example_integration.py], called twice. *)
Lemma X12_rows_twice :
  exists w2,
    QueryCache_wrapper (Some default_cache_manager)
      (query_cache_key length_hash users_cache "get_users" "()" "{}")
      users_cache fetch_rows empty_cache
    = (Ok (Some "rows"), w2)
    /\ Cache.store w2
       = <[Cache._make_key default_cache_manager
             (query_cache_key length_hash users_cache "get_users" "()" "{}")
           := Cache.dq ++ "rows" ++ Cache.dq]> (Cache.store empty_cache)
    /\ QueryCache_wrapper (Some default_cache_manager)
         (query_cache_key length_hash users_cache "get_users" "()" "{}")
         users_cache fetch_rows w2
       = (Ok (Some "rows"), w2).
Proof.
  apply (X12_query_cache_hits_after_first_call default_cache_manager
           users_cache _ fetch_rows "rows" _ empty_cache empty_cache
           rows_round_trip); reflexivity.
Defined.

(** A decorated function without a result, called once. *)
Lemma X13_nothing_cached :
  exists w2,
    QueryCache_wrapper (V := string) (Some default_cache_manager) "users:f:0"
      users_cache (ret None) empty_cache
    = (Ok None, w2)
    /\ Cache.store w2 !! Cache._make_key default_cache_manager "users:f:0"
       = Some "null"
    /\ QueryCache_wrapper (Some default_cache_manager) "users:f:0"
         users_cache (ret None) w2
       = (result <- ret None ;;
          set_result default_cache_manager "users:f:0" result
            (Some (qc_ttl users_cache)) ;;;
          ret result) w2.
Proof.
  apply (X13_query_cache_never_serves_none default_cache_manager users_cache
           "users:f:0" (ret None) empty_cache empty_cache); reflexivity.
Defined.

(** ** The database URL *)

Lemma replace_first_at_start (old new s : string) :
  String.prefix old s = true ->
  StrMore.replace_first old new s = new ++ StrMore.drop (String.length old) s.
Proof.
  intros H. destruct s; cbn [StrMore.replace_first]; rewrite H; reflexivity.
Qed.

(** X15. [DatabaseConfig.get_database_url] never returns a URL with the
    scheme "postgres://": a [DATABASE_URL] that starts with it is returned
    with "postgresql://" in its place and the rest untouched, any other
    non-empty [DATABASE_URL] is returned as it is, and an empty one counts
    as unset: the URL is then built from the [DB_*] variables, which gives
    "postgresql://postgres:@localhost:5432/biped" in an empty
    environment. *)
Theorem X15_database_url_scheme (environ : gmap string string) :
  String.prefix "postgres://" (get_database_url environ) = false
  /\ (forall rest,
        get_database_url (<["DATABASE_URL" := "postgres://" ++ rest]> environ)
        = "postgresql://" ++ rest)
  /\ (forall url,
        get_database_url (<["DATABASE_URL" := url]> environ)
        = if String.prefix "postgres://" url
          then "postgresql://" ++ StrMore.drop 11 url
          else if Str.truthy (Some url) then url
          else get_database_url (base.delete "DATABASE_URL" environ))
  /\ get_database_url ∅ = "postgresql://postgres:@localhost:5432/biped".
Proof.
  split; [| split; [| split]].
  - unfold get_database_url.
    destruct (Str.truthy (environ !! "DATABASE_URL")) eqn:Ht.
    + destruct (String.prefix "postgres://"
                  (get_or (environ !! "DATABASE_URL") EmptyString)) eqn:Hp.
      * rewrite (replace_first_at_start _ _ _ Hp). reflexivity.
      * exact Hp.
    + reflexivity.
  - intros rest. unfold get_database_url. rewrite lookup_insert_eq.
    cbn [get_or].
    change (Str.truthy (Some ("postgres://" ++ rest))) with true. cbv iota.
    change (String.prefix "postgres://" ("postgres://" ++ rest))
      with (String.prefix EmptyString rest).
    destruct rest; reflexivity.
  - intros url. unfold get_database_url at 1. rewrite lookup_insert_eq.
    cbn [get_or].
    destruct (String.prefix "postgres://" url) eqn:Hp.
    + assert (Ht : Str.truthy (Some url) = true).
      { destruct url; [discriminate Hp | reflexivity]. }
      rewrite Ht. rewrite (replace_first_at_start _ _ _ Hp). reflexivity.
    + destruct (Str.truthy (Some url)) eqn:Ht; [reflexivity |].
      unfold get_database_url, getenv_or.
      rewrite lookup_delete_eq. cbn [Str.truthy].
      rewrite !lookup_insert_ne by discriminate.
      rewrite !lookup_delete_ne by discriminate. reflexivity.
  - reflexivity.
Qed.

(** ** The query monitor *)

Section MonitorCounters.
Import Monitor.

Lemma how_many_snoc (f : Recorded -> bool) (calls : list Recorded)
    (c : Recorded) :
  how_many f (calls ++ [c]) = how_many f calls + (if f c then 1 else 0).
Proof.
  unfold how_many. rewrite List.filter_app, List.length_app. cbn.
  destruct (f c); cbn; lia.
Qed.

Lemma how_many_nonneg (f : Recorded -> bool) (calls : list Recorded) :
  0 <= how_many f calls.
Proof. unfold how_many. lia. Qed.

(** One more call keeps the counters in step with the calls. *)
Lemma monitor_agrees_record (threshold : float) (m : DatabaseMonitor)
    (calls : list Recorded) (c : Recorded) :
  monitor_agrees threshold m calls ->
  monitor_agrees threshold
    (fst (record_query m (query c) (duration c) (success c))) (calls ++ [c]).
Proof.
  intros [Hthr H]. unfold record_query.
  set (qt := _get_query_type (query c)).
  set (old := get_or (query_stats m !! qt) new_stats).
  assert (Hold : count old = how_many (of_type qt) calls
                 /\ errors old = how_many (failed_of_type qt) calls
                 /\ slow_queries old
                    = how_many (slow_of_type threshold qt) calls).
  { specialize (H qt). unfold old.
    destruct (query_stats m !! qt) as [st |]; cbn.
    - tauto.
    - assert (E1 : how_many (failed_of_type qt) calls = 0).
      { pose proof (how_many_nonneg (failed_of_type qt) calls).
        assert (how_many (failed_of_type qt) calls
                <= how_many (of_type qt) calls).
        { unfold how_many. apply inj_le.
          clear. induction calls as [| a l IH]; cbn; [lia |].
          unfold failed_of_type at 1. destruct (of_type qt a); cbn;
            [| exact IH].
          destruct (negb (success a)); cbn; lia. }
        lia. }
      assert (E2 : how_many (slow_of_type threshold qt) calls = 0).
      { pose proof (how_many_nonneg (slow_of_type threshold qt) calls).
        assert (how_many (slow_of_type threshold qt) calls
                <= how_many (of_type qt) calls).
        { unfold how_many. apply inj_le.
          clear. induction calls as [| a l IH]; cbn; [lia |].
          unfold slow_of_type at 1. destruct (of_type qt a); cbn;
            [| exact IH].
          destruct (success a && float_gt (duration a) threshold); cbn; lia. }
        lia. }
      rewrite H, E1, E2. repeat split. }
  destruct Hold as (Hc & He & Hs).
  assert (Hqt : of_type qt c = true) by apply String.eqb_refl.
  pose proof (how_many_nonneg (of_type qt) calls) as Hnn.
  split.
  { destruct (success c); [destruct (float_gt _ _) |]; cbn; exact Hthr. }
  intros t.
  assert (Hcase :
    query_stats (fst (let '(stats, log) :=
        if success c
        then
          if float_gt (duration c) (slow_query_threshold m)
          then (mkStats (count old + 1) (total_duration old + duration c)%Q
                  ((total_duration old + duration c)
                   / inject_Z (count old + 1))%Q
                  (slow_queries old + 1) (errors old),
                [SlowQuery qt (duration c)])
          else (mkStats (count old + 1) (total_duration old + duration c)%Q
                  ((total_duration old + duration c)
                   / inject_Z (count old + 1))%Q
                  (slow_queries old) (errors old), [])
        else (mkStats (count old + 1) (total_duration old) (avg_duration old)
                (slow_queries old) (errors old + 1), []) in
      (mkMonitor (<[qt := stats]> (query_stats m)) (slow_query_threshold m),
       log)))
    !! t
    = if decide (qt = t)
      then Some (mkStats (count old + 1)
                   (if success c then (total_duration old + duration c)%Q
                    else total_duration old)
                   (if success c
                    then ((total_duration old + duration c)
                          / inject_Z (count old + 1))%Q
                    else avg_duration old)
                   (slow_queries old
                    + (if success c
                          && float_gt (duration c) (slow_query_threshold m)
                       then 1 else 0))
                   (errors old + (if success c then 0 else 1)))
      else query_stats m !! t).
  { destruct (success c); [destruct (float_gt _ _) |]; cbn;
      rewrite lookup_insert; case_decide; try reflexivity;
      rewrite ?Z.add_0_r; reflexivity. }
  cbv zeta. rewrite Hcase. clear Hcase.
  rewrite !how_many_snoc.
  case_decide as Ht.
  - subst t. cbn [count errors slow_queries].
    unfold failed_of_type at 2, slow_of_type at 2. rewrite Hqt, Hthr.
    cbn [andb].
    repeat split; try lia;
      destruct (success c); cbn [andb negb]; try lia;
      destruct (float_gt (duration c) threshold); lia.
  - assert (Hnt : of_type t c = false).
    { unfold of_type. fold qt. apply String.eqb_neq. exact Ht. }
    unfold failed_of_type at 2, slow_of_type at 2. rewrite Hnt. cbn [andb].
    rewrite !Z.add_0_r. apply H.
Qed.

Lemma monitor_agrees_record_all (threshold : float)
    (calls done : list Recorded) (m : DatabaseMonitor) :
  monitor_agrees threshold m done ->
  monitor_agrees threshold (record_all m calls) (done ++ calls).
Proof.
  revert done m. induction calls as [| c rest IH]; intros done m H.
  - rewrite app_nil_r. exact H.
  - cbn [record_all].
    replace (done ++ c :: rest)%list with ((done ++ [c]) ++ rest)%list
      by (rewrite <- List.app_assoc; reflexivity).
    apply IH, monitor_agrees_record, H.
Qed.

(** X16. After any series of [record_query] calls on a new
    [DatabaseMonitor], the table has an entry for a query type exactly when
    a call of that type was recorded, and the entry's [count] is the number
    of those calls, [errors] the number of them with [success=False], and
    [slow_queries] the number of successful ones whose duration exceeded
    the threshold: a failed call is never counted as slow. *)
Theorem X16_monitor_counts_the_calls (threshold : float)
    (calls : list Recorded) (t : string) :
  match query_stats (record_all (new_monitor threshold) calls) !! t with
  | None => how_many (of_type t) calls = 0
  | Some st =>
      count st = how_many (of_type t) calls
      /\ 0 < count st
      /\ errors st = how_many (failed_of_type t) calls
      /\ slow_queries st = how_many (slow_of_type threshold t) calls
  end.
Proof.
  assert (H0 : monitor_agrees threshold (new_monitor threshold) []).
  { split; [reflexivity |]. intros t0. cbn. rewrite lookup_empty. reflexivity. }
  destruct (monitor_agrees_record_all threshold calls [] _ H0) as [_ H].
  exact (H t).
Qed.

Lemma get_query_type_cases (q : string) : _get_query_type q ∈ query_types.
Proof.
  unfold _get_query_type, query_types.
  repeat match goal with
         | |- context [if ?b then _ else _] => destruct b
         end;
    apply list_elem_of_In; cbn; tauto.
Qed.

Lemma record_query_inserts (m : DatabaseMonitor) (q : string) (d : float)
    (ok : bool) :
  exists st,
    query_stats (fst (record_query m q d ok))
    = <[_get_query_type q := st]> (query_stats m).
Proof.
  unfold record_query.
  destruct ok; [destruct (float_gt d (slow_query_threshold m)) |];
    eexists; reflexivity.
Qed.

Lemma record_all_types (calls : list Recorded) (m : DatabaseMonitor) :
  dom (query_stats m) ⊆ (list_to_set query_types : gset string) ->
  dom (query_stats (record_all m calls))
  ⊆ (list_to_set query_types : gset string).
Proof.
  revert m. induction calls as [| c rest IH]; intros m H; [exact H |].
  cbn [record_all]. apply IH.
  destruct (record_query_inserts m (query c) (duration c) (success c))
    as [st ->].
  rewrite dom_insert. apply union_subseteq. split; [| exact H].
  apply singleton_subseteq_l, elem_of_list_to_set, get_query_type_cases.
Qed.

(** X17. Whatever statements are recorded, the table of a
    [DatabaseMonitor] only ever has the keys SELECT, INSERT, UPDATE, DELETE
    and OTHER, so it never holds more than five entries. *)
Theorem X17_monitor_table_is_bounded (threshold : float)
    (calls : list Recorded) :
  let m := record_all (new_monitor threshold) calls in
  dom (query_stats m) ⊆ (list_to_set query_types : gset string)
  /\ (size (query_stats m) <= 5)%nat.
Proof.
  cbv zeta.
  assert (H : dom (query_stats (record_all (new_monitor threshold) calls))
              ⊆ (list_to_set query_types : gset string)).
  { apply record_all_types. cbn [new_monitor query_stats].
    rewrite dom_empty. apply empty_subseteq. }
  split; [exact H |].
  rewrite <- size_dom. apply subseteq_size in H.
  etransitivity; [exact H |]. reflexivity.
Qed.

End MonitorCounters.

(** ** The request logger *)

Section RequestDataFilter.
Import Middleware.

Lemma filter_dict (items : list (string * PyValue)) :
  _filter_sensitive_data (PDict items)
  = PDict
      (List.map
         (fun item : string * PyValue =>
            let '(key, value) := item in
            if is_sensitive key then (key, PStr "[FILTERED]")
            else
              match value with
              | PDict _ => (key, _filter_sensitive_data value)
              | _ => (key, value)
              end)
         items).
Proof. reflexivity. Qed.

Lemma filtered_cons (key : string) (value : PyValue)
    (rest : list (string * PyValue)) :
  filtered (PDict ((key, value) :: rest))
  = ((if is_sensitive key then value = PStr "[FILTERED]" else filtered value)
     /\ filtered (PDict rest)).
Proof. reflexivity. Qed.

(** X18. [_filter_sensitive_data] returns a dictionary with the same keys
    in the same order; in its result no sensitive key, at any depth of
    dictionaries nested under non-sensitive keys, keeps its value; and
    filtering a second time changes nothing. *)
Theorem X18_request_data_filter : forall data : PyValue,
  keys (_filter_sensitive_data data) = keys data
  /\ filtered (_filter_sensitive_data data)
  /\ _filter_sensitive_data (_filter_sensitive_data data)
     = _filter_sensitive_data data.
Proof.
  fix IH 1. intros [| | | | | | items]; try (repeat split; reflexivity).
  rewrite !filter_dict. unfold keys.
  induction items as [| [key value] rest IHrest];
    [repeat split; reflexivity |].
  destruct IHrest as (Hkeys & Hfiltered & Hagain).
  injection Hagain as Hagain.
  cbn [List.map fst].
  destruct (IH value) as (_ & Hvalue & Hvalue2).
  split; [| split].
  - f_equal; [| exact Hkeys].
    destruct (is_sensitive key); [reflexivity |]. destruct value; reflexivity.
  - destruct (is_sensitive key) eqn:Hk.
    + rewrite filtered_cons, Hk. split; [reflexivity | exact Hfiltered].
    + destruct value; rewrite filtered_cons, Hk;
        (split; [try exact I | exact Hfiltered]).
      exact Hvalue.
  - f_equal. f_equal; [| exact Hagain].
    destruct (is_sensitive key) eqn:Hk.
    + rewrite Hk. reflexivity.
    + destruct value; rewrite ?Hk; try reflexivity.
      rewrite Hvalue2. rewrite filter_dict. reflexivity.
Qed.

(** X19. A list is not looked into: a list stored under a non-sensitive
    key (of ASCII characters) is returned as it is, whatever dictionaries
    and sensitive keys it contains. *)
Theorem X19_lists_are_not_filtered (items : list (string * PyValue))
    (key : string) (elements : list PyValue) :
  StrMore.ascii_only key = true ->
  is_sensitive key = false ->
  In (key, PList elements) items ->
  exists items',
    _filter_sensitive_data (PDict items) = PDict items'
    /\ In (key, PList elements) items'.
Proof.
  intros _ Hk Hin. rewrite filter_dict. eexists. split; [reflexivity |].
  apply List.in_map_iff. exists (key, PList elements).
  split; [| exact Hin]. rewrite Hk. reflexivity.
Qed.

End RequestDataFilter.

(** A password in a list of users. *)
Lemma X19_password_in_a_list :
  StrMore.ascii_only "users" = true
  /\ Middleware.is_sensitive "users" = false
  /\ exists items',
       Middleware._filter_sensitive_data
         (PDict [("users", PList [PDict [("password", PStr "hunter2")]])])
       = PDict items'
       /\ In ("users", PList [PDict [("password", PStr "hunter2")]]) items'.
Proof.
  split; [reflexivity |]. split; [reflexivity |].
  apply (X19_lists_are_not_filtered
           [("users", PList [PDict [("password", PStr "hunter2")]])]
           "users" [PDict [("password", PStr "hunter2")]]).
  - reflexivity.
  - reflexivity.
  - left. reflexivity.
Defined.

Lemma prefix_of_longer (a b s : string) :
  String.prefix (a ++ b) s = true -> String.prefix a s = true.
Proof.
  revert s. induction a as [| c a IH]; intros s H.
  - destruct s; reflexivity.
  - destruct s as [| d s]; [discriminate H |].
    change (String.prefix (String c (a ++ b)) (String d s) = true) in H.
    cbn [String.prefix] in *.
    destruct (ascii_dec c d); [| discriminate H]. apply IH, H.
Qed.

Section Logging.
Import Middleware.

(** X20. A request is left out of the request log exactly when its path
    starts with "/health", "/static/" or "/favicon.ico" (the three longer
    health entries of [skip_paths] add nothing, and any path that merely
    begins with "/health" is left out too).  Every path under the prefix
    "/api", under which [register_blueprints] mounts the health routes, is
    logged: the health routes are skipped as they are written in the list
    but not as they are served. *)
Theorem X20_paths_left_out_of_the_log (path rest : string) :
  _should_skip_logging path
  = String.prefix "/health" path || String.prefix "/static/" path
    || String.prefix "/favicon.ico" path
  /\ _should_skip_logging (health_url_prefix ++ rest) = false
  /\ Forall (fun served => _should_skip_logging served = false)
       mounted_health_paths
  /\ Forall (fun route => _should_skip_logging route = true) health_routes.
Proof.
  split; [| split; [| split]].
  - unfold _should_skip_logging, skip_paths. cbn [existsb].
    destruct (String.prefix "/health" path) eqn:Hh; [reflexivity |].
    assert (Hsub : forall sub, String.prefix ("/health" ++ sub) path = false).
    { intros sub. destruct (String.prefix ("/health" ++ sub) path) eqn:E;
        [| reflexivity].
      apply prefix_of_longer in E. congruence. }
    change "/health/live" with ("/health" ++ "/live").
    change "/health/ready" with ("/health" ++ "/ready").
    change "/health/metrics" with ("/health" ++ "/metrics").
    rewrite !Hsub. cbn [orb]. rewrite orb_false_r. reflexivity.
  - unfold _should_skip_logging, skip_paths, health_url_prefix.
    change ("/api" ++ rest) with (String "/" (String "a" ("pi" ++ rest))).
    reflexivity.
  - repeat constructor.
  - repeat constructor.
Qed.

End Logging.

(** ** API versions *)

Lemma split_slash_segment (seg : string) :
  StrMore.no_slash seg = true -> StrMore.split_slash seg = [seg].
Proof.
  induction seg as [| c seg IH]; [reflexivity |].
  cbn [StrMore.no_slash StrMore.split_slash]. intros H.
  apply andb_prop in H as [Hc Hseg].
  destruct (Ascii.eqb c "/"); [discriminate Hc |].
  rewrite (IH Hseg). reflexivity.
Qed.

Lemma split_slash_first (seg rest : string) :
  StrMore.no_slash seg = true ->
  StrMore.split_slash (seg ++ "/" ++ rest) = seg :: StrMore.split_slash rest.
Proof.
  induction seg as [| c seg IH]; [reflexivity |].
  cbn [StrMore.no_slash]. intros H.
  apply andb_prop in H as [Hc Hseg].
  change (String c seg ++ "/" ++ rest) with (String c (seg ++ "/" ++ rest)).
  cbn [StrMore.split_slash].
  destruct (Ascii.eqb c "/"); [discriminate Hc |].
  rewrite (IH Hseg). reflexivity.
Qed.

Lemma split_slash_api (s : string) :
  StrMore.split_slash ("/api/" ++ s)
  = EmptyString :: "api" :: StrMore.split_slash s.
Proof. reflexivity. Qed.

Lemma prefix_api (s : string) : String.prefix "/api/" ("/api/" ++ s) = true.
Proof.
  change (String.prefix "/api/" ("/api/" ++ s))
    with (String.prefix EmptyString s).
  destruct s; reflexivity.
Qed.

Section Versioning.
Import Middleware.

Lemma version_of_segment (default_version seg : string)
    (header : option string) (path : string) (parts : list string) :
  Str.truthy header = false ->
  StrMore.split_slash path = EmptyString :: "api" :: seg :: parts ->
  String.prefix "/api/" path = true ->
  api_version default_version header path
  = if String.prefix "v" seg then seg else default_version.
Proof.
  intros Hh Hsplit Hp. unfold api_version. rewrite Hh, Hp, Hsplit.
  cbn [negb andb].
  destruct (String.prefix "v" seg) eqn:Hv.
  - destruct seg; [discriminate Hv | reflexivity].
  - rewrite Hh. reflexivity.
Qed.

(** X21. [APIVersionMiddleware.before_request] lets the request through
    exactly when the version it stores is "v1" or "v2", and otherwise
    aborts with 400 and the message "Unsupported API version: ..." naming
    it.  A non-empty [API-Version] header is the version, whatever the
    path.  Without one, a path outside "/api/" gets the default, and a path
    "/api/<segment>" or "/api/<segment>/..." gets the segment if it starts
    with "v" (whether or not it is a version) and the default otherwise. *)
Theorem X21_api_version (default_version : string) (header : option string)
    (path : string) :
  let version := fst (before_request default_version header path) in
  let verdict := snd (before_request default_version header path) in
  (verdict = Proceed <-> version = "v1" \/ version = "v2")
  /\ (verdict <> Proceed ->
      verdict = Abort400 ("Unsupported API version: " ++ version))
  /\ (Str.truthy header = true -> version = get_or header EmptyString)
  /\ (Str.truthy header = false -> String.prefix "/api/" path = false ->
      version = default_version)
  /\ (Str.truthy header = false ->
      forall seg rest,
        StrMore.no_slash seg = true ->
        path = "/api/" ++ seg \/ path = "/api/" ++ seg ++ "/" ++ rest ->
        version = if String.prefix "v" seg then seg else default_version).
Proof.
  cbv zeta. unfold before_request.
  set (version := api_version default_version header path).
  split; [| split; [| split; [| split]]].
  - unfold supported_versions. cbn [existsb].
    destruct (String.eqb_spec version "v1") as [E1 | N1];
      [cbn; split; auto |].
    destruct (String.eqb_spec version "v2") as [E2 | N2];
      [cbn; split; auto |].
    cbn. split; [discriminate | intros [? | ?]; contradiction].
  - destruct (existsb _ _); cbn; [contradiction | reflexivity].
  - intros Hh.
    assert (E : version = get_or header EmptyString).
    { unfold version, api_version. rewrite Hh. cbn [negb andb]. rewrite Hh.
      reflexivity. }
    destruct (existsb _ _); exact E.
  - intros Hh Hp.
    assert (E : version = default_version).
    { unfold version, api_version. rewrite Hh, Hp. cbn [negb andb].
      rewrite Hh. reflexivity. }
    destruct (existsb _ _); exact E.
  - intros Hh seg rest Hseg Hpath.
    assert (E : version
                = if String.prefix "v" seg then seg else default_version).
    { unfold version. destruct Hpath as [-> | ->].
      - apply (version_of_segment _ _ _ _ []);
          [exact Hh | | apply prefix_api].
        rewrite split_slash_api, (split_slash_segment _ Hseg). reflexivity.
      - apply (version_of_segment _ _ _ _ (StrMore.split_slash rest));
          [exact Hh | | apply prefix_api].
        rewrite split_slash_api, (split_slash_first _ _ Hseg). reflexivity. }
    destruct (existsb _ _); exact E.
Qed.

End Versioning.

(** A route under "/api/" whose first segment starts with "v". *)
Lemma X21_vendors :
  Middleware.before_request "v1" None "/api/vendors/7"
  = ("vendors", Middleware.Abort400 "Unsupported API version: vendors").
Proof.
  pose proof (X21_api_version "v1" None "/api/vendors/7") as H.
  cbv zeta in H.
  destruct (Middleware.before_request "v1" None "/api/vendors/7")
    as [version verdict].
  cbn [fst snd] in H. destruct H as (Hv & Ha & _ & _ & Hseg).
  specialize (Hseg eq_refl "vendors" "7" eq_refl (or_intror eq_refl)).
  cbn in Hseg. subst version.
  rewrite Ha; [reflexivity |].
  intros Hp. apply Hv in Hp as [Hp | Hp]; discriminate Hp.
Defined.

(** ** The Sentry filter and the rate limiter *)

Lemma dict_get_set {A} (name k : string) (a : A) (d : list (string * A)) :
  Dict.get k (Dict.set name a d)
  = if String.eqb name k then Some a else Dict.get k d.
Proof.
  induction d as [| [k0 v0] rest IH]; cbn [Dict.set Dict.get].
  - rewrite (String.eqb_sym name k). reflexivity.
  - destruct (String.eqb_spec k0 name) as [-> | Hne]; cbn [Dict.get].
    + destruct (String.eqb_spec name k); reflexivity.
    + destruct (String.eqb_spec k0 k) as [-> | Hne2].
      * destruct (String.eqb_spec name k) as [-> | _];
          [contradiction | reflexivity].
      * exact IH.
Qed.

Lemma dict_set_keys {A} (name : string) (a : A) (d : list (string * A)) :
  Dict.get name d <> None ->
  List.map fst (Dict.set name a d) = List.map fst d.
Proof.
  induction d as [| [k0 v0] rest IH]; cbn [Dict.set Dict.get];
    [contradiction |].
  destruct (String.eqb k0 name); [reflexivity |].
  intros H. cbn [List.map fst]. f_equal. apply IH, H.
Qed.


Section SentryFilter.
Import Sentry.

Lemma mask_masked (names : list string) (d : list (string * PyValue)) :
  masked names d (mask names d).
Proof.
  unfold mask. revert d. induction names as [| name names IH]; intros d.
  - split; [reflexivity |]. intros k. reflexivity.
  - cbn [fold_left].
    destruct (IH (match Dict.get name d with
                  | Some _ => Dict.set name (PStr "[Filtered]") d
                  | None => d
                  end)) as [Hkeys Hget].
    split.
    + rewrite Hkeys. destruct (Dict.get name d) eqn:E; [| reflexivity].
      apply dict_set_keys. congruence.
    + intros k. rewrite Hget.
      destruct (decide (k = name)) as [-> | Hne].
      * rewrite (bool_decide_eq_true_2 (name ∈ name :: names)) by (left).
        destruct (Dict.get name d) eqn:E.
        -- rewrite dict_get_set, String.eqb_refl.
           destruct (bool_decide _); reflexivity.
        -- rewrite E. destruct (bool_decide _); reflexivity.
      * assert (Hsame :
          Dict.get k (match Dict.get name d with
                      | Some _ => Dict.set name (PStr "[Filtered]") d
                      | None => d
                      end) = Dict.get k d).
        { destruct (Dict.get name d); [| reflexivity].
          rewrite dict_get_set.
          destruct (String.eqb_spec name k); [congruence | reflexivity]. }
        rewrite Hsame.
        destruct (decide (k ∈ names)) as [Hin | Hnin].
        -- rewrite !bool_decide_eq_true_2;
             [reflexivity | right; exact Hin | exact Hin].
        -- rewrite !bool_decide_eq_false_2; [reflexivity | | exact Hnin].
           intros H. apply elem_of_cons in H as [? | ?]; contradiction.
Qed.

(** X22. The Sentry [before_send] filter keeps the shape of the event: an
    event without a request is returned as it is, and in a request the
    headers and the data stay present or absent as they were, with the same
    keys in the same order.  Among the headers exactly those named
    "authorization", "x-api-key", "cookie" and "x-auth-token", spelt
    exactly so, get the value "[Filtered]"; in data that is a dictionary
    exactly the keys "password", "token", "secret" and "key" do; every
    other header and field (one named "Authorization" or "api_key", say)
    keeps its value, and data that is not a dictionary is not touched. *)
Theorem X22_sentry_filter (event : SentryEvent) :
  match request event, request (filter_sensitive_data event) with
  | None, None => True
  | Some r, Some r' =>
      match headers r, headers r' with
      | None, None => True
      | Some h, Some h' => masked sensitive_headers h h'
      | _, _ => False
      end
      /\ match data r, data r' with
         | Some (PDict items), Some (PDict items') =>
             masked sensitive_fields items items'
         | Some (PDict _), _ => False
         | other, other' => other' = other
         end
  | _, _ => False
  end.
Proof.
  unfold filter_sensitive_data.
  destruct (request event) as [r |] eqn:Hr; [| rewrite Hr; exact I].
  cbn [request Sentry.headers Sentry.data]. split.
  - destruct (headers r); [apply mask_masked | exact I].
  - destruct (data r) as [[| | | | | | items] |]; try reflexivity.
    apply mask_masked.
Qed.

End SentryFilter.

Lemma append_inj (s a b : string) : s ++ a = s ++ b -> a = b.
Proof.
  induction s as [| c s IH]; intros H; [exact H |].
  change (String c (s ++ a) = String c (s ++ b)) in H.
  injection H as H. apply IH, H.
Qed.

(** X23. The rate limiter's bucket for a request with a non-empty
    [X-API-Key] header is named by that header alone: neither the user nor
    the address enters it, and two such requests share a bucket exactly
    when their headers are equal. *)
Theorem X23_rate_limit_key (k1 k2 : string) (u1 u2 : option string)
    (a1 a2 : string) :
  Str.truthy (Some k1) = true ->
  Str.truthy (Some k2) = true ->
  get_rate_limit_key (Some k1) u1 a1 = "api_key:" ++ k1
  /\ (get_rate_limit_key (Some k1) u1 a1 = get_rate_limit_key (Some k2) u2 a2
      <-> k1 = k2).
Proof.
  intros H1 H2. unfold get_rate_limit_key. rewrite H1, H2. cbn [get_or].
  split; [reflexivity |]. split.
  - apply append_inj.
  - intros ->. reflexivity.
Qed.

(** Two requests from one address with different keys. *)
Lemma X23_two_keys :
  Str.truthy (Some "a") = true
  /\ Str.truthy (Some "b") = true
  /\ get_rate_limit_key (Some "a") None "10.0.0.1" = "api_key:" ++ "a"
  /\ (get_rate_limit_key (Some "a") None "10.0.0.1"
      = get_rate_limit_key (Some "b") None "10.0.0.1"
      <-> "a" = "b").
Proof.
  split; [reflexivity |]. split; [reflexivity |].
  apply (X23_rate_limit_key "a" "b" None None "10.0.0.1" "10.0.0.1");
    reflexivity.
Defined.

(** ** Health checks *)

Section HealthChecks.
Import Health.
Context {S : Type}.
Variable now_iso : S -> string.
Variable time_time : S -> float.





End HealthChecks.


Section RedisHealth.
Import Health.
Context {R : Type} `{!Cache.RedisClient R}.
Variable now_iso : R -> string.
Variable time_time : R -> float.
Variable round2 : float -> float.


End RedisHealth.

Section MockHealth.
Import Health.
Variable now_iso : Cache.MockRedisClient -> string.
Variable time_time : Cache.MockRedisClient -> float.
Variable round2 : float -> float.

(** X26. Over [MockRedisClient], the client [init_redis] installs when the
    server cannot be reached, [check_redis] reports healthy on every call,
    and it leaves the mock's data as they were except that the key
    "health_check_test" is gone. *)
Theorem X26_mock_redis_is_always_healthy (s : Cache.MockRedisClient) :
  exists entry,
    check_redis now_iso time_time round2 s
    = (Ok entry, base.delete "health_check_test" s)
    /\ healthy_entry entry = true.
Proof.
  eexists. split.
  - unfold check_redis, try_except, bind, gets, ret. cbn.
    unfold bind, gets, modify, ret. cbn.
    pose proof (delete_insert_eq (s : gmap string string)
                  "health_check_test" "test_value") as E.
    unfold Cache.MockRedisClient in *. rewrite E. reflexivity.
  - reflexivity.
Qed.

End MockHealth.

(** ** Configuration *)

Section Configuration.
Import Config.

Lemma config_cases (name : string) :
  (name = "production" /\ config name = Some ProductionConfig)
  \/ (name = "staging" /\ config name = Some StagingConfig)
  \/ (name = "testing" /\ config name = Some TestingConfig)
  \/ (name <> "production" /\ name <> "staging" /\ name <> "testing"
      /\ get_or (config name) DevelopmentConfig = DevelopmentConfig).
Proof.
  unfold config.
  destruct (String.eqb_spec name "development") as [-> | N1];
    [right; right; right; repeat split; discriminate |].
  destruct (String.eqb_spec name "testing") as [-> | N2];
    [right; right; left; split; reflexivity |].
  destruct (String.eqb_spec name "staging") as [-> | N3];
    [right; left; split; reflexivity |].
  destruct (String.eqb_spec name "production") as [-> | N4];
    [left; split; reflexivity |].
  right; right; right. repeat split; try assumption.
  destruct (String.eqb name "default"); reflexivity.
Qed.

(** X27. [get_config] selects by [FLASK_ENV] alone, compared exactly:
    "production", "staging" and "testing" give their classes and every
    other value, or none, gives [DevelopmentConfig].  The class
    [create_app] loads is that one, whatever [config_name] it is called
    with.  In the selected class [DEBUG] is off exactly for "production"
    and "staging" (the [DEBUG] variable has no part in it), and secure
    session cookies together with CSRF protection are on exactly for those
    two.  [init_sentry] calls [sentry_sdk.init] exactly when the selected
    class is [ProductionConfig] and its [SENTRY_DSN] is non-empty: never
    under [StagingConfig]. *)
Theorem X27_configuration_by_environment (environ : gmap string string) :
  let env := getenv_or environ "FLASK_ENV" "development" in
  let c := get_config environ in
  c = (if String.eqb env "production" then ProductionConfig
       else if String.eqb env "staging" then StagingConfig
       else if String.eqb env "testing" then TestingConfig
       else DevelopmentConfig)
  /\ (forall config_name, fst (create_app_config config_name environ) = c)
  /\ DEBUG environ c
     = negb (String.eqb env "production" || String.eqb env "staging")
  /\ SESSION_COOKIE_SECURE c && WTF_CSRF_ENABLED c
     = String.eqb env "production" || String.eqb env "staging"
  /\ (Sentry.init_sentry environ = true <->
      c = ProductionConfig /\ Str.truthy (SENTRY_DSN environ c) = true).
Proof.
  cbv zeta. unfold create_app_config, get_config, Sentry.init_sentry.
  cbn [fst].
  set (env := getenv_or environ "FLASK_ENV" "development").
  destruct (config_cases env) as
    [[E C] | [[E C] | [[E C] | (N1 & N2 & N3 & C)]]];
    rewrite ?C, ?E; cbn [get_or].
  - split; [reflexivity | split; [reflexivity | split;
      [reflexivity | split; [reflexivity |]]]].
    cbn [String.eqb Ascii.eqb Bool.eqb SENTRY_DSN]. rewrite andb_true_r.
    split; [intros Hs; split; [reflexivity | exact Hs]
           | intros [_ Hs]; exact Hs].
  - split; [reflexivity | split; [reflexivity | split;
      [reflexivity | split; [reflexivity |]]]].
    rewrite andb_false_r.
    split; [discriminate | intros [Hc _]; discriminate Hc].
  - split; [reflexivity | split; [reflexivity | split;
      [reflexivity | split; [reflexivity |]]]].
    rewrite andb_false_r.
    split; [discriminate | intros [Hc _]; discriminate Hc].
  - assert (P : String.eqb env "production" = false)
      by (apply String.eqb_neq; exact N1).
    assert (Q : String.eqb env "staging" = false)
      by (apply String.eqb_neq; exact N2).
    assert (T : String.eqb env "testing" = false)
      by (apply String.eqb_neq; exact N3).
    rewrite P, Q, T.
    split; [reflexivity | split; [reflexivity | split;
      [reflexivity | split; [reflexivity |]]]].
    split; [| intros [Hc _]; discriminate Hc].
    intros Hs. apply andb_prop in Hs as [_ Hs]. discriminate Hs.
Qed.

End Configuration.
